(** * The workflow execution context of the history service

    A shallow embedding of [service/history/workflowExecutionContext.go]:
    the per-execution transaction coordinator that loads the mutable state
    of one workflow run, appends history batches, commits mutations and
    snapshots to the shard, and drops its cache when an update fails.

    The Go methods mutate the receiver [c] (and the paired [newContext])
    through pointers and talk to the shard, the engine and the metrics
    client.  Here the contexts live in a store indexed by references, every
    call to a collaborator is appended to a trace, and each method is a
    state transformer over that world which ends normally, with a Go
    [error], or with a runtime panic. *)

From stdpp Require Import gmap strings list.
From Stdlib Require Import ZArith Lia.

Local Open Scope Z_scope.
Local Open Scope string_scope.

(** ** Data model *)

Definition bytes := list Byte.byte.
Definition time := Z.

(** Values the coordinator only stores and forwards. *)
Definition opaque := Z.

(** [int64] arithmetic of Go wraps around. *)
Definition to_int64 (z : Z) : Z := (z + 2 ^ 63) mod 2 ^ 64 - 2 ^ 63.
Definition add64 (a b : Z) : Z := to_int64 (a + b).

Inductive transactionPolicy :=
| transactionPolicyActive
| transactionPolicyPassive.

(** The error values the file builds or switches on; any other error of the
    persistence layer is [OtherError]. *)
Inductive error :=
| InternalServiceError (Message : string)
| BadRequestError (Message : string)
| EntityNotExistsError
| WorkflowExecutionAlreadyStartedError
| ConditionFailedError
| ErrConflict
| OtherError (Message : string).

Inductive panic :=
| NilPointerDereference
| IndexOutOfRange
| TypeAssertionFailed.

Record WorkflowExecution := {
  WorkflowId : string;
  RunId : string
}.

Record HistoryEvent := {
  EventId : Z;
  Version : Z
}.

Record WorkflowEvents := {
  evs_DomainID : string;
  evs_WorkflowID : string;
  evs_RunID : string;
  evs_BranchToken : bytes;
  evs_Events : list HistoryEvent
}.

Record ExecutionStats := {
  HistorySize : Z
}.

Record WorkflowExecutionInfo := {
  ei_DomainID : string;
  ei_WorkflowID : string;
  ei_RunID : string;
  ei_NextEventID : Z;
  ei_State : Z;
  ei_CloseStatus : Z
}.

(** [persistence.ReplicationState] is only passed on. *)
Record ReplicationState := {
  rs_Rest : opaque
}.

(** [persistence.HistoryReplicationTask], with the four fields the merge
    reads and writes. *)
Record HistoryReplicationTask := {
  hrt_Rest : opaque;
  hrt_BranchToken : bytes;
  hrt_EventStoreVersion : Z;
  hrt_NewRunBranchToken : bytes;
  hrt_NewRunEventStoreVersion : Z
}.

(** [persistence.Task] is an interface declared outside this file.  The code
    tells [*persistence.HistoryReplicationTask] apart from every other
    implementation and nothing more. *)
Inductive Task :=
| HistoryTask (t : HistoryReplicationTask)
| OtherTask (task : opaque).

Record WorkflowMutation := {
  wm_ExecutionInfo : WorkflowExecutionInfo;
  wm_ExecutionStats : option ExecutionStats;
  wm_ReplicationState : option ReplicationState;
  wm_UpsertActivityInfos : list opaque;
  wm_DeleteActivityInfos : list Z;
  wm_UpserTimerInfos : list opaque;
  wm_DeleteTimerInfos : list string;
  wm_UpsertChildExecutionInfos : list opaque;
  wm_DeleteChildExecutionInfo : option Z;
  wm_UpsertRequestCancelInfos : list opaque;
  wm_DeleteRequestCancelInfo : option Z;
  wm_UpsertSignalInfos : list opaque;
  wm_DeleteSignalInfo : option Z;
  wm_UpsertSignalRequestedIDs : list string;
  wm_DeleteSignalRequestedID : string;
  wm_NewBufferedEvents : list HistoryEvent;
  wm_ClearBufferedEvents : bool;
  wm_TransferTasks : list Task;
  wm_ReplicationTasks : list Task;
  wm_TimerTasks : list Task;
  wm_Condition : Z
}.

Record WorkflowSnapshot := {
  ws_ExecutionInfo : WorkflowExecutionInfo;
  ws_ExecutionStats : option ExecutionStats;
  ws_ReplicationState : option ReplicationState;
  ws_ChildExecutionInfos : list opaque;
  ws_SignalInfos : list opaque;
  ws_SignalRequestedIDs : list string;
  ws_TransferTasks : list Task;
  ws_ReplicationTasks : list Task;
  ws_TimerTasks : list Task;
  ws_Condition : Z
}.

(** *** Requests and responses of the persistence layer *)

Record GetWorkflowExecutionRequest := {
  get_DomainID : string;
  get_Execution : WorkflowExecution
}.

Record WorkflowMutableState := {
  st_ExecutionInfo : WorkflowExecutionInfo;
  st_ExecutionStats : option ExecutionStats;
  st_ReplicationState : option ReplicationState;
  st_Rest : opaque
}.

Record GetWorkflowExecutionResponse := {
  State : WorkflowMutableState;
  MutableStateStats : opaque
}.

Record AppendHistoryEventsRequest := {
  ahe_DomainID : string;
  ahe_Execution : WorkflowExecution;
  ahe_FirstEventID : Z;
  ahe_EventBatchVersion : Z;
  ahe_Events : list HistoryEvent
}.

Record AppendHistoryNodesRequest := {
  ahn_IsNewBranch : bool;
  ahn_Info : string;
  ahn_BranchToken : bytes;
  ahn_Events : list HistoryEvent
}.

Record CreateWorkflowExecutionRequest := {
  cr_CreateWorkflowMode : Z;
  cr_PreviousRunID : string;
  cr_PreviousLastWriteVersion : Z;
  cr_NewWorkflowSnapshot : WorkflowSnapshot
}.

Record CreateWorkflowExecutionResponse := {
  cr_Response : opaque
}.

Record UpdateWorkflowExecutionRequest := {
  UpdateWorkflowMutation : WorkflowMutation;
  NewWorkflowSnapshot : option WorkflowSnapshot
}.

Record UpdateWorkflowExecutionResponse := {
  MutableStateUpdateSessionStats : opaque
}.

Record ConflictResolveWorkflowExecutionRequest := {
  PrevRunID : string;
  PrevLastWriteVersion : Z;
  PrevState : Z;
  ResetWorkflowSnapshot : WorkflowSnapshot
}.

Record ResetWorkflowExecutionRequest := {
  BaseRunID : string;
  BaseRunNextEventID : Z;
  CurrentRunID : string;
  CurrentRunNextEventID : Z;
  CurrentWorkflowMutation : option WorkflowMutation;
  rst_NewWorkflowSnapshot : WorkflowSnapshot
}.

Record DomainCacheEntry := {
  dom_Name : string;
  dom_FailoverVersion : Z;
  dom_ReplicationPolicy : Z
}.

(** The arguments of [newHistoryEventNotification]. *)
Record historyEventNotification := {
  hen_domainID : string;
  hen_execution : WorkflowExecution;
  hen_lastFirstEventID : Z;
  hen_nextEventID : Z;
  hen_previousStartedEventID : Z;
  hen_isRunning : bool;
  hen_closeStatus : Z
}.

(** ** The trace of calls to collaborators *)

Inductive Event :=
| GetWorkflowExecutionCall (request : GetWorkflowExecutionRequest)
| AppendHistoryEventsCall (request : AppendHistoryEventsRequest)
| AppendHistoryV2EventsCall (request : AppendHistoryNodesRequest)
    (domainID : string) (execution : WorkflowExecution)
| CreateWorkflowExecutionCall (request : CreateWorkflowExecutionRequest)
| UpdateWorkflowExecutionCall (request : UpdateWorkflowExecutionRequest)
| ConflictResolveWorkflowExecutionCall
    (request : ConflictResolveWorkflowExecutionRequest)
| ResetWorkflowExecutionCall (request : ResetWorkflowExecutionRequest)
| GetDomainByIDCall (domainID : string)
| TimeSourceNowCall
| NotifyNewTransferTasks (tasks : list Task)
| NotifyNewReplicationTasks (tasks : list Task)
| NotifyNewTimerTasks (tasks : list Task)
| NotifyNewHistoryEvent (notification : historyEventNotification)
| IncCounterWorkflowContextCleared
| EmitWorkflowExecutionStats (domainName : string) (stats : opaque)
    (historySize : Z)
| EmitWorkflowHistoryStats (domainName : string) (historySize : Z)
    (historyCount : Z)
| EmitSessionUpdateStats (domainName : string) (stats : opaque)
| EmitWorkflowCompletionStats (domainName : string) (event : HistoryEvent)
| LogError (msg : string) (operation : string) (err : error)
    (condition : option Z).

(** The calls that reach the execution or the history store. *)
Definition isStorageCall (e : Event) : bool :=
  match e with
  | GetWorkflowExecutionCall _ | AppendHistoryEventsCall _
  | AppendHistoryV2EventsCall _ _ _ | CreateWorkflowExecutionCall _
  | UpdateWorkflowExecutionCall _ | ConflictResolveWorkflowExecutionCall _
  | ResetWorkflowExecutionCall _ => true
  | _ => false
  end.

Definition isFetch (e : Event) : bool :=
  match e with GetWorkflowExecutionCall _ => true | _ => false end.

Definition isAppend (e : Event) : bool :=
  match e with
  | AppendHistoryEventsCall _ | AppendHistoryV2EventsCall _ _ _ => true
  | _ => false
  end.

Definition isUpdate (e : Event) : bool :=
  match e with UpdateWorkflowExecutionCall _ => true | _ => false end.

Definition isReset (e : Event) : bool :=
  match e with ResetWorkflowExecutionCall _ => true | _ => false end.

Definition countCalls (p : Event -> bool) (tr : list Event) : nat :=
  length (filter (fun e => p e = true) tr).

(** ** Collaborators *)

(** The [mutableState] interface, restricted to the methods this file calls.
    Methods that change the builder return the changed builder. *)
Class MutableState (MS : Type) := {
  newMutableStateBuilder : string -> MS;
  Load : MS -> WorkflowMutableState -> MS;
  IsWorkflowExecutionRunning : MS -> bool;
  GetReplicationState : MS -> option ReplicationState;
  UpdateReplicationStateVersion : MS -> Z -> bool -> MS;
  UpdateReplicationPolicy : MS -> Z -> MS;
  CloseTransactionAsMutation :
    MS -> time -> transactionPolicy ->
    MS * (WorkflowMutation * list WorkflowEvents + error);
  CloseTransactionAsSnapshot :
    MS -> time -> transactionPolicy ->
    MS * (WorkflowSnapshot * list WorkflowEvents + error);
  GetExecutionInfo : MS -> WorkflowExecutionInfo;
  GetCurrentVersion : MS -> Z;
  GetLastFirstEventID : MS -> Z;
  GetNextEventID : MS -> Z;
  GetPreviousStartedEventID : MS -> Z;
  GetCompletionEvent : MS -> option HistoryEvent;
  GetHistoryBuilderEvents : MS -> list HistoryEvent;
  GetCurrentBranch : MS -> bytes;
  HasBufferedEvents : MS -> bool;
  FlushBufferedEvents : MS -> MS * option error
}.

(** What the shard, the execution manager, the domain cache, the cluster
    metadata and the time source answer.  The first argument of an answer is
    the number of collaborator calls made so far, so that the same request
    may be answered differently later on. *)
Class ShardContext := {
  GetWorkflowExecution :
    nat -> GetWorkflowExecutionRequest -> GetWorkflowExecutionResponse + error;
  AppendHistoryEvents : nat -> AppendHistoryEventsRequest -> Z * option error;
  AppendHistoryV2Events :
    nat -> AppendHistoryNodesRequest -> string -> WorkflowExecution ->
    Z * option error;
  CreateWorkflowExecution :
    nat -> CreateWorkflowExecutionRequest ->
    CreateWorkflowExecutionResponse + error;
  UpdateWorkflowExecution :
    nat -> UpdateWorkflowExecutionRequest ->
    UpdateWorkflowExecutionResponse + error;
  ConflictResolveWorkflowExecution :
    nat -> ConflictResolveWorkflowExecutionRequest -> option error;
  ResetWorkflowExecution :
    nat -> ResetWorkflowExecutionRequest -> option error;
  GetDomainByID : nat -> string -> DomainCacheEntry + error;
  IsGlobalDomainEnabled : bool;
  Now : nat -> time
}.

(** Declarations of the [common], [persistence] and [history] packages that
    the file uses and that live in other files. *)
Class Declarations := {
  IsPersistenceTransientError : error -> bool;
  persistenceOperationRetryPolicy : nat;
  WorkflowCloseStatusContinuedAsNew : Z;
  WorkflowStateCompleted : Z;
  BuildHistoryGarbageCleanupInfo : string -> string -> string -> string;
  setTaskInfo : Z -> time -> list Task -> list Task -> list Task * list Task
}.

(** ** The context and the world *)

Record workflowExecutionContextImpl (MS : Type) := mkContext {
  domainID : string;
  workflowExecution : WorkflowExecution;
  msBuilder : option MS;
  stats : option ExecutionStats;
  updateCondition : Z
}.
Arguments mkContext {MS}.
Arguments domainID {MS}.
Arguments workflowExecution {MS}.
Arguments msBuilder {MS}.
Arguments stats {MS}.
Arguments updateCondition {MS}.

(** A pointer to a context. *)
Definition contextRef := nat.

Record World (MS : Type) := mkWorld {
  contexts : gmap nat (workflowExecutionContextImpl MS);
  trace : list Event
}.
Arguments mkWorld {MS}.
Arguments contexts {MS}.
Arguments trace {MS}.

Inductive outcome (A : Type) :=
| Ok (a : A)
| Err (e : error)
| Panicked (p : panic).
Arguments Ok {A}.
Arguments Err {A}.
Arguments Panicked {A}.

Definition M (MS A : Type) : Type := World MS -> outcome A * World MS.

Definition ret {MS A} (a : A) : M MS A := fun w => (Ok a, w).
Definition fail {MS A} (e : error) : M MS A := fun w => (Err e, w).
Definition throw {MS A} (p : panic) : M MS A := fun w => (Panicked p, w).

Definition bind {MS A B} (m : M MS A) (k : A -> M MS B) : M MS B :=
  fun w =>
    match m w with
    | (Ok a, w') => k a w'
    | (Err e, w') => (Err e, w')
    | (Panicked p, w') => (Panicked p, w')
    end.

Notation "x <- m ;; k" := (bind m (fun x => k))
  (at level 20, m at level 99, k at level 200, only parsing).
Notation "' pat <- m ;; k" := (bind m (fun x => let 'pat := x in k))
  (at level 20, pat pattern, m at level 99, k at level 200, only parsing).
Notation "m ;;; k" := (bind m (fun _ => k))
  (at level 100, k at level 200, right associativity, only parsing).

(** ** The methods of [workflowExecutionContextImpl] *)

Section Methods.

Context {MS : Type} `{!MutableState MS} `{!ShardContext} `{!Declarations}.

Local Abbreviation context := (workflowExecutionContextImpl MS).
Local Abbreviation world := (World MS).

(** *** Primitive steps *)

(** Records a call to a collaborator. *)
Definition call (e : Event) : M MS unit :=
  fun w => (Ok tt, mkWorld (contexts w) (trace w ++ [e])).

(** Records a call and hands back what the collaborator answers at this
    point of the execution. *)
Definition ask {A} (answer : nat -> A) (e : Event) : M MS A :=
  fun w => (Ok (answer (length (trace w))),
            mkWorld (contexts w) (trace w ++ [e])).

(** Dereferences [c]. *)
Definition deref (c : contextRef) : M MS context :=
  fun w =>
    match contexts w !! c with
    | Some x => (Ok x, w)
    | None => (Panicked NilPointerDereference, w)
    end.

Definition store (c : contextRef) (x : context) : M MS unit :=
  fun w => (Ok tt, mkWorld (<[c := x]> (contexts w)) (trace w)).

Definition set_msBuilder (x : context) (b : option MS) : context :=
  mkContext (domainID x) (workflowExecution x) b (stats x) (updateCondition x).

Definition set_stats (x : context) (s : option ExecutionStats) : context :=
  mkContext (domainID x) (workflowExecution x) (msBuilder x) s
    (updateCondition x).

Definition set_updateCondition (x : context) (n : Z) : context :=
  mkContext (domainID x) (workflowExecution x) (msBuilder x) (stats x) n.

(** [c.msBuilder], on which a method is about to be called. *)
Definition the_msBuilder (c : contextRef) : M MS MS :=
  x <- deref c ;;
  match msBuilder x with
  | Some ms => ret ms
  | None => throw NilPointerDereference
  end.

Definition put_msBuilder (c : contextRef) (ms : MS) : M MS unit :=
  x <- deref c ;;
  store c (set_msBuilder x (Some ms)).

(** A deferred [if retError != nil { c.clear() }]: it runs when the body
    returns and when it panics, and in a panic [retError] is still nil. *)
Definition deferOnError {A} (cleanup : M MS unit) (body : M MS A) : M MS A :=
  fun w =>
    match body w with
    | (Err e, w') =>
        match cleanup w' with
        | (Ok _, w'') => (Err e, w'')
        | (Err _, w'') => (Err e, w'')
        | (Panicked p, w'') => (Panicked p, w'')
        end
    | r => r
    end.

(** The same deferred function, registered while the deferred function of
    [outer] is pending.  Deferred functions run last registered first, also
    while the function panics: when [cleanup] panics, [retError] is already
    set, so [outer] still runs its own cleanup before the panic goes on, and
    a panic of [outer] takes the place of the first. *)
Definition deferOnErrorWithin {A} (outer cleanup : M MS unit)
  (body : M MS A) : M MS A :=
  fun w =>
    match body w with
    | (Err e, w1) =>
        match cleanup w1 with
        | (Ok _, w2) => (Err e, w2)
        | (Err _, w2) => (Err e, w2)
        | (Panicked p, w2) =>
            match outer w2 with
            | (Panicked q, w3) => (Panicked q, w3)
            | (_, w3) => (Panicked p, w3)
            end
        end
    | r => r
    end.

(** Modelled from the spec: [backoff.Retry] of the common package, the retry
    harness that wraps each storage call in a bounded loop and tries again
    only while the error is classified as transient.  [n] is the number of
    further attempts the policy still allows; the answer of the last attempt
    is what the caller sees. *)
Fixpoint Retry {A} (op : M MS (A * option error)) (n : nat)
  : M MS (A * option error) :=
  '(resp, err) <- op ;;
  match err with
  | None => ret (resp, None)
  | Some e =>
      match n with
      | O => ret (resp, Some e)
      | S k =>
          if IsPersistenceTransientError e then Retry op k
          else ret (resp, Some e)
      end
  end.

(** *** Accessors *)

Definition clear (c : contextRef) : M MS unit :=
  x <- deref c ;;
  call IncCounterWorkflowContextCleared ;;;
  store c (set_stats (set_msBuilder x None) None).

Definition getDomainName (c : contextRef) : M MS string :=
  x <- deref c ;;
  r <- ask (fun n => GetDomainByID n (domainID x))
           (GetDomainByIDCall (domainID x)) ;;
  match r with
  | inr _ => ret ""
  | inl domainEntry => ret (dom_Name domainEntry)
  end.

Definition getHistorySize (c : contextRef) : M MS Z :=
  x <- deref c ;;
  match stats x with
  | Some s => ret (HistorySize s)
  | None => throw NilPointerDereference
  end.

Definition setHistorySize (c : contextRef) (size : Z) : M MS unit :=
  x <- deref c ;;
  match stats x with
  | Some _ => store c (set_stats x (Some {| HistorySize := size |}))
  | None => throw NilPointerDereference
  end.

(** *** Storage calls under the retry policy *)

Definition appendHistoryEventsWithRetry
  (request : AppendHistoryEventsRequest) : M MS (Z * option error) :=
  '(resp, err) <- Retry
    (ask (fun n => AppendHistoryEvents n request)
         (AppendHistoryEventsCall request))
    persistenceOperationRetryPolicy ;;
  ret (to_int64 resp, err).

Definition appendHistoryV2EventsWithRetry
  (domainID : string) (execution : WorkflowExecution)
  (request : AppendHistoryNodesRequest) : M MS (Z * option error) :=
  '(resp, err) <- Retry
    (ask (fun n => AppendHistoryV2Events n request domainID execution)
         (AppendHistoryV2EventsCall request domainID execution))
    persistenceOperationRetryPolicy ;;
  ret (to_int64 resp, err).

(** The Go closures assign [resp] and return [err]; [split_answer] is that
    pair for an answer that is either a response or an error. *)
Definition split_answer {A} (r : A + error) : option A * option error :=
  match r with
  | inl a => (Some a, None)
  | inr e => (None, Some e)
  end.

Definition createWorkflowExecutionWithRetry
  (request : CreateWorkflowExecutionRequest)
  : M MS (option CreateWorkflowExecutionResponse * option error) :=
  '(resp, err) <- Retry
    (ask (fun n => split_answer (CreateWorkflowExecution n request))
         (CreateWorkflowExecutionCall request))
    persistenceOperationRetryPolicy ;;
  match err with
  | None => ret (resp, None)
  | Some WorkflowExecutionAlreadyStartedError =>
      ret (None, Some WorkflowExecutionAlreadyStartedError)
  | Some e =>
      call (LogError "Persistent store operation failure"
              "CreateWorkflowExecution" e None) ;;;
      ret (None, Some e)
  end.

Definition getWorkflowExecutionWithRetry
  (request : GetWorkflowExecutionRequest)
  : M MS (option GetWorkflowExecutionResponse * option error) :=
  '(resp, err) <- Retry
    (ask (fun n => split_answer (GetWorkflowExecution n request))
         (GetWorkflowExecutionCall request))
    persistenceOperationRetryPolicy ;;
  match err with
  | None => ret (resp, None)
  | Some EntityNotExistsError => ret (None, Some EntityNotExistsError)
  | Some e =>
      call (LogError "Persistent fetch operation failure"
              "GetWorkflowExecution" e None) ;;;
      ret (None, Some e)
  end.

Definition updateWorkflowExecutionWithRetry (c : contextRef)
  (request : UpdateWorkflowExecutionRequest)
  : M MS (option UpdateWorkflowExecutionResponse * option error) :=
  '(resp, err) <- Retry
    (ask (fun n => split_answer (UpdateWorkflowExecution n request))
         (UpdateWorkflowExecutionCall request))
    persistenceOperationRetryPolicy ;;
  match err with
  | None => ret (resp, None)
  | Some ConditionFailedError => ret (None, Some ErrConflict)
  | Some e =>
      x <- deref c ;;
      call (LogError "Persistent store operation failure"
              "UpdateWorkflowExecution" e (Some (updateCondition x))) ;;;
      ret (None, Some e)
  end.

(** *** Appending history *)

Definition persistFirstWorkflowEvents (workflowEvents : WorkflowEvents)
  : M MS (Z * option error) :=
  match evs_Events workflowEvents with
  | [] =>
      ret (0, Some (InternalServiceError
                      "cannot persist first workflow events with empty events"))
  | firstEvent :: _ =>
      let domainID := evs_DomainID workflowEvents in
      let workflowID := evs_WorkflowID workflowEvents in
      let runID := evs_RunID workflowEvents in
      let execution :=
        {| WorkflowId := evs_WorkflowID workflowEvents;
           RunId := evs_RunID workflowEvents |} in
      let branchToken := evs_BranchToken workflowEvents in
      let events := evs_Events workflowEvents in
      if Nat.eqb (length branchToken) 0 then
        '(size, err) <- appendHistoryEventsWithRetry
          {| ahe_DomainID := domainID;
             ahe_Execution := execution;
             ahe_FirstEventID := EventId firstEvent;
             ahe_EventBatchVersion := Version firstEvent;
             ahe_Events := events |} ;;
        ret (size, err)
      else
        '(size, err) <- appendHistoryV2EventsWithRetry domainID execution
          {| ahn_IsNewBranch := true;
             ahn_Info := BuildHistoryGarbageCleanupInfo domainID workflowID runID;
             ahn_BranchToken := branchToken;
             ahn_Events := events |} ;;
        ret (size, err)
  end.

Definition persistNonFirstWorkflowEvents (workflowEvents : WorkflowEvents)
  : M MS (Z * option error) :=
  match evs_Events workflowEvents with
  | [] => ret (0, None)
  | firstEvent :: _ =>
      let domainID := evs_DomainID workflowEvents in
      let execution :=
        {| WorkflowId := evs_WorkflowID workflowEvents;
           RunId := evs_RunID workflowEvents |} in
      let branchToken := evs_BranchToken workflowEvents in
      let events := evs_Events workflowEvents in
      if Nat.eqb (length branchToken) 0 then
        '(size, err) <- appendHistoryEventsWithRetry
          {| ahe_DomainID := domainID;
             ahe_Execution := execution;
             ahe_FirstEventID := EventId firstEvent;
             ahe_EventBatchVersion := Version firstEvent;
             ahe_Events := events |} ;;
        ret (size, err)
      else
        '(size, err) <- appendHistoryV2EventsWithRetry domainID execution
          {| ahn_IsNewBranch := false;
             ahn_Info := "";
             ahn_BranchToken := branchToken;
             ahn_Events := events |} ;;
        ret (size, err)
  end.

(** *** Loading *)

Definition loadWorkflowExecutionInternal (c : contextRef) : M MS unit :=
  x <- deref c ;;
  match msBuilder x with
  | Some _ => ret tt
  | None =>
      '(response, err) <- getWorkflowExecutionWithRetry
        {| get_DomainID := domainID x;
           get_Execution := workflowExecution x |} ;;
      match err, response with
      | Some e, _ => fail e
      | None, None => throw NilPointerDereference
      | None, Some response =>
          domainName <- getDomainName c ;;
          let builder := Load (newMutableStateBuilder domainName)
                              (State response) in
          x <- deref c ;;
          store c (mkContext (domainID x) (workflowExecution x)
                     (Some builder)
                     (st_ExecutionStats (State response))
                     (ei_NextEventID (st_ExecutionInfo (State response)))) ;;;
          domainName <- getDomainName c ;;
          historySize <- getHistorySize c ;;
          call (EmitWorkflowExecutionStats domainName
                  (MutableStateStats response) historySize)
      end
  end.

Definition updateVersion (c : contextRef) : M MS unit :=
  if IsGlobalDomainEnabled then
    ms <- the_msBuilder c ;;
    match GetReplicationState ms with
    | None => ret tt
    | Some _ =>
        if negb (IsWorkflowExecutionRunning ms) then ret tt
        else
          x <- deref c ;;
          r <- ask (fun n => GetDomainByID n (domainID x))
                   (GetDomainByIDCall (domainID x)) ;;
          match r with
          | inr err => fail err
          | inl domainEntry =>
              let ms := UpdateReplicationStateVersion ms
                          (dom_FailoverVersion domainEntry) false in
              let ms := UpdateReplicationPolicy ms
                          (dom_ReplicationPolicy domainEntry) in
              put_msBuilder c ms
          end
    end
  else ret tt.

(** The result is [c.msBuilder], a nullable interface value. *)
Definition loadWorkflowExecution (c : contextRef) : M MS (option MS) :=
  loadWorkflowExecutionInternal c ;;;
  updateVersion c ;;;
  x <- deref c ;;
  ret (msBuilder x).

Definition loadExecutionStats (c : contextRef)
  : M MS (option ExecutionStats) :=
  loadWorkflowExecution c ;;;
  x <- deref c ;;
  ret (stats x).

(** *** Notifications *)

Definition notifyTasks
  (transferTasks replicationTasks timerTasks : list Task) : M MS unit :=
  call (NotifyNewTransferTasks transferTasks) ;;;
  call (NotifyNewReplicationTasks replicationTasks) ;;;
  call (NotifyNewTimerTasks timerTasks).

(** *** Field updates of mutations and snapshots *)

Definition set_wm_ExecutionStats (m : WorkflowMutation)
  (s : option ExecutionStats) : WorkflowMutation :=
  {| wm_ExecutionInfo := wm_ExecutionInfo m;
     wm_ExecutionStats := s;
     wm_ReplicationState := wm_ReplicationState m;
     wm_UpsertActivityInfos := wm_UpsertActivityInfos m;
     wm_DeleteActivityInfos := wm_DeleteActivityInfos m;
     wm_UpserTimerInfos := wm_UpserTimerInfos m;
     wm_DeleteTimerInfos := wm_DeleteTimerInfos m;
     wm_UpsertChildExecutionInfos := wm_UpsertChildExecutionInfos m;
     wm_DeleteChildExecutionInfo := wm_DeleteChildExecutionInfo m;
     wm_UpsertRequestCancelInfos := wm_UpsertRequestCancelInfos m;
     wm_DeleteRequestCancelInfo := wm_DeleteRequestCancelInfo m;
     wm_UpsertSignalInfos := wm_UpsertSignalInfos m;
     wm_DeleteSignalInfo := wm_DeleteSignalInfo m;
     wm_UpsertSignalRequestedIDs := wm_UpsertSignalRequestedIDs m;
     wm_DeleteSignalRequestedID := wm_DeleteSignalRequestedID m;
     wm_NewBufferedEvents := wm_NewBufferedEvents m;
     wm_ClearBufferedEvents := wm_ClearBufferedEvents m;
     wm_TransferTasks := wm_TransferTasks m;
     wm_ReplicationTasks := wm_ReplicationTasks m;
     wm_TimerTasks := wm_TimerTasks m;
     wm_Condition := wm_Condition m |}.

Definition set_wm_ReplicationTasks (m : WorkflowMutation)
  (tasks : list Task) : WorkflowMutation :=
  {| wm_ExecutionInfo := wm_ExecutionInfo m;
     wm_ExecutionStats := wm_ExecutionStats m;
     wm_ReplicationState := wm_ReplicationState m;
     wm_UpsertActivityInfos := wm_UpsertActivityInfos m;
     wm_DeleteActivityInfos := wm_DeleteActivityInfos m;
     wm_UpserTimerInfos := wm_UpserTimerInfos m;
     wm_DeleteTimerInfos := wm_DeleteTimerInfos m;
     wm_UpsertChildExecutionInfos := wm_UpsertChildExecutionInfos m;
     wm_DeleteChildExecutionInfo := wm_DeleteChildExecutionInfo m;
     wm_UpsertRequestCancelInfos := wm_UpsertRequestCancelInfos m;
     wm_DeleteRequestCancelInfo := wm_DeleteRequestCancelInfo m;
     wm_UpsertSignalInfos := wm_UpsertSignalInfos m;
     wm_DeleteSignalInfo := wm_DeleteSignalInfo m;
     wm_UpsertSignalRequestedIDs := wm_UpsertSignalRequestedIDs m;
     wm_DeleteSignalRequestedID := wm_DeleteSignalRequestedID m;
     wm_NewBufferedEvents := wm_NewBufferedEvents m;
     wm_ClearBufferedEvents := wm_ClearBufferedEvents m;
     wm_TransferTasks := wm_TransferTasks m;
     wm_ReplicationTasks := tasks;
     wm_TimerTasks := wm_TimerTasks m;
     wm_Condition := wm_Condition m |}.

Definition set_ws_ExecutionStats (s : WorkflowSnapshot)
  (st : option ExecutionStats) : WorkflowSnapshot :=
  {| ws_ExecutionInfo := ws_ExecutionInfo s;
     ws_ExecutionStats := st;
     ws_ReplicationState := ws_ReplicationState s;
     ws_ChildExecutionInfos := ws_ChildExecutionInfos s;
     ws_SignalInfos := ws_SignalInfos s;
     ws_SignalRequestedIDs := ws_SignalRequestedIDs s;
     ws_TransferTasks := ws_TransferTasks s;
     ws_ReplicationTasks := ws_ReplicationTasks s;
     ws_TimerTasks := ws_TimerTasks s;
     ws_Condition := ws_Condition s |}.

Definition set_ws_Tasks (s : WorkflowSnapshot)
  (transferTasks replicationTasks timerTasks : list Task) : WorkflowSnapshot :=
  {| ws_ExecutionInfo := ws_ExecutionInfo s;
     ws_ExecutionStats := ws_ExecutionStats s;
     ws_ReplicationState := ws_ReplicationState s;
     ws_ChildExecutionInfos := ws_ChildExecutionInfos s;
     ws_SignalInfos := ws_SignalInfos s;
     ws_SignalRequestedIDs := ws_SignalRequestedIDs s;
     ws_TransferTasks := transferTasks;
     ws_ReplicationTasks := replicationTasks;
     ws_TimerTasks := timerTasks;
     ws_Condition := ws_Condition s |}.

Definition set_ws_ReplicationTasks (s : WorkflowSnapshot)
  (tasks : list Task) : WorkflowSnapshot :=
  set_ws_Tasks s (ws_TransferTasks s) tasks (ws_TimerTasks s).

Definition set_NewRun (task : HistoryReplicationTask)
  (newRunBranchToken : bytes) (newRunEventStoreVersion : Z)
  : HistoryReplicationTask :=
  {| hrt_Rest := hrt_Rest task;
     hrt_BranchToken := hrt_BranchToken task;
     hrt_EventStoreVersion := hrt_EventStoreVersion task;
     hrt_NewRunBranchToken := newRunBranchToken;
     hrt_NewRunEventStoreVersion := newRunEventStoreVersion |}.

(** *** Create *)

Definition createWorkflowExecution (c : contextRef)
  (newWorkflow : WorkflowSnapshot) (historySize : Z) (now : time)
  (createMode : Z) (prevRunID : string) (prevLastWriteVersion : Z)
  : M MS unit :=
  let createRequest :=
    {| cr_CreateWorkflowMode := createMode;
       cr_PreviousRunID := prevRunID;
       cr_PreviousLastWriteVersion := prevLastWriteVersion;
       cr_NewWorkflowSnapshot :=
         set_ws_ExecutionStats newWorkflow
           (Some {| HistorySize := historySize |}) |} in
  '(_, err) <- createWorkflowExecutionWithRetry createRequest ;;
  match err with
  | Some e => fail e
  | None =>
      notifyTasks (ws_TransferTasks newWorkflow)
        (ws_ReplicationTasks newWorkflow) (ws_TimerTasks newWorkflow)
  end.

(** *** Conflict resolution *)

Definition conflictResolveWorkflowExecution (c : contextRef) (now : time)
  (prevRunID : string) (prevLastWriteVersion : Z) (prevState : Z)
  (resetMutableState : MS) (resetHistorySize : Z) : M MS (option MS) :=
  match snd (CloseTransactionAsSnapshot resetMutableState now
               transactionPolicyPassive) with
  | inr err => fail err
  | inl (resetWorkflow, workflowEventsSeq) =>
      if negb (Nat.eqb (length workflowEventsSeq) 0) then
        fail (BadRequestError
                "reset mutable state should not generate new events")
      else
        let resetWorkflow :=
          set_ws_ExecutionStats resetWorkflow
            (Some {| HistorySize := resetHistorySize |}) in
        let request :=
          {| PrevRunID := prevRunID;
             PrevLastWriteVersion := prevLastWriteVersion;
             PrevState := prevState;
             ResetWorkflowSnapshot := resetWorkflow |} in
        err <- ask (fun n => ConflictResolveWorkflowExecution n request)
                   (ConflictResolveWorkflowExecutionCall request) ;;
        match err with
        | Some e => fail e
        | None =>
            notifyTasks (ws_TransferTasks resetWorkflow)
              (ws_ReplicationTasks resetWorkflow)
              (ws_TimerTasks resetWorkflow) ;;;
            clear c ;;;
            loadWorkflowExecution c
        end
  end.

(** *** Update, alone or paired with a new run *)

(** The loop over [currentWorkflowMutation.ReplicationTasks]: the second
    component is [taskUpdated]. *)
Fixpoint mergeNewRunIntoTasks (newRunBranchToken : bytes)
  (newRunEventStoreVersion : Z) (replicationTasks : list Task)
  (taskUpdated : bool) : list Task * bool :=
  match replicationTasks with
  | [] => ([], taskUpdated)
  | HistoryTask task :: rest =>
      let '(rest, taskUpdated) :=
        mergeNewRunIntoTasks newRunBranchToken newRunEventStoreVersion
          rest true in
      (HistoryTask (set_NewRun task newRunBranchToken newRunEventStoreVersion)
         :: rest, taskUpdated)
  | replicationTask :: rest =>
      let '(rest, taskUpdated) :=
        mergeNewRunIntoTasks newRunBranchToken newRunEventStoreVersion
          rest taskUpdated in
      (replicationTask :: rest, taskUpdated)
  end.

(** Both arguments are pointers in Go; the result carries what they point
    to when the function is left. *)
Definition mergeContinueAsNewReplicationTasks
  (currentWorkflowMutation : WorkflowMutation)
  (newWorkflowSnapshot : option WorkflowSnapshot)
  : outcome unit * WorkflowMutation * option WorkflowSnapshot :=
  if negb (Z.eqb (ei_CloseStatus (wm_ExecutionInfo currentWorkflowMutation))
                 WorkflowCloseStatusContinuedAsNew) then
    (Ok tt, currentWorkflowMutation, newWorkflowSnapshot)
  else if Nat.eqb (length (wm_ReplicationTasks currentWorkflowMutation)) 0 then
    (Ok tt, currentWorkflowMutation, newWorkflowSnapshot)
  else
    match newWorkflowSnapshot with
    | None =>
        (Err (InternalServiceError
           "unable to find replication task from new workflow for continue as new replication"),
         currentWorkflowMutation, newWorkflowSnapshot)
    | Some snapshot =>
        if negb (Nat.eqb (length (ws_ReplicationTasks snapshot)) 1) then
          (Err (InternalServiceError
             "unable to find replication task from new workflow for continue as new replication"),
           currentWorkflowMutation, newWorkflowSnapshot)
        else
          match ws_ReplicationTasks snapshot with
          | [] => (Panicked IndexOutOfRange,
                   currentWorkflowMutation, newWorkflowSnapshot)
          | HistoryTask newRunTask :: _ =>
              let snapshot := set_ws_ReplicationTasks snapshot [] in
              let newRunBranchToken := hrt_BranchToken newRunTask in
              let newRunEventStoreVersion :=
                hrt_EventStoreVersion newRunTask in
              let '(tasks, taskUpdated) :=
                mergeNewRunIntoTasks newRunBranchToken
                  newRunEventStoreVersion
                  (wm_ReplicationTasks currentWorkflowMutation) false in
              let currentWorkflowMutation :=
                set_wm_ReplicationTasks currentWorkflowMutation tasks in
              if negb taskUpdated then
                (Err (InternalServiceError
                   "unable to find replication task from current workflow for continue as new replication"),
                 currentWorkflowMutation, Some snapshot)
              else (Ok tt, currentWorkflowMutation, Some snapshot)
          | _ :: _ => (Panicked TypeAssertionFailed,
                       currentWorkflowMutation, newWorkflowSnapshot)
          end
    end.

(** The [for ... range workflowEventsSeq] loop that appends the batches and
    adds up their sizes. *)
Fixpoint persistNonFirstWorkflowEventsSeq
  (workflowEventsSeq : list WorkflowEvents) (size : Z) : M MS Z :=
  match workflowEventsSeq with
  | [] => ret size
  | workflowEvents :: rest =>
      '(eventsSize, err) <- persistNonFirstWorkflowEvents workflowEvents ;;
      match err with
      | Some e => fail e
      | None => persistNonFirstWorkflowEventsSeq rest (add64 size eventsSize)
      end
  end.

(** The last block of [updateWorkflowExecutionWithNew], after the storage
    update has succeeded: the condition is advanced, the engine is notified
    and the metrics are emitted. *)
Definition updateWorkflowExecutionWithNew_notify (c : contextRef)
  (currentWorkflow : WorkflowMutation)
  (newWorkflow : option WorkflowSnapshot)
  (resp : option UpdateWorkflowExecutionResponse) : M MS unit :=
  x <- deref c ;;
  store c (set_updateCondition x
             (ei_NextEventID (wm_ExecutionInfo currentWorkflow))) ;;;
  x <- deref c ;;
  ms <- the_msBuilder c ;;
  call (NotifyNewHistoryEvent
          {| hen_domainID := domainID x;
             hen_execution := workflowExecution x;
             hen_lastFirstEventID := GetLastFirstEventID ms;
             hen_nextEventID := GetNextEventID ms;
             hen_previousStartedEventID := GetPreviousStartedEventID ms;
             hen_isRunning := IsWorkflowExecutionRunning ms;
             hen_closeStatus := ei_CloseStatus (GetExecutionInfo ms) |}) ;;;
  notifyTasks (wm_TransferTasks currentWorkflow)
    (wm_ReplicationTasks currentWorkflow)
    (wm_TimerTasks currentWorkflow) ;;;
  match newWorkflow with
  | Some newWorkflow =>
      notifyTasks (ws_TransferTasks newWorkflow)
        (ws_ReplicationTasks newWorkflow)
        (ws_TimerTasks newWorkflow)
  | None => ret tt
  end ;;;
  domainName <- getDomainName c ;;
  historySize <- getHistorySize c ;;
  ms <- the_msBuilder c ;;
  call (EmitWorkflowHistoryStats domainName historySize
          (to_int64 (GetNextEventID ms - 1))) ;;;
  match resp with
  | None => throw NilPointerDereference
  | Some resp =>
      call (EmitSessionUpdateStats domainName
              (MutableStateUpdateSessionStats resp))
  end ;;;
  if Z.eqb (ei_State (wm_ExecutionInfo currentWorkflow))
           WorkflowStateCompleted then
    ms <- the_msBuilder c ;;
    match GetCompletionEvent ms with
    | Some event => call (EmitWorkflowCompletionStats domainName event)
    | None => ret tt
    end
  else ret tt.

(** [updateWorkflowExecutionWithNew] from the merge of the replication tasks
    to its end. *)
Definition updateWorkflowExecutionWithNew_commit (c : contextRef)
  (currentWorkflow : WorkflowMutation)
  (newWorkflow : option WorkflowSnapshot) : M MS unit :=
  match mergeContinueAsNewReplicationTasks currentWorkflow newWorkflow with
  | (Panicked p, _, _) => throw p
  | (Err e, _, _) => fail e
  | (Ok _, currentWorkflow, newWorkflow) =>
      '(resp, err) <- updateWorkflowExecutionWithRetry c
        {| UpdateWorkflowMutation := currentWorkflow;
           NewWorkflowSnapshot := newWorkflow |} ;;
      match err with
      | Some e => fail e
      | None =>
          updateWorkflowExecutionWithNew_notify c currentWorkflow
            newWorkflow resp
      end
  end.

(** The first block of [updateWorkflowExecutionWithNew]: the current run is
    closed as a mutation, its batches are appended and the mutation is
    stamped with the history size. *)
Definition updateWorkflowExecutionWithNew_current (c : contextRef)
  (now : time) (currentWorkflowTransactionPolicy : transactionPolicy)
  : M MS WorkflowMutation :=
  ms <- the_msBuilder c ;;
  let '(ms, closed) :=
    CloseTransactionAsMutation ms now currentWorkflowTransactionPolicy in
  put_msBuilder c ms ;;;
  match closed with
  | inr err => fail err
  | inl (currentWorkflow, workflowEventsSeq) =>
      currentWorkflowSize <- getHistorySize c ;;
      currentWorkflowSize <-
        persistNonFirstWorkflowEventsSeq workflowEventsSeq
          currentWorkflowSize ;;
      setHistorySize c currentWorkflowSize ;;;
      ret (set_wm_ExecutionStats currentWorkflow
             (Some {| HistorySize := currentWorkflowSize |}))
  end.

(** The block guarded by [newContext != nil && newMutableState != nil &&
    newWorkflowTransactionPolicy != nil]: the new run is closed as a
    snapshot and the batch at index 0 is appended as its first batch. *)
Definition updateWorkflowExecutionWithNew_new (newContext : contextRef)
  (now : time) (newMutableState : MS)
  (newWorkflowTransactionPolicy : transactionPolicy)
  : M MS WorkflowSnapshot :=
  match snd (CloseTransactionAsSnapshot newMutableState now
               newWorkflowTransactionPolicy) with
  | inr err => fail err
  | inl (newWorkflow, workflowEventsSeq) =>
      newWorkflowSizeSize <- getHistorySize newContext ;;
      match workflowEventsSeq with
      | [] => throw IndexOutOfRange
      | workflowEvents0 :: _ =>
          '(eventsSize, err) <- persistFirstWorkflowEvents workflowEvents0 ;;
          match err with
          | Some e => fail e
          | None =>
              let newWorkflowSizeSize :=
                add64 newWorkflowSizeSize eventsSize in
              setHistorySize newContext newWorkflowSizeSize ;;;
              ret (set_ws_ExecutionStats newWorkflow
                     (Some {| HistorySize := newWorkflowSizeSize |}))
          end
      end
  end.

(** The two deferred functions run in reverse order of their [defer]
    statements; the one of the new context is registered only once the
    guarded block is entered, and when it panics the one of [c] still
    runs. *)
Definition updateWorkflowExecutionWithNew (c : contextRef) (now : time)
  (newContext : option contextRef) (newMutableState : option MS)
  (currentWorkflowTransactionPolicy : transactionPolicy)
  (newWorkflowTransactionPolicy : option transactionPolicy) : M MS unit :=
  deferOnError (clear c)
    (currentWorkflow <-
       updateWorkflowExecutionWithNew_current c now
         currentWorkflowTransactionPolicy ;;
     match newContext, newMutableState, newWorkflowTransactionPolicy with
     | Some newContext, Some newMutableState,
       Some newWorkflowTransactionPolicy =>
         deferOnErrorWithin (clear c) (clear newContext)
           (newWorkflow <-
              updateWorkflowExecutionWithNew_new newContext now
                newMutableState newWorkflowTransactionPolicy ;;
            updateWorkflowExecutionWithNew_commit c currentWorkflow
              (Some newWorkflow))
     | _, _, _ =>
         updateWorkflowExecutionWithNew_commit c currentWorkflow None
     end).

Definition updateWorkflowExecutionAsActive (c : contextRef) (now : time)
  : M MS unit :=
  updateWorkflowExecutionWithNew c now None None transactionPolicyActive None.

Definition updateWorkflowExecutionWithNewAsActive (c : contextRef)
  (now : time) (newContext : option contextRef)
  (newMutableState : option MS) : M MS unit :=
  updateWorkflowExecutionWithNew c now newContext newMutableState
    transactionPolicyActive (Some transactionPolicyActive).

Definition updateWorkflowExecutionAsPassive (c : contextRef) (now : time)
  : M MS unit :=
  updateWorkflowExecutionWithNew c now None None transactionPolicyPassive None.

Definition updateWorkflowExecutionWithNewAsPassive (c : contextRef)
  (now : time) (newContext : option contextRef)
  (newMutableState : option MS) : M MS unit :=
  updateWorkflowExecutionWithNew c now newContext newMutableState
    transactionPolicyPassive (Some transactionPolicyPassive).

(** *** Reset *)

(** [closeTask] and [cleanupTask] are nullable interface values.  The two
    mutable states are pointers in Go.  [currCached] says whether
    [currMutableState] is the pointer the context caches, [c.msBuilder], as
    it is when the caller got it from a load on [c]: what
    [FlushBufferedEvents] changes in it is then changed in the cache as
    well.  [newMutableState] belongs to the caller alone. *)
Definition resetWorkflowExecution (c : contextRef) (currMutableState : MS)
  (currCached : bool) (updateCurr : bool)
  (closeTask cleanupTask : option Task)
  (newMutableState : MS) (newHistorySize : Z)
  (newTransferTasks newTimerTasks : list Task)
  (currReplicationTasks newReplicationTasks : list Task)
  (baseRunID : string) (baseRunNextEventID : Z) : M MS unit :=
  now <- ask Now TimeSourceNowCall ;;
  let currTransferTasks : list Task := [] in
  let currTimerTasks : list Task := [] in
  let currTransferTasks :=
    match closeTask with
    | Some task => (currTransferTasks ++ [task])%list
    | None => currTransferTasks
    end in
  let currTimerTasks :=
    match cleanupTask with
    | Some task => (currTimerTasks ++ [task])%list
    | None => currTimerTasks
    end in
  let '(currTransferTasks, currTimerTasks) :=
    setTaskInfo (GetCurrentVersion currMutableState) now
      currTransferTasks currTimerTasks in
  let '(newTransferTasks, newTimerTasks) :=
    setTaskInfo (GetCurrentVersion newMutableState) now
      newTransferTasks newTimerTasks in
  if HasBufferedEvents newMutableState then
    fail (InternalServiceError
            "reset workflow execution shouldn't have buffered events")
  else
    let '(currMutableState, retError) :=
      FlushBufferedEvents currMutableState in
    (if currCached then put_msBuilder c currMutableState else ret tt) ;;;
    match retError with
    | Some e => fail e
    | None =>
    let '(newMutableState, retError) :=
      FlushBufferedEvents newMutableState in
    match retError with
    | Some e => fail e
    | None =>
    (if updateCurr then
       let currentExecutionInfo := GetExecutionInfo currMutableState in
       '(size, retError) <- persistNonFirstWorkflowEvents
         {| evs_DomainID := ei_DomainID currentExecutionInfo;
            evs_WorkflowID := ei_WorkflowID currentExecutionInfo;
            evs_RunID := ei_RunID currentExecutionInfo;
            evs_BranchToken := GetCurrentBranch currMutableState;
            evs_Events := GetHistoryBuilderEvents currMutableState |} ;;
       match retError with
       | Some e => fail e
       | None =>
           historySize <- getHistorySize c ;;
           setHistorySize c (add64 historySize size)
       end
     else ret tt) ;;;
    now' <- ask Now TimeSourceNowCall ;;
    match snd (CloseTransactionAsSnapshot newMutableState now'
                 transactionPolicyPassive) with
    | inr err => fail err
    | inl (resetWorkflow, workflowEventsSeq) =>
        if negb (Nat.eqb (length workflowEventsSeq) 1) then
          fail (InternalServiceError
                  "reset workflow execution should generate exactly 1 event batch")
        else
          newHistorySize <-
            persistNonFirstWorkflowEventsSeq workflowEventsSeq
              newHistorySize ;;
          let resetWorkflow :=
            set_ws_ExecutionStats resetWorkflow
              (Some {| HistorySize := newHistorySize |}) in
          let resetWorkflow :=
            set_ws_Tasks resetWorkflow newTransferTasks newReplicationTasks
              newTimerTasks in
          if Nat.ltb 0 (length (ws_ChildExecutionInfos resetWorkflow))
             || Nat.ltb 0 (length (ws_SignalInfos resetWorkflow))
             || Nat.ltb 0 (length (ws_SignalRequestedIDs resetWorkflow))
          then
            fail (InternalServiceError
                    "something went wrong, we shouldn't see any pending childWF, sending Signal or signal requested")
          else
            currentWorkflowMutation <-
              (if updateCurr then
                 historySize <- getHistorySize c ;;
                 x <- deref c ;;
                 ret (Some
                   {| wm_ExecutionInfo := GetExecutionInfo currMutableState;
                      wm_ExecutionStats :=
                        Some {| HistorySize := historySize |};
                      wm_ReplicationState :=
                        GetReplicationState currMutableState;
                      wm_UpsertActivityInfos := [];
                      wm_DeleteActivityInfos := [];
                      wm_UpserTimerInfos := [];
                      wm_DeleteTimerInfos := [];
                      wm_UpsertChildExecutionInfos := [];
                      wm_DeleteChildExecutionInfo := None;
                      wm_UpsertRequestCancelInfos := [];
                      wm_DeleteRequestCancelInfo := None;
                      wm_UpsertSignalInfos := [];
                      wm_DeleteSignalInfo := None;
                      wm_UpsertSignalRequestedIDs := [];
                      wm_DeleteSignalRequestedID := "";
                      wm_NewBufferedEvents := [];
                      wm_ClearBufferedEvents := false;
                      wm_TransferTasks := currTransferTasks;
                      wm_ReplicationTasks := currReplicationTasks;
                      wm_TimerTasks := currTimerTasks;
                      wm_Condition := updateCondition x |})
               else ret None) ;;
            let resetWFReq :=
              {| BaseRunID := baseRunID;
                 BaseRunNextEventID := baseRunNextEventID;
                 CurrentRunID := ei_RunID (GetExecutionInfo currMutableState);
                 CurrentRunNextEventID :=
                   ei_NextEventID (GetExecutionInfo currMutableState);
                 CurrentWorkflowMutation := currentWorkflowMutation;
                 rst_NewWorkflowSnapshot := resetWorkflow |} in
            err <- ask (fun n => ResetWorkflowExecution n resetWFReq)
                       (ResetWorkflowExecutionCall resetWFReq) ;;
            match err with
            | Some e => fail e
            | None =>
                notifyTasks (ws_TransferTasks resetWorkflow)
                  (ws_ReplicationTasks resetWorkflow)
                  (ws_TimerTasks resetWorkflow) ;;;
                match currentWorkflowMutation with
                | Some mutation =>
                    notifyTasks (wm_TransferTasks mutation)
                      (wm_ReplicationTasks mutation)
                      (wm_TimerTasks mutation)
                | None => ret tt
                end
            end
    end
    end
    end.

(** *** The commit operations as one family *)

Inductive commitOperation :=
| Update (now : time) (policy : transactionPolicy)
| UpdateWithNew (now : time) (newContext : option contextRef)
    (newMutableState : option MS) (policy : transactionPolicy)
| ConflictResolve (now : time) (prevRunID : string)
    (prevLastWriteVersion : Z) (prevState : Z) (resetMutableState : MS)
    (resetHistorySize : Z)
| Reset (currMutableState : MS) (currCached updateCurr : bool)
    (closeTask cleanupTask : option Task) (newMutableState : MS)
    (newHistorySize : Z) (newTransferTasks newTimerTasks : list Task)
    (currReplicationTasks newReplicationTasks : list Task)
    (baseRunID : string) (baseRunNextEventID : Z)
| Create (newWorkflow : WorkflowSnapshot) (historySize : Z) (now : time)
    (createMode : Z) (prevRunID : string) (prevLastWriteVersion : Z).

Definition isUpdateOperation (op : commitOperation) : bool :=
  match op with
  | Update _ _ | UpdateWithNew _ _ _ _ => true
  | _ => false
  end.

(** Runs a commit operation on [c] and keeps its error result only. *)
Definition commit (c : contextRef) (op : commitOperation) : M MS unit :=
  match op with
  | Update now transactionPolicyActive =>
      updateWorkflowExecutionAsActive c now
  | Update now transactionPolicyPassive =>
      updateWorkflowExecutionAsPassive c now
  | UpdateWithNew now newContext newMutableState transactionPolicyActive =>
      updateWorkflowExecutionWithNewAsActive c now newContext newMutableState
  | UpdateWithNew now newContext newMutableState transactionPolicyPassive =>
      updateWorkflowExecutionWithNewAsPassive c now newContext newMutableState
  | ConflictResolve now prevRunID prevLastWriteVersion prevState
      resetMutableState resetHistorySize =>
      conflictResolveWorkflowExecution c now prevRunID prevLastWriteVersion
        prevState resetMutableState resetHistorySize ;;;
      ret tt
  | Reset currMutableState currCached updateCurr closeTask cleanupTask
      newMutableState newHistorySize newTransferTasks newTimerTasks
      currReplicationTasks newReplicationTasks baseRunID
      baseRunNextEventID =>
      resetWorkflowExecution c currMutableState currCached updateCurr
        closeTask cleanupTask newMutableState newHistorySize newTransferTasks
        newTimerTasks currReplicationTasks newReplicationTasks baseRunID
        baseRunNextEventID
  | Create newWorkflow historySize now createMode prevRunID
      prevLastWriteVersion =>
      createWorkflowExecution c newWorkflow historySize now createMode
        prevRunID prevLastWriteVersion
  end.

(** A call that does not reach the execution or the history store. *)
Definition notStorage (e : Event) : Prop := isStorageCall e = false.

(** [c] has a cached mutable state. *)
Definition cached (w : world) (c : contextRef) : Prop :=
  exists x ms, contexts w !! c = Some x /\ msBuilder x = Some ms.

(** The values an [int64] can hold. *)
Definition is_int64 (z : Z) : Prop := - 2 ^ 63 <= z < 2 ^ 63.

(** [c] has neither a cached mutable state nor cached stats. *)
Definition cleared (w : world) (c : contextRef) : bool :=
  match contexts w !! c with
  | Some x =>
      match msBuilder x, stats x with
      | None, None => true
      | _, _ => false
      end
  | None => false
  end.

Definition isHistoryTask (task : Task) : bool :=
  match task with HistoryTask _ => true | _ => false end.

(** A replication task that is a history task carries the given new-run
    branch token and event store version. *)
Definition carriesNewRun (branchToken : bytes) (eventStoreVersion : Z)
  (task : Task) : Prop :=
  match task with
  | HistoryTask t =>
      hrt_NewRunBranchToken t = branchToken
      /\ hrt_NewRunEventStoreVersion t = eventStoreVersion
  | _ => True
  end.

End Methods.

(** ** Relations between the world before and after a run *)

Section RunRelations.

Context {MS : Type}.

Local Abbreviation world := (World MS).

(** Every run of [m] relates the world it starts in to the world it ends
    in by [F]. *)
Definition keeps {A} (F : world -> world -> Prop) (m : M MS A) : Prop :=
  forall w r w', m w = (r, w') -> F w w'.

Class WorldOrder (F : world -> world -> Prop) := {
  order_refl : forall w, F w w;
  order_trans : forall w1 w2 w3, F w1 w2 -> F w2 w3 -> F w1 w3
}.

(** The contexts are left as they are. *)
Definition sameContexts (w w' : world) : Prop := contexts w' = contexts w.

(** The context behind [n] is left as it is. *)
Definition sameContext (n : contextRef) (w w' : world) : Prop :=
  contexts w' !! n = contexts w !! n.

(** The trace grows by calls that all satisfy [P]. *)
Definition growsBy (P : Event -> Prop) (w w' : world) : Prop :=
  exists tr, trace w' = (trace w ++ tr)%list /\ Forall P tr.

(** No run of [m] ends in the panic [p]. *)
Definition neverPanicsWith {A} (p : panic) (m : M MS A) : Prop :=
  forall w w', m w <> (Panicked p, w').

End RunRelations.

(** The trace grows, by whatever calls. *)
Abbreviation grows := (growsBy (fun _ => True)).

(** ** Fixtures: a scripted mutable state and scripted collaborators *)

(** A builder that answers from a script. *)
Record scriptedState := {
  s_info : WorkflowExecutionInfo;
  s_replication : option ReplicationState;
  s_running : bool;
  s_buffered : bool;
  s_flush : option error;
  s_mutation : WorkflowMutation * list WorkflowEvents + error;
  s_snapshot : WorkflowSnapshot * list WorkflowEvents + error
}.

Definition infoOf (runID : string) (nextEventID closeStatus : Z)
  : WorkflowExecutionInfo :=
  {| ei_DomainID := "domain"; ei_WorkflowID := "wf"; ei_RunID := runID;
     ei_NextEventID := nextEventID; ei_State := 1;
     ei_CloseStatus := closeStatus |}.

Definition mutationOf (info : WorkflowExecutionInfo)
  (replicationTasks : list Task) (condition : Z) : WorkflowMutation :=
  {| wm_ExecutionInfo := info;
     wm_ExecutionStats := None;
     wm_ReplicationState := None;
     wm_UpsertActivityInfos := [];
     wm_DeleteActivityInfos := [];
     wm_UpserTimerInfos := [];
     wm_DeleteTimerInfos := [];
     wm_UpsertChildExecutionInfos := [];
     wm_DeleteChildExecutionInfo := None;
     wm_UpsertRequestCancelInfos := [];
     wm_DeleteRequestCancelInfo := None;
     wm_UpsertSignalInfos := [];
     wm_DeleteSignalInfo := None;
     wm_UpsertSignalRequestedIDs := [];
     wm_DeleteSignalRequestedID := "";
     wm_NewBufferedEvents := [];
     wm_ClearBufferedEvents := false;
     wm_TransferTasks := [];
     wm_ReplicationTasks := replicationTasks;
     wm_TimerTasks := [];
     wm_Condition := condition |}.

Definition snapshotOf (info : WorkflowExecutionInfo)
  (replicationTasks : list Task) : WorkflowSnapshot :=
  {| ws_ExecutionInfo := info;
     ws_ExecutionStats := None;
     ws_ReplicationState := None;
     ws_ChildExecutionInfos := [];
     ws_SignalInfos := [];
     ws_SignalRequestedIDs := [];
     ws_TransferTasks := [];
     ws_ReplicationTasks := replicationTasks;
     ws_TimerTasks := [];
     ws_Condition := 0 |}.

Definition batchOf (runID : string) (events : list HistoryEvent)
  : WorkflowEvents :=
  {| evs_DomainID := "domain"; evs_WorkflowID := "wf"; evs_RunID := runID;
     evs_BranchToken := []; evs_Events := events |}.

Definition scriptOf (info : WorkflowExecutionInfo)
  (replication : option ReplicationState) (buffered : bool)
  (mutation : WorkflowMutation * list WorkflowEvents + error)
  (snapshot : WorkflowSnapshot * list WorkflowEvents + error)
  : scriptedState :=
  {| s_info := info; s_replication := replication; s_running := true;
     s_buffered := buffered; s_flush := None; s_mutation := mutation;
     s_snapshot := snapshot |}.

Definition scriptedMutableState : MutableState scriptedState :=
  {| newMutableStateBuilder := fun _ =>
       scriptOf (infoOf "" 0 0) None false
         (inr (OtherError "no script")) (inr (OtherError "no script"));
     Load := fun ms st =>
       {| s_info := st_ExecutionInfo st;
          s_replication := st_ReplicationState st;
          s_running := s_running ms;
          s_buffered := s_buffered ms;
          s_flush := s_flush ms;
          s_mutation := s_mutation ms;
          s_snapshot := s_snapshot ms |};
     IsWorkflowExecutionRunning := s_running;
     GetReplicationState := s_replication;
     UpdateReplicationStateVersion := fun ms _ _ => ms;
     UpdateReplicationPolicy := fun ms _ => ms;
     CloseTransactionAsMutation := fun ms _ _ => (ms, s_mutation ms);
     CloseTransactionAsSnapshot := fun ms _ _ => (ms, s_snapshot ms);
     GetExecutionInfo := s_info;
     GetCurrentVersion := fun _ => 0;
     GetLastFirstEventID := fun _ => 1;
     GetNextEventID := fun ms => ei_NextEventID (s_info ms);
     GetPreviousStartedEventID := fun _ => 0;
     GetCompletionEvent := fun _ => None;
     GetHistoryBuilderEvents := fun _ => [];
     GetCurrentBranch := fun _ => [];
     HasBufferedEvents := s_buffered;
     FlushBufferedEvents := fun ms => (ms, s_flush ms) |}.

(** Collaborators that give the same answer whenever they are asked;
    every append reports 200 bytes. *)
Definition scriptedShard
  (get : GetWorkflowExecutionResponse + error)
  (create : CreateWorkflowExecutionResponse + error)
  (update : UpdateWorkflowExecutionResponse + error)
  (conflictResolve reset : option error)
  (domain : DomainCacheEntry + error) (globalDomain : bool) : ShardContext :=
  {| GetWorkflowExecution := fun _ _ => get;
     AppendHistoryEvents := fun _ _ => (200, None);
     AppendHistoryV2Events := fun _ _ _ _ => (200, None);
     CreateWorkflowExecution := fun _ _ => create;
     UpdateWorkflowExecution := fun _ _ => update;
     ConflictResolveWorkflowExecution := fun _ _ => conflictResolve;
     ResetWorkflowExecution := fun _ _ => reset;
     GetDomainByID := fun _ _ => domain;
     IsGlobalDomainEnabled := globalDomain;
     Now := fun _ => 1000 |}.

Definition storedState : WorkflowMutableState :=
  {| st_ExecutionInfo := infoOf "R1" 10 0;
     st_ExecutionStats := Some {| HistorySize := 120 |};
     st_ReplicationState := None;
     st_Rest := 0 |}.

Definition healthyShard : ShardContext :=
  scriptedShard (inl {| State := storedState; MutableStateStats := 0 |})
    (inl {| cr_Response := 0 |})
    (inl {| MutableStateUpdateSessionStats := 0 |}) None None
    (inl {| dom_Name := "domain-name"; dom_FailoverVersion := 1;
            dom_ReplicationPolicy := 0 |}) false.

(** The storage refuses every commit with an error that is not transient. *)
Definition brokenShard : ShardContext :=
  scriptedShard (inl {| State := storedState; MutableStateStats := 0 |})
    (inr (OtherError "create failed"))
    (inr ConditionFailedError) (Some (OtherError "conflict resolve failed"))
    (Some (OtherError "reset failed"))
    (inl {| dom_Name := "domain-name"; dom_FailoverVersion := 1;
            dom_ReplicationPolicy := 0 |}) false.

(** A global domain whose domain cache lookup fails. *)
Definition globalShardWithoutDomain : ShardContext :=
  scriptedShard (inl {| State := storedState; MutableStateStats := 0 |})
    (inl {| cr_Response := 0 |})
    (inl {| MutableStateUpdateSessionStats := 0 |}) None None
    (inr (OtherError "domain cache miss")) true.

Definition testDeclarations : Declarations :=
  {| IsPersistenceTransientError := fun e =>
       match e with
       | InternalServiceError _ => true
       | _ => false
       end;
     persistenceOperationRetryPolicy := 2%nat;
     WorkflowCloseStatusContinuedAsNew := 5;
     WorkflowStateCompleted := 2;
     BuildHistoryGarbageCleanupInfo := fun d w r => d ++ ":" ++ w ++ ":" ++ r;
     setTaskInfo := fun _ _ transferTasks timerTasks =>
       (transferTasks, timerTasks) |}.

Definition contextOf (runID : string) (ms : option scriptedState)
  (st : option ExecutionStats) (condition : Z)
  : workflowExecutionContextImpl scriptedState :=
  mkContext "domain" {| WorkflowId := "wf"; RunId := runID |} ms st condition.

Definition worldOf
  (cs : list (nat * workflowExecutionContextImpl scriptedState))
  : World scriptedState :=
  mkWorld (list_to_map cs) [].

(** *** Scenarios *)

Definition event (eventID : Z) : HistoryEvent :=
  {| EventId := eventID; Version := 0 |}.

Definition historyTaskOf (branchToken : bytes) (eventStoreVersion : Z)
  : HistoryReplicationTask :=
  {| hrt_Rest := 0; hrt_BranchToken := branchToken;
     hrt_EventStoreVersion := eventStoreVersion;
     hrt_NewRunBranchToken := []; hrt_NewRunEventStoreVersion := 0 |}.

Definition notScripted {A} : A + error := inr (OtherError "not scripted").

(** Run R1, loaded at next event 10: its transaction closes with one batch
    and next event [nextEventID]. *)
Definition currentRun (nextEventID : Z) : scriptedState :=
  scriptOf (infoOf "R1" 10 0) None false
    (inl (mutationOf (infoOf "R1" nextEventID 0) [] 10,
          [batchOf "R1" [event 10]]))
    notScripted.

(** Run R1 whose transaction closes with one batch without events. *)
Definition idleRun : scriptedState :=
  scriptOf (infoOf "R1" 10 0) None false
    (inl (mutationOf (infoOf "R1" 10 0) [] 10, [batchOf "R1" []]))
    notScripted.

(** Run R1 whose transaction cannot be closed. *)
Definition brokenRun : scriptedState :=
  scriptOf (infoOf "R1" 10 0) None false
    (inr (OtherError "close failed")) notScripted.

(** Run R1 of a global domain, still running. *)
Definition replicatedRun : scriptedState :=
  scriptOf (infoOf "R1" 10 0)
    (Some {| rs_Rest := 1 |}) false
    notScripted notScripted.

(** Run R2, the new run: it closes as a snapshot with the given batches. *)
Definition newRun (buffered : bool) (batches : list WorkflowEvents)
  : scriptedState :=
  scriptOf (infoOf "R2" 3 0) None buffered notScripted
    (inl (snapshotOf (infoOf "R2" 3 0) [], batches)).

Definition firstBatch : WorkflowEvents := batchOf "R2" [event 1].

Definition cachedContext (ms : scriptedState)
  : workflowExecutionContextImpl scriptedState :=
  contextOf "R1" (Some ms) (Some {| HistorySize := 120 |}) 10.

Definition newRunContext : workflowExecutionContextImpl scriptedState :=
  contextOf "R2" (Some (newRun false [firstBatch]))
    (Some {| HistorySize := 0 |}) 0.

(** One context, behind reference 0. *)
Definition worldWith (ms : scriptedState) : World scriptedState :=
  worldOf [(0%nat, cachedContext ms)].

(** The current context behind reference 0 and the context of the new run
    behind reference 1. *)
Definition pairedWorld (ms : scriptedState) : World scriptedState :=
  worldOf [(0%nat, cachedContext ms); (1%nat, newRunContext)].

(** A context that has not loaded anything yet. *)
Definition emptyWorld : World scriptedState :=
  worldOf [(0%nat, contextOf "R1" None (Some {| HistorySize := 0 |}) 0)].

Definition runCommit (shard : ShardContext)
  (op : @commitOperation scriptedState) (w : World scriptedState)
  : outcome unit * World scriptedState :=
  @commit scriptedState scriptedMutableState shard testDeclarations 0%nat op w.

Definition runUpdate (shard : ShardContext) (newContext : option contextRef)
  (newMutableState : option scriptedState)
  (newPolicy : option transactionPolicy) (w : World scriptedState)
  : outcome unit * World scriptedState :=
  @updateWorkflowExecutionWithNew scriptedState scriptedMutableState shard
    testDeclarations 0%nat 0 newContext newMutableState
    transactionPolicyActive newPolicy w.

Definition runLoad (shard : ShardContext) (w : World scriptedState)
  : outcome (option scriptedState) * World scriptedState :=
  @loadWorkflowExecution scriptedState scriptedMutableState shard
    testDeclarations 0%nat w.

Definition runConflictResolve (shard : ShardContext)
  (resetMutableState : scriptedState) (w : World scriptedState)
  : outcome (option scriptedState) * World scriptedState :=
  @conflictResolveWorkflowExecution scriptedState scriptedMutableState shard
    testDeclarations 0%nat 0 "R0" 0 1 resetMutableState 500 w.

Definition runReset (shard : ShardContext) (newMutableState : scriptedState)
  (w : World scriptedState) : outcome unit * World scriptedState :=
  @resetWorkflowExecution scriptedState scriptedMutableState shard
    testDeclarations 0%nat (currentRun 12) true true None None
    newMutableState 0 [] [] [] [] "R1" 10 w.

(** The update condition of the context behind reference 0. *)
Definition conditionOf (w : World scriptedState) : option Z :=
  updateCondition <$> contexts w !! 0%nat.

(** The cached history size of the context behind reference 0. *)
Definition historySizeOf (w : World scriptedState) : option Z :=
  match contexts w !! 0%nat with
  | Some x => HistorySize <$> stats x
  | None => None
  end.

(** The conditions under which the storage updates of a trace were
    submitted. *)
Definition submittedConditions (tr : list Event) : list Z :=
  omap (fun e =>
          match e with
          | UpdateWorkflowExecutionCall request =>
              Some (wm_Condition (UpdateWorkflowMutation request))
          | _ => None
          end) tr.

(** The current mutation and the new snapshot of a continue-as-new commit:
    one history replication task each. *)
Definition continuedMutation (replicationTasks : list Task)
  : WorkflowMutation :=
  mutationOf (infoOf "R1" 12 5) replicationTasks 10.

Definition newRunSnapshot (replicationTasks : list Task) : WorkflowSnapshot :=
  snapshotOf (infoOf "R2" 3 0) replicationTasks.

Definition branchB : bytes := [Byte.x42].

(** ** Relations and predicates for the remaining methods *)

Definition isNotification (e : Event) : bool :=
  match e with
  | NotifyNewTransferTasks _ | NotifyNewReplicationTasks _
  | NotifyNewTimerTasks _ | NotifyNewHistoryEvent _ => true
  | _ => false
  end.

(** A call that does not notify the engine. *)
Definition notNotification (e : Event) : Prop := isNotification e = false.



(** What the loop of the continue-as-new merge does to one task. *)
Definition stampNewRun (newRunBranchToken : bytes)
  (newRunEventStoreVersion : Z) (task : Task) : Task :=
  match task with
  | HistoryTask t =>
      HistoryTask (set_NewRun t newRunBranchToken newRunEventStoreVersion)
  | _ => task
  end.

Section MoreRunRelations.

Context {MS : Type}.

(** No run of [m] returns an error. *)
Definition neverErrs {A} (m : M MS A) : Prop :=
  forall w e w', m w <> (Err e, w').

(** The update condition of the context behind [n] is left as it is. *)
Definition sameCondition (n : contextRef) (w w' : World MS) : Prop :=
  updateCondition <$> contexts w' !! n = updateCondition <$> contexts w !! n.

(** The cached mutable state of the context behind [n] is left as it is. *)
Definition sameBuilder (n : contextRef) (w w' : World MS) : Prop :=
  msBuilder <$> contexts w' !! n = msBuilder <$> contexts w !! n.

(** No notification is sent and no update condition moves. *)
Definition quiet (w w' : World MS) : Prop :=
  growsBy notNotification w w' /\ forall n, sameCondition n w w'.

(** Every context keeps its cached mutable state and its update condition,
    and every context but [c] is left as it is. *)
Definition onlyStatsOf (c : contextRef) (w w' : World MS) : Prop :=
  forall n,
    sameBuilder n w w' /\ sameCondition n w w'
    /\ (n <> c -> contexts w' !! n = contexts w !! n).

(** Every context keeps its update condition and, if it has one, a cached
    mutable state, and every context but [c] is left as it is. *)
Definition neverClears (c : contextRef) (w w' : World MS) : Prop :=
  forall n,
    sameCondition n w w'
    /\ (n <> c -> contexts w' !! n = contexts w !! n)
    /\ (cached w n -> cached w' n).

(** A call that neither notifies the engine nor resets storage. *)
Definition silentCall (e : Event) : Prop :=
  isNotification e = false /\ isReset e = false.

End MoreRunRelations.

(** ** Reasoning about runs *)

Section Runs.

Context {MS : Type} `{!MutableState MS} `{!ShardContext} `{!Declarations}.

Local Abbreviation world := (World MS).

(** *** Inversion of sequencing *)

Lemma bind_Ok_inv {A B} (m : M MS A) (k : A -> M MS B) w b w' :
  bind m k w = (Ok b, w') ->
  exists a w1, m w = (Ok a, w1) /\ k a w1 = (Ok b, w').
Proof.
  unfold bind. destruct (m w) as [[a | e | p] w1]; intros E;
    try discriminate. eauto.
Qed.

Lemma bind_Panicked_inv {A B} (m : M MS A) (k : A -> M MS B) w p w' :
  bind m k w = (Panicked p, w') ->
  m w = (Panicked p, w') \/
  exists a w1, m w = (Ok a, w1) /\ k a w1 = (Panicked p, w').
Proof.
  unfold bind. destruct (m w) as [[a | e0 | p0] w1]; intros E;
    try discriminate; [right; eauto | left; congruence].
Qed.

Lemma bind_Ok {A B} (m : M MS A) (k : A -> M MS B) w a w1 :
  m w = (Ok a, w1) -> bind m k w = k a w1.
Proof. unfold bind. now intros ->. Qed.

Lemma bind_Err {A B} (m : M MS A) (k : A -> M MS B) w e w1 :
  m w = (Err e, w1) -> bind m k w = (Err e, w1).
Proof. unfold bind. now intros ->. Qed.

Lemma bind_Panicked {A B} (m : M MS A) (k : A -> M MS B) w p w1 :
  m w = (Panicked p, w1) -> bind m k w = (Panicked p, w1).
Proof. unfold bind. now intros ->. Qed.

(** *** The relations are orders, and runs compose along them *)

#[export] Instance sameContexts_order : WorldOrder (@sameContexts MS).
Proof.
  split; unfold sameContexts; [reflexivity | intros; congruence].
Qed.

#[export] Instance sameContext_order n : WorldOrder (@sameContext MS n).
Proof.
  split; unfold sameContext; [reflexivity | intros; congruence].
Qed.

#[export] Instance growsBy_order P : WorldOrder (@growsBy MS P).
Proof.
  split.
  - intros w. exists []. split; [now rewrite app_nil_r | constructor].
  - intros w1 w2 w3 (t1 & E1 & F1) (t2 & E2 & F2). exists (t1 ++ t2)%list.
    split; [rewrite E2, E1; now rewrite app_assoc | now apply Forall_app].
Qed.

Section Keeps.

Context (F : world -> world -> Prop) `{!WorldOrder F}.

Lemma keeps_ret {A} (a : A) : keeps F (ret a).
Proof. intros w r w' E. injection E as <- <-. apply order_refl. Qed.

Lemma keeps_fail {A} e : keeps F (@fail MS A e).
Proof. intros w r w' E. injection E as <- <-. apply order_refl. Qed.

Lemma keeps_throw {A} p : keeps F (@throw MS A p).
Proof. intros w r w' E. injection E as <- <-. apply order_refl. Qed.

Lemma keeps_bind {A B} (m : M MS A) (k : A -> M MS B) :
  keeps F m -> (forall a, keeps F (k a)) -> keeps F (bind m k).
Proof.
  intros Hm Hk w r w'. unfold bind.
  destruct (m w) as [[a | e | p] w1] eqn:E; intros E'.
  - eapply order_trans; [eapply Hm, E | eapply Hk, E'].
  - injection E' as <- <-. eapply Hm, E.
  - injection E' as <- <-. eapply Hm, E.
Qed.

Lemma keeps_deref c : keeps F (deref c).
Proof.
  intros w r w'. unfold deref.
  destruct (contexts w !! c); intros E; injection E as <- <-;
    apply order_refl.
Qed.

Lemma keeps_deferOnError {A} (cleanup : M MS unit) (body : M MS A) :
  keeps F cleanup -> keeps F body -> keeps F (deferOnError cleanup body).
Proof.
  intros Hc Hb w r w'. unfold deferOnError.
  destruct (body w) as [[a | e | p] w1] eqn:E.
  - intros E'. injection E' as <- <-. eapply Hb, E.
  - destruct (cleanup w1) as [[u | e' | p] w2] eqn:E2; intros E';
      injection E' as <- <-;
      (eapply order_trans; [eapply Hb, E | eapply Hc, E2]).
  - intros E'. injection E' as <- <-. eapply Hb, E.
Qed.

Lemma keeps_deferOnErrorWithin {A} (outer cleanup : M MS unit)
  (body : M MS A) :
  keeps F outer -> keeps F cleanup -> keeps F body ->
  keeps F (deferOnErrorWithin outer cleanup body).
Proof.
  intros Ho Hc Hb w r w'. unfold deferOnErrorWithin.
  destruct (body w) as [[a | e | p] w1] eqn:E.
  - intros E'. injection E' as <- <-. eapply Hb, E.
  - destruct (cleanup w1) as [[u | e' | p] w2] eqn:E2.
    + intros E'. injection E' as <- <-.
      eapply order_trans; [eapply Hb, E | eapply Hc, E2].
    + intros E'. injection E' as <- <-.
      eapply order_trans; [eapply Hb, E | eapply Hc, E2].
    + destruct (outer w2) as [[u | e' | q] w3] eqn:E3; intros E';
        injection E' as <- <-;
        (eapply order_trans;
         [eapply Hb, E | eapply order_trans; [eapply Hc, E2 | eapply Ho, E3]]).
  - intros E'. injection E' as <- <-. eapply Hb, E.
Qed.

Lemma keeps_Retry {A} (op : M MS (A * option error)) n :
  keeps F op -> keeps F (Retry op n).
Proof.
  intros Hop. induction n as [| n IH]; cbn [Retry];
    apply keeps_bind; auto; intros [resp [e |]];
    auto using keeps_ret.
  destruct (IsPersistenceTransientError e); auto using keeps_ret.
Qed.

End Keeps.

(** *** What the primitive steps keep *)

Lemma call_sameContexts e : keeps (@sameContexts MS) (call e).
Proof. intros w r w' E. injection E as <- <-. reflexivity. Qed.

Lemma ask_sameContexts {A} (answer : nat -> A) e :
  keeps (@sameContexts MS) (ask answer e).
Proof. intros w r w' E. injection E as <- <-. reflexivity. Qed.

Lemma call_sameContext n e : keeps (@sameContext MS n) (call e).
Proof. intros w r w' E. injection E as <- <-. reflexivity. Qed.

Lemma ask_sameContext {A} n (answer : nat -> A) e :
  keeps (@sameContext MS n) (ask answer e).
Proof. intros w r w' E. injection E as <- <-. reflexivity. Qed.

Lemma call_growsBy (P : Event -> Prop) e :
  P e -> keeps (@growsBy MS P) (call e).
Proof.
  intros HP w r w' E. injection E as <- <-. exists [e]. split; auto.
Qed.

Lemma ask_growsBy {A} (P : Event -> Prop) (answer : nat -> A) e :
  P e -> keeps (@growsBy MS P) (ask answer e).
Proof.
  intros HP w r w' E. injection E as <- <-. exists [e]. split; auto.
Qed.

Lemma call_grows e : keeps (@growsBy MS (fun _ => True)) (call e).
Proof. now apply call_growsBy. Qed.

Lemma ask_grows {A} (answer : nat -> A) e :
  keeps (@growsBy MS (fun _ => True)) (ask answer e).
Proof. now apply ask_growsBy. Qed.

Lemma store_growsBy P c (x : workflowExecutionContextImpl MS) :
  keeps (growsBy P) (store c x).
Proof.
  intros w r w' E. injection E as <- <-. exists []. cbn.
  split; [now rewrite app_nil_r | constructor].
Qed.

Lemma store_sameContext n c (x : workflowExecutionContextImpl MS) :
  n <> c -> keeps (sameContext n) (store c x).
Proof.
  intros Hn w r w' E. injection E as <- <-. unfold sameContext. cbn.
  now apply lookup_insert_ne.
Qed.

End Runs.

Create HintDb keeps discriminated.

#[export] Hint Resolve keeps_ret keeps_fail keeps_throw keeps_deref
  call_sameContexts ask_sameContexts call_sameContext ask_sameContext
  call_grows ask_grows store_growsBy store_sameContext : keeps.

(** Splits a goal [keeps F m] along the structure of [m]. *)
Ltac keeps_step :=
  lazymatch goal with
  | |- keeps _ (bind _ _) => apply keeps_bind; [try exact _ | | intros ?]
  | |- keeps _ (Retry _ _) => apply keeps_Retry; [try exact _ |]
  | |- keeps _ (deferOnError _ _) =>
      apply keeps_deferOnError; [try exact _ | |]
  | |- keeps _ (deferOnErrorWithin _ _ _) =>
      apply keeps_deferOnErrorWithin; [try exact _ | | |]
  | |- keeps _ (ret _) => apply keeps_ret; try exact _
  | |- keeps _ (fail _) => apply keeps_fail; try exact _
  | |- keeps _ (throw _) => apply keeps_throw; try exact _
  | |- keeps _ (deref _) => apply keeps_deref; try exact _
  | |- keeps _ (match ?t with _ => _ end) => destruct t
  | |- keeps _ _ => solve [eauto with keeps]
  end.

Ltac keeps_tac := repeat keeps_step.

(** ** Facts about the methods *)

Section MethodFacts.

Context {MS : Type} `{!MutableState MS} `{!ShardContext} `{!Declarations}.

Local Abbreviation world := (World MS).
Local Abbreviation context := (workflowExecutionContextImpl MS).

(** *** Methods that only call collaborators *)

Section Calls.

(** An order on worlds that every call to a collaborator respects. *)
Context (F : world -> world -> Prop) `{!WorldOrder F}.
Context (F_call : forall e, keeps F (call e)).
Context (F_ask : forall A (answer : nat -> A) e, keeps F (ask answer e)).

Lemma the_msBuilder_keeps c : keeps F (the_msBuilder c).
Proof. unfold the_msBuilder. keeps_tac. Qed.

Lemma getDomainName_keeps c : keeps F (getDomainName c).
Proof. unfold getDomainName. keeps_tac. Qed.

Lemma getHistorySize_keeps c : keeps F (getHistorySize c).
Proof. unfold getHistorySize. keeps_tac. Qed.

Lemma notifyTasks_keeps t1 t2 t3 : keeps F (notifyTasks t1 t2 t3).
Proof. unfold notifyTasks. keeps_tac. Qed.

Lemma appendHistoryEventsWithRetry_keeps request :
  keeps F (appendHistoryEventsWithRetry request).
Proof. unfold appendHistoryEventsWithRetry. keeps_tac. Qed.

Lemma appendHistoryV2EventsWithRetry_keeps d e request :
  keeps F (appendHistoryV2EventsWithRetry d e request).
Proof. unfold appendHistoryV2EventsWithRetry. keeps_tac. Qed.

Lemma createWorkflowExecutionWithRetry_keeps request :
  keeps F (createWorkflowExecutionWithRetry request).
Proof. unfold createWorkflowExecutionWithRetry. keeps_tac. Qed.

Lemma getWorkflowExecutionWithRetry_keeps request :
  keeps F (getWorkflowExecutionWithRetry request).
Proof. unfold getWorkflowExecutionWithRetry. keeps_tac. Qed.

Lemma updateWorkflowExecutionWithRetry_keeps c request :
  keeps F (updateWorkflowExecutionWithRetry c request).
Proof. unfold updateWorkflowExecutionWithRetry. keeps_tac. Qed.

#[local] Hint Resolve the_msBuilder_keeps getDomainName_keeps
  getHistorySize_keeps notifyTasks_keeps appendHistoryEventsWithRetry_keeps
  appendHistoryV2EventsWithRetry_keeps createWorkflowExecutionWithRetry_keeps
  getWorkflowExecutionWithRetry_keeps updateWorkflowExecutionWithRetry_keeps
  : keeps.

Lemma persistFirstWorkflowEvents_keeps workflowEvents :
  keeps F (persistFirstWorkflowEvents workflowEvents).
Proof. unfold persistFirstWorkflowEvents. keeps_tac. Qed.

Lemma persistNonFirstWorkflowEvents_keeps workflowEvents :
  keeps F (persistNonFirstWorkflowEvents workflowEvents).
Proof. unfold persistNonFirstWorkflowEvents. keeps_tac. Qed.

#[local] Hint Resolve persistFirstWorkflowEvents_keeps
  persistNonFirstWorkflowEvents_keeps : keeps.

Lemma persistNonFirstWorkflowEventsSeq_keeps workflowEventsSeq size :
  keeps F (persistNonFirstWorkflowEventsSeq workflowEventsSeq size).
Proof.
  revert size. induction workflowEventsSeq as [| workflowEvents rest IH];
    intros size; cbn [persistNonFirstWorkflowEventsSeq]; keeps_tac.
Qed.

Lemma createWorkflowExecution_keeps c newWorkflow historySize now createMode
  prevRunID prevLastWriteVersion :
  keeps F (createWorkflowExecution c newWorkflow historySize now createMode
             prevRunID prevLastWriteVersion).
Proof. unfold createWorkflowExecution. keeps_tac. Qed.

#[local] Hint Resolve persistNonFirstWorkflowEventsSeq_keeps : keeps.

(** *** Methods that also write to the context [c] *)

Context (c : contextRef).
Context (F_store : forall x : context, keeps F (store c x)).

Lemma put_msBuilder_keeps ms : keeps F (put_msBuilder c ms).
Proof. unfold put_msBuilder. keeps_tac. Qed.

Lemma clear_keeps : keeps F (clear c).
Proof. unfold clear. keeps_tac. Qed.

Lemma setHistorySize_keeps size : keeps F (setHistorySize c size).
Proof. unfold setHistorySize. keeps_tac. Qed.

#[local] Hint Resolve put_msBuilder_keeps clear_keeps setHistorySize_keeps
  : keeps.

Lemma loadWorkflowExecutionInternal_keeps :
  keeps F (loadWorkflowExecutionInternal c).
Proof. unfold loadWorkflowExecutionInternal. keeps_tac. Qed.

Lemma updateVersion_keeps : keeps F (updateVersion c).
Proof. unfold updateVersion. keeps_tac. Qed.

#[local] Hint Resolve loadWorkflowExecutionInternal_keeps updateVersion_keeps
  : keeps.

Lemma loadWorkflowExecution_keeps : keeps F (loadWorkflowExecution c).
Proof. unfold loadWorkflowExecution. keeps_tac. Qed.

Lemma updateWorkflowExecutionWithNew_current_keeps now policy :
  keeps F (updateWorkflowExecutionWithNew_current c now policy).
Proof. unfold updateWorkflowExecutionWithNew_current. keeps_tac. Qed.

Lemma updateWorkflowExecutionWithNew_new_keeps now newMutableState policy :
  keeps F (updateWorkflowExecutionWithNew_new c now newMutableState policy).
Proof. unfold updateWorkflowExecutionWithNew_new. keeps_tac. Qed.

Lemma updateWorkflowExecutionWithNew_notify_keeps currentWorkflow
  newWorkflow resp :
  keeps F (updateWorkflowExecutionWithNew_notify c currentWorkflow
             newWorkflow resp).
Proof. unfold updateWorkflowExecutionWithNew_notify. keeps_tac. Qed.

#[local] Hint Resolve updateWorkflowExecutionWithNew_notify_keeps : keeps.

Lemma updateWorkflowExecutionWithNew_commit_keeps currentWorkflow
  newWorkflow :
  keeps F (updateWorkflowExecutionWithNew_commit c currentWorkflow
             newWorkflow).
Proof. unfold updateWorkflowExecutionWithNew_commit. keeps_tac. Qed.

End Calls.

End MethodFacts.

#[export] Hint Resolve sameContexts_order sameContext_order growsBy_order
  the_msBuilder_keeps getDomainName_keeps getHistorySize_keeps
  notifyTasks_keeps appendHistoryEventsWithRetry_keeps
  appendHistoryV2EventsWithRetry_keeps createWorkflowExecutionWithRetry_keeps
  getWorkflowExecutionWithRetry_keeps updateWorkflowExecutionWithRetry_keeps
  persistFirstWorkflowEvents_keeps persistNonFirstWorkflowEvents_keeps
  persistNonFirstWorkflowEventsSeq_keeps createWorkflowExecution_keeps
  put_msBuilder_keeps clear_keeps setHistorySize_keeps
  loadWorkflowExecutionInternal_keeps updateVersion_keeps
  loadWorkflowExecution_keeps updateWorkflowExecutionWithNew_current_keeps
  updateWorkflowExecutionWithNew_new_keeps
  updateWorkflowExecutionWithNew_notify_keeps
  updateWorkflowExecutionWithNew_commit_keeps : keeps.

(** From a run [E : m w = (r, w')], derives that [F] relates [w] and [w']. *)
Ltac keeps_in F E :=
  lazymatch type of E with
  | ?m ?w = (?r, ?w') =>
      let H := fresh "Hkeeps" in
      assert (H : keeps F m) by keeps_tac;
      apply H in E
  end.

(** ** The history appender and the refusals *)

Section Refusals.

Context {MS : Type} `{!MutableState MS} `{!ShardContext} `{!Declarations}.

Local Abbreviation world := (World MS).
Local Abbreviation context := (workflowExecutionContextImpl MS).

Lemma to_int64_id z : is_int64 z -> to_int64 z = z.
Proof.
  unfold is_int64, to_int64. intros Hz.
  rewrite Z.mod_small by lia. lia.
Qed.

Lemma add64_0_r z : is_int64 z -> add64 z 0 = z.
Proof. intros Hz. unfold add64. rewrite Z.add_0_r. now apply to_int64_id. Qed.

Lemma countCalls_app p (t1 t2 : list Event) :
  countCalls p (t1 ++ t2) = (countCalls p t1 + countCalls p t2)%nat.
Proof. unfold countCalls. now rewrite filter_app, length_app. Qed.

Lemma countCalls_snoc_false p (tr : list Event) e :
  p e = false -> countCalls p (tr ++ [e]) = countCalls p tr.
Proof.
  intros Hp. rewrite countCalls_app. unfold countCalls at 2.
  rewrite filter_cons_False, filter_nil by (rewrite Hp; discriminate).
  cbn. lia.
Qed.

Lemma countCalls_snoc_true p (tr : list Event) e :
  p e = true -> countCalls p (tr ++ [e]) = S (countCalls p tr).
Proof.
  intros Hp. rewrite countCalls_app. unfold countCalls at 2.
  rewrite filter_cons_True, filter_nil by exact Hp.
  cbn. lia.
Qed.

Lemma persistNonFirstWorkflowEvents_empty workflowEvents (w : world) :
  evs_Events workflowEvents = [] ->
  persistNonFirstWorkflowEvents workflowEvents w = (Ok (0, None), w).
Proof. unfold persistNonFirstWorkflowEvents. now intros ->. Qed.

Lemma persistNonFirstWorkflowEventsSeq_empty workflowEventsSeq size
  (w : world) :
  Forall (fun workflowEvents => evs_Events workflowEvents = [])
    workflowEventsSeq ->
  is_int64 size ->
  persistNonFirstWorkflowEventsSeq workflowEventsSeq size w = (Ok size, w).
Proof.
  intros Hall Hsize. induction Hall as [| workflowEvents rest Hempty _ IH];
    cbn [persistNonFirstWorkflowEventsSeq]; [reflexivity |].
  erewrite bind_Ok by (now apply persistNonFirstWorkflowEvents_empty).
  cbn. now rewrite add64_0_r.
Qed.

Lemma deref_lookup c (x : context) (w : world) :
  contexts w !! c = Some x -> deref c w = (Ok x, w).
Proof. unfold deref. now intros ->. Qed.

Lemma Retry_first_answer {A} (answer : nat -> A * option error) e n resp
  (w : world) :
  answer (length (trace w)) = (resp, None) ->
  Retry (ask answer e) n w
  = (Ok (resp, None), mkWorld (contexts w) (trace w ++ [e])).
Proof.
  intros Hanswer. destruct n; cbn [Retry]; unfold bind, ask;
    rewrite Hanswer; reflexivity.
Qed.

(** Whatever the storage answers, a retried call is issued at least once,
    always with the same request, and ends without a panic. *)
Lemma Retry_ask {A} (answer : nat -> A * option error) e n (w : world) :
  exists r k,
    Retry (ask answer e) n w
    = (Ok r, mkWorld (contexts w) (trace w ++ repeat e (S k))).
Proof.
  revert w. induction n as [| n IH]; intros w; cbn [Retry];
    unfold bind at 1; unfold ask at 1;
    destruct (answer (length (trace w))) as [resp [err |]] eqn:Hanswer.
  - exists (resp, Some err), O. reflexivity.
  - exists (resp, None), O. reflexivity.
  - destruct (IsPersistenceTransientError err).
    + destruct (IH (mkWorld (contexts w) (trace w ++ [e])))
        as (r & k & E).
      exists r, (S k). rewrite E. cbn [contexts trace].
      now rewrite <- app_assoc.
    + exists (resp, Some err), O. reflexivity.
  - exists (resp, None), O. reflexivity.
Qed.

Lemma bind_inv {A B} (m : M MS A) (k : A -> M MS B) w r w' :
  bind m k w = (r, w') ->
  exists r1 w1,
    m w = (r1, w1)
    /\ match r1 with
       | Ok a => k a w1 = (r, w')
       | Err e => r = Err e /\ w' = w1
       | Panicked p => r = Panicked p /\ w' = w1
       end.
Proof.
  unfold bind. destruct (m w) as [[a | e | p] w1]; intros E;
    eexists _, _; (split; [reflexivity |]); cbn;
    [exact E | now injection E as <- <- ..].
Qed.

Lemma deferOnError_inv {A} (cleanup : M MS unit) (body : M MS A) w r w' :
  deferOnError cleanup body w = (r, w') ->
  exists r0 w0,
    body w = (r0, w0)
    /\ ((r0 = r /\ w0 = w' /\ forall e, r0 <> Err e)
        \/ exists e rc,
             r0 = Err e /\ cleanup w0 = (rc, w')
             /\ (r = Err e /\ (forall p, rc <> Panicked p)
                 \/ exists p, rc = Panicked p /\ r = Panicked p)).
Proof.
  unfold deferOnError. destruct (body w) as [[a | e | p] w0]; intros E.
  - injection E as <- <-. eexists _, _. split; [reflexivity |]. left.
    repeat split; discriminate.
  - eexists _, _. split; [reflexivity |]. right.
    destruct (cleanup w0) as [[u | e' | p] w1]; injection E as <- <-;
      eexists _, _; (split; [reflexivity |]); (split; [reflexivity |]);
      [left | left | right; eauto]; split; try reflexivity; discriminate.
  - injection E as <- <-. eexists _, _. split; [reflexivity |]. left.
    repeat split; discriminate.
Qed.

(** A nested deferred cleanup that does not end in a panic behaves as the
    plain one. *)
Lemma deferOnErrorWithin_returns {A} (outer cleanup : M MS unit)
  (body : M MS A) w r w' :
  (forall p, r <> Panicked p) ->
  deferOnErrorWithin outer cleanup body w = (r, w') ->
  deferOnError cleanup body w = (r, w').
Proof.
  unfold deferOnErrorWithin, deferOnError. intros Hr.
  destruct (body w) as [[a | e | p] w0]; [auto | | auto].
  destruct (cleanup w0) as [[u | e' | p] w1]; [auto | auto |].
  destruct (outer w1) as [[u | e' | q] w2]; intros E; injection E as <- _;
    now edestruct Hr.
Qed.

Lemma grows_trace (w w' : world) :
  growsBy (fun _ => True) w w' -> exists tr, trace w' = (trace w ++ tr)%list.
Proof. intros (tr & E & _). eauto. Qed.

Lemma updateWorkflowExecutionWithRetry_first_call c request (w : world)
  r w' :
  updateWorkflowExecutionWithRetry c request w = (r, w') ->
  exists tr,
    trace w' = (trace w ++ UpdateWorkflowExecutionCall request :: tr)%list.
Proof.
  unfold updateWorkflowExecutionWithRetry. intros E.
  apply bind_inv in E as (r1 & w1 & E1 & E).
  destruct (Retry_ask
              (fun n => split_answer (UpdateWorkflowExecution n request))
              (UpdateWorkflowExecutionCall request)
              persistenceOperationRetryPolicy w) as (r2 & k & E2).
  rewrite E2 in E1. injection E1 as <- <-.
  assert (Hk : keeps (@growsBy MS (fun _ => True))
                 (let '(resp, err) := r2 in
                  match err with
                  | None => ret (resp, None)
                  | Some ConditionFailedError => ret (None, Some ErrConflict)
                  | Some e =>
                      x <- deref c ;;
                      call (LogError "Persistent store operation failure"
                              "UpdateWorkflowExecution" e
                              (Some (updateCondition x))) ;;;
                      ret (None, Some e)
                  end)).
  { destruct r2 as [resp [[] |]]; keeps_tac. }
  apply Hk, grows_trace in E as (tr & E). cbn [trace] in E.
  exists (repeat (UpdateWorkflowExecutionCall request) k ++ tr)%list.
  rewrite E. cbn [repeat]. now rewrite <- app_assoc.
Qed.

Lemma merge_not_continued_as_new currentWorkflow newWorkflow :
  ei_CloseStatus (wm_ExecutionInfo currentWorkflow)
  <> WorkflowCloseStatusContinuedAsNew ->
  mergeContinueAsNewReplicationTasks currentWorkflow newWorkflow
  = (Ok tt, currentWorkflow, newWorkflow).
Proof.
  intros Hne. unfold mergeContinueAsNewReplicationTasks.
  apply Z.eqb_neq in Hne. now rewrite Hne.
Qed.

(** Once the merge has passed, the storage update is what comes next. *)
Lemma commit_submits c currentWorkflow newWorkflow merged newWorkflow'
  (w : world) r w' :
  mergeContinueAsNewReplicationTasks currentWorkflow newWorkflow
  = (Ok tt, merged, newWorkflow') ->
  updateWorkflowExecutionWithNew_commit c currentWorkflow newWorkflow w
  = (r, w') ->
  exists tr,
    trace w'
    = (trace w
       ++ UpdateWorkflowExecutionCall
            {| UpdateWorkflowMutation := merged;
               NewWorkflowSnapshot := newWorkflow' |} :: tr)%list.
Proof.
  intros Hmerge E.
  unfold updateWorkflowExecutionWithNew_commit in E. rewrite Hmerge in E.
  apply bind_inv in E as (r1 & w1 & E1 & E).
  apply updateWorkflowExecutionWithRetry_first_call in E1 as (tr1 & E1).
  destruct r1 as [[resp [err |]] | e | p].
  - injection E as _ <-. eauto.
  - apply (updateWorkflowExecutionWithNew_notify_keeps
             (growsBy (fun _ => True)) call_grows (fun A => ask_grows)
             c (store_growsBy _ c)), grows_trace in E as (tr2 & E2).
    exists (tr1 ++ tr2)%list. rewrite E2, E1. now rewrite <- app_assoc.
  - destruct E as [_ ->]. eauto.
  - destruct E as [_ ->]. eauto.
Qed.

(** C7: an event batch with an empty events list.  The first-batch append
    returns size 0 and an internal error, the non-first append returns size
    0 and no error, and neither calls storage: the world is left as it is.
    Hence an update whose batches are all empty closes the current run with
    the trace and the history size unchanged, and, unless the run continues
    as new, goes on to submit the storage update with that size. *)
Theorem empty_batch_is_rejected_first_and_skipped_later
  (workflowEvents : WorkflowEvents) (w : world) :
  evs_Events workflowEvents = [] ->
  persistFirstWorkflowEvents workflowEvents w
  = (Ok (0, Some (InternalServiceError
                    "cannot persist first workflow events with empty events")),
     w)
  /\ persistNonFirstWorkflowEvents workflowEvents w = (Ok (0, None), w)
  /\ forall c now policy x ms ms' currentWorkflow workflowEventsSeq size,
       contexts w !! c = Some x ->
       msBuilder x = Some ms ->
       stats x = Some {| HistorySize := size |} ->
       is_int64 size ->
       CloseTransactionAsMutation ms now policy
       = (ms', inl (currentWorkflow, workflowEventsSeq)) ->
       Forall (fun batch => evs_Events batch = []) workflowEventsSeq ->
       let stamped :=
         set_wm_ExecutionStats currentWorkflow
           (Some {| HistorySize := size |}) in
       let w1 :=
         mkWorld (<[c := set_msBuilder x (Some ms')]> (contexts w))
           (trace w) in
       updateWorkflowExecutionWithNew_current c now policy w
       = (Ok stamped, w1)
       /\ (ei_CloseStatus (wm_ExecutionInfo currentWorkflow)
           <> WorkflowCloseStatusContinuedAsNew ->
           exists r w' tr,
             updateWorkflowExecutionWithNew c now None None policy None w
             = (r, w')
             /\ trace w'
                = (trace w
                   ++ UpdateWorkflowExecutionCall
                        {| UpdateWorkflowMutation := stamped;
                           NewWorkflowSnapshot := None |} :: tr)%list).
Proof.
  intros Hempty. split; [| split].
  - unfold persistFirstWorkflowEvents. now rewrite Hempty.
  - now apply persistNonFirstWorkflowEvents_empty.
  - intros c now policy x ms ms' currentWorkflow workflowEventsSeq size
      Hc Hms Hstats Hsize Hclose Hall stamped w1.
    assert (Hcurrent :
      updateWorkflowExecutionWithNew_current c now policy w
      = (Ok stamped, w1)).
    { unfold updateWorkflowExecutionWithNew_current, the_msBuilder,
        put_msBuilder, getHistorySize, setHistorySize, bind, deref, store,
        ret.
      simpl. rewrite Hc, Hms, Hclose. simpl. rewrite Hc. simpl.
      rewrite lookup_insert_eq. simpl. rewrite Hstats.
      rewrite persistNonFirstWorkflowEventsSeq_empty by assumption.
      simpl. rewrite lookup_insert_eq. simpl. rewrite Hstats.
      unfold stamped, w1. cbn [contexts trace]. f_equal. f_equal.
      rewrite insert_insert_eq. f_equal.
      unfold set_stats, set_msBuilder. simpl. now rewrite Hstats. }
    split; [exact Hcurrent |]. intros Hstatus.
    destruct (updateWorkflowExecutionWithNew c now None None policy None w)
      as [r w'] eqn:E.
    exists r, w'. 
    apply deferOnError_inv in E as (r0 & w0 & E0 & Hdefer).
    rewrite (bind_Ok _ _ _ _ _ Hcurrent) in E0.
    eapply commit_submits in E0 as (tr0 & E0);
      [| now apply merge_not_continued_as_new].
    cbn [trace w1] in E0.
    destruct Hdefer as [(_ & <- & _) | (e & rc & _ & Hclear & _)].
    + exists tr0. split; [reflexivity | exact E0].
    + apply (clear_keeps (growsBy (fun _ => True)) call_grows c
               (store_growsBy _ c)), grows_trace in Hclear as (tr1 & E1).
      exists (tr0 ++ tr1)%list. split; [reflexivity |].
      rewrite E1, E0. now rewrite <- app_assoc.
Qed.

(** C6: a reset whose new mutable state has buffered events is refused with
    an internal error.  The only call made before the refusal reads the
    clock: no history is appended and no storage reset is issued. *)
Theorem reset_with_buffered_events_is_refused (c : contextRef)
  (currMutableState : MS) (currCached updateCurr : bool)
  (closeTask cleanupTask : option Task) (newMutableState : MS)
  (newHistorySize : Z) (newTransferTasks newTimerTasks : list Task)
  (currReplicationTasks newReplicationTasks : list Task)
  (baseRunID : string) (baseRunNextEventID : Z) (w : world) :
  HasBufferedEvents newMutableState = true ->
  let w' := mkWorld (contexts w) (trace w ++ [TimeSourceNowCall]) in
  resetWorkflowExecution c currMutableState currCached updateCurr closeTask
    cleanupTask newMutableState newHistorySize newTransferTasks
    newTimerTasks currReplicationTasks newReplicationTasks baseRunID
    baseRunNextEventID w
  = (Err (InternalServiceError
            "reset workflow execution shouldn't have buffered events"), w')
  /\ countCalls isAppend (trace w') = countCalls isAppend (trace w)
  /\ countCalls isReset (trace w') = countCalls isReset (trace w)
  /\ countCalls isStorageCall (trace w') = countCalls isStorageCall (trace w).
Proof.
  intros Hbuffered w'. split.
  - unfold resetWorkflowExecution, bind, ask. cbn.
    destruct (setTaskInfo (GetCurrentVersion currMutableState) _ _ _).
    destruct (setTaskInfo (GetCurrentVersion newMutableState) _ _ _).
    now rewrite Hbuffered.
  - unfold w'. cbn [trace]. now rewrite !countCalls_snoc_false.
Qed.

(** C5, as the code has it: conflict resolution closes the replacement
    mutable state as a snapshot under the passive policy; an error of the
    close is returned as it is, and one or more event batches make the call
    fail with a bad request error.  In both cases the world is left as it
    is: no storage operation was made and nothing was retried. *)
Theorem conflict_resolve_with_new_events_is_refused (c : contextRef)
  (now : time) (prevRunID : string) (prevLastWriteVersion prevState : Z)
  (resetMutableState : MS) (resetHistorySize : Z) (w : world) :
  (forall err,
     snd (CloseTransactionAsSnapshot resetMutableState now
            transactionPolicyPassive) = inr err ->
     conflictResolveWorkflowExecution c now prevRunID prevLastWriteVersion
       prevState resetMutableState resetHistorySize w
     = (Err err, w))
  /\ (forall resetWorkflow workflowEventsSeq,
        snd (CloseTransactionAsSnapshot resetMutableState now
               transactionPolicyPassive)
        = inl (resetWorkflow, workflowEventsSeq) ->
        workflowEventsSeq <> [] ->
        conflictResolveWorkflowExecution c now prevRunID
          prevLastWriteVersion prevState resetMutableState resetHistorySize w
        = (Err (BadRequestError
                  "reset mutable state should not generate new events"), w)).
Proof.
  split.
  - intros err Hclose. unfold conflictResolveWorkflowExecution.
    now rewrite Hclose.
  - intros resetWorkflow workflowEventsSeq Hclose Hseq.
    unfold conflictResolveWorkflowExecution. rewrite Hclose.
    destruct workflowEventsSeq; [contradiction | reflexivity].
Qed.

(** *** The continue-as-new merge *)

Lemma mergeNewRunIntoTasks_spec branchToken eventStoreVersion tasks updated :
  let r := mergeNewRunIntoTasks branchToken eventStoreVersion tasks updated in
  Forall (carriesNewRun branchToken eventStoreVersion) (fst r)
  /\ length (fst r) = length tasks
  /\ snd r = updated || existsb isHistoryTask tasks.
Proof.
  revert updated. induction tasks as [| task rest IH]; intros updated.
  - cbn. repeat split; [constructor | now rewrite orb_false_r].
  - destruct task as [t | other]; cbn [mergeNewRunIntoTasks].
    + specialize (IH true). cbv zeta in IH.
      destruct (mergeNewRunIntoTasks branchToken eventStoreVersion rest true)
        as [rest' updated'].
      cbn in *. destruct IH as (Hall & Hlen & Hupd). repeat split.
      * now constructor.
      * now rewrite Hlen.
      * subst updated'. now rewrite orb_true_r.
    + specialize (IH updated). cbv zeta in IH.
      destruct (mergeNewRunIntoTasks branchToken eventStoreVersion rest
                  updated) as [rest' updated'].
      cbn in *. destruct IH as (Hall & Hlen & Hupd). repeat split.
      * now constructor.
      * now rewrite Hlen.
      * exact Hupd.
Qed.

Lemma mergeNewRunIntoTasks_map branchToken eventStoreVersion tasks updated :
  fst (mergeNewRunIntoTasks branchToken eventStoreVersion tasks updated)
  = map (stampNewRun branchToken eventStoreVersion) tasks.
Proof.
  revert updated. induction tasks as [| [t | other] rest IH]; intros updated;
    cbn [mergeNewRunIntoTasks map stampNewRun]; [reflexivity | |].
  - specialize (IH true).
    destruct (mergeNewRunIntoTasks _ _ rest true). cbn in *. now rewrite IH.
  - specialize (IH updated).
    destruct (mergeNewRunIntoTasks _ _ rest updated). cbn in *.
    now rewrite IH.
Qed.

Lemma stampNewRun_carries branchToken eventStoreVersion tasks :
  Forall (carriesNewRun branchToken eventStoreVersion)
    (map (stampNewRun branchToken eventStoreVersion) tasks).
Proof.
  induction tasks as [| [t | other] rest IH]; cbn [map stampNewRun];
    constructor; try exact IH; cbn; auto.
Qed.

Lemma nonempty_length_eqb {A} (l : list A) :
  l <> [] -> Nat.eqb (length l) 0 = false.
Proof. destruct l; [contradiction | reflexivity]. Qed.

(** C10: in the continue-as-new merge the single replication task of the
    new snapshot is cast to a history replication task after only the count
    has been checked.  For a current mutation that continues as new with
    replication tasks and a new snapshot with exactly one replication task,
    the merge ends in a failed type assertion exactly when that task is not
    a history replication task; the panic leaves both arguments as they
    were and is what the commit block ends in. *)
Theorem merge_cast_is_safe_only_for_history_task
  (currentWorkflowMutation : WorkflowMutation)
  (newWorkflowSnapshot : WorkflowSnapshot) (task : Task) :
  ei_CloseStatus (wm_ExecutionInfo currentWorkflowMutation)
  = WorkflowCloseStatusContinuedAsNew ->
  wm_ReplicationTasks currentWorkflowMutation <> [] ->
  ws_ReplicationTasks newWorkflowSnapshot = [task] ->
  (fst (fst (mergeContinueAsNewReplicationTasks currentWorkflowMutation
               (Some newWorkflowSnapshot)))
   = Panicked TypeAssertionFailed
   <-> isHistoryTask task = false)
  /\ (isHistoryTask task = false ->
      mergeContinueAsNewReplicationTasks currentWorkflowMutation
        (Some newWorkflowSnapshot)
      = (Panicked TypeAssertionFailed, currentWorkflowMutation,
         Some newWorkflowSnapshot)
      /\ forall c (w : world),
           updateWorkflowExecutionWithNew_commit c currentWorkflowMutation
             (Some newWorkflowSnapshot) w
           = (Panicked TypeAssertionFailed, w)).
Proof.
  intros Hstatus Htasks Hone.
  assert (Hpanic : isHistoryTask task = false ->
    mergeContinueAsNewReplicationTasks currentWorkflowMutation
      (Some newWorkflowSnapshot)
    = (Panicked TypeAssertionFailed, currentWorkflowMutation,
       Some newWorkflowSnapshot)).
  { intros Hno. unfold mergeContinueAsNewReplicationTasks.
    rewrite Hstatus, Z.eqb_refl, (nonempty_length_eqb _ Htasks), Hone.
    cbn. destruct task; [discriminate | reflexivity]. }
  split; [split |].
  - destruct task as [t | other]; [| reflexivity].
    unfold mergeContinueAsNewReplicationTasks.
    rewrite Hstatus, Z.eqb_refl, (nonempty_length_eqb _ Htasks), Hone.
    cbn.
    destruct (mergeNewRunIntoTasks _ _ _ _) as [tasks [|]]; discriminate.
  - intros Hno. now rewrite Hpanic.
  - intros Hno. split; [now apply Hpanic |]. intros c w.
    unfold updateWorkflowExecutionWithNew_commit. now rewrite Hpanic.
Qed.

(** C3, as the code has it: the continue-as-new merge inside an update
    commit.  When the current mutation continues as new and has replication
    tasks: if the new snapshot carries exactly one replication task and it
    is a history replication task, the merge writes that task's branch
    token and event store version to the new-run fields of every history
    replication task of the current mutation and to nothing else, and
    leaves the new snapshot without replication tasks; the merge then
    passes, and the storage update that follows submits exactly these two,
    unless the current mutation has no history replication task, which
    fails the commit with an internal error and no storage update.  If the
    single task of the new snapshot is of another kind, the merge panics on
    its type assertion and changes nothing.  If the new snapshot is absent
    or carries another number of replication tasks, the merge fails with an
    internal error, changes nothing, and the commit block returns that
    error with the world untouched, so no storage update is issued.  When
    the close status is not continued-as-new or there is no replication
    task in the current mutation, the merge passes and changes nothing. *)
Theorem continue_as_new_merge_moves_new_run_task
  (currentWorkflowMutation : WorkflowMutation)
  (newWorkflowSnapshot : option WorkflowSnapshot) :
  (ei_CloseStatus (wm_ExecutionInfo currentWorkflowMutation)
   = WorkflowCloseStatusContinuedAsNew ->
   wm_ReplicationTasks currentWorkflowMutation <> [] ->
   (forall snapshot newRunTask,
      newWorkflowSnapshot = Some snapshot ->
      ws_ReplicationTasks snapshot = [HistoryTask newRunTask] ->
      let merged :=
        set_wm_ReplicationTasks currentWorkflowMutation
          (map (stampNewRun (hrt_BranchToken newRunTask)
                  (hrt_EventStoreVersion newRunTask))
             (wm_ReplicationTasks currentWorkflowMutation)) in
      let snapshot' := set_ws_ReplicationTasks snapshot [] in
      exists r,
        mergeContinueAsNewReplicationTasks currentWorkflowMutation
          newWorkflowSnapshot
        = (r, merged, Some snapshot')
        /\ (forall p, r <> Panicked p)
        /\ Forall (carriesNewRun (hrt_BranchToken newRunTask)
                     (hrt_EventStoreVersion newRunTask))
             (wm_ReplicationTasks merged)
        /\ length (wm_ReplicationTasks merged)
           = length (wm_ReplicationTasks currentWorkflowMutation)
        /\ ws_ReplicationTasks snapshot' = []
        /\ (existsb isHistoryTask
              (wm_ReplicationTasks currentWorkflowMutation) = true ->
            r = Ok tt
            /\ forall c (w : world) r' w',
                 updateWorkflowExecutionWithNew_commit c
                   currentWorkflowMutation newWorkflowSnapshot w = (r', w') ->
                 exists tr,
                   trace w'
                   = (trace w
                      ++ UpdateWorkflowExecutionCall
                           {| UpdateWorkflowMutation := merged;
                              NewWorkflowSnapshot := Some snapshot' |}
                      :: tr)%list)
        /\ (existsb isHistoryTask
              (wm_ReplicationTasks currentWorkflowMutation) = false ->
            let err :=
              InternalServiceError
                "unable to find replication task from current workflow for continue as new replication" in
            r = Err err
            /\ forall c (w : world),
                 updateWorkflowExecutionWithNew_commit c
                   currentWorkflowMutation newWorkflowSnapshot w
                 = (Err err, w)))
   /\ (forall snapshot task,
        newWorkflowSnapshot = Some snapshot ->
        ws_ReplicationTasks snapshot = [task] ->
        isHistoryTask task = false ->
        mergeContinueAsNewReplicationTasks currentWorkflowMutation
          newWorkflowSnapshot
        = (Panicked TypeAssertionFailed, currentWorkflowMutation,
           newWorkflowSnapshot))
   /\ (forall snapshot task r merged newWorkflowSnapshot',
        newWorkflowSnapshot = Some snapshot ->
        ws_ReplicationTasks snapshot = [task] ->
        mergeContinueAsNewReplicationTasks currentWorkflowMutation
          newWorkflowSnapshot
        = (r, merged, newWorkflowSnapshot') ->
        (forall p, r <> Panicked p) ->
        isHistoryTask task = true)
   /\ (newWorkflowSnapshot = None
       \/ (exists snapshot,
             newWorkflowSnapshot = Some snapshot
             /\ length (ws_ReplicationTasks snapshot) <> 1%nat) ->
       let err :=
         InternalServiceError
           "unable to find replication task from new workflow for continue as new replication" in
       mergeContinueAsNewReplicationTasks currentWorkflowMutation
         newWorkflowSnapshot
       = (Err err, currentWorkflowMutation, newWorkflowSnapshot)
       /\ forall c (w : world),
            updateWorkflowExecutionWithNew_commit c currentWorkflowMutation
              newWorkflowSnapshot w
            = (Err err, w)))
  /\ (ei_CloseStatus (wm_ExecutionInfo currentWorkflowMutation)
      <> WorkflowCloseStatusContinuedAsNew
      \/ wm_ReplicationTasks currentWorkflowMutation = [] ->
      mergeContinueAsNewReplicationTasks currentWorkflowMutation
        newWorkflowSnapshot
      = (Ok tt, currentWorkflowMutation, newWorkflowSnapshot)).
Proof.
  split.
  - intros Hstatus Htasks.
    assert (Hother : forall snapshot task,
      newWorkflowSnapshot = Some snapshot ->
      ws_ReplicationTasks snapshot = [task] ->
      isHistoryTask task = false ->
      mergeContinueAsNewReplicationTasks currentWorkflowMutation
        newWorkflowSnapshot
      = (Panicked TypeAssertionFailed, currentWorkflowMutation,
         newWorkflowSnapshot)).
    { intros snapshot task -> Hone Hkind.
      destruct task as [t | other]; [discriminate |].
      unfold mergeContinueAsNewReplicationTasks.
      now rewrite Hstatus, Z.eqb_refl, (nonempty_length_eqb _ Htasks),
        Hone. }
    split; [| split; [exact Hother | split]].
    + intros snapshot newRunTask -> Hone merged snapshot'.
      pose proof (mergeNewRunIntoTasks_spec (hrt_BranchToken newRunTask)
                    (hrt_EventStoreVersion newRunTask)
                    (wm_ReplicationTasks currentWorkflowMutation) false)
        as Hloop.
      pose proof (mergeNewRunIntoTasks_map (hrt_BranchToken newRunTask)
                    (hrt_EventStoreVersion newRunTask)
                    (wm_ReplicationTasks currentWorkflowMutation) false)
        as Hmap.
      cbv zeta in Hloop.
      destruct (mergeNewRunIntoTasks _ _ _ _) as [tasks updated] eqn:El.
      cbn [fst snd orb] in Hloop, Hmap. destruct Hloop as (_ & _ & Hupd).
      subst tasks.
      assert (Hmerge :
        mergeContinueAsNewReplicationTasks currentWorkflowMutation
          (Some snapshot)
        = (if negb updated
           then Err (InternalServiceError
                  "unable to find replication task from current workflow for continue as new replication")
           else Ok tt,
           merged, Some snapshot')).
      { unfold mergeContinueAsNewReplicationTasks.
        rewrite Hstatus, Z.eqb_refl, (nonempty_length_eqb _ Htasks), Hone.
        cbn [length Nat.eqb negb]. rewrite El. now destruct updated. }
      rewrite Hmerge. eexists.
      split; [reflexivity |]. split; [now destruct updated |].
      split; [apply stampNewRun_carries |].
      split; [apply length_map |].
      split; [reflexivity |]. split.
      * intros Hex. rewrite Hex in Hupd. subst updated. cbn [negb] in *.
        split; [reflexivity |]. intros c w r' w' E.
        eapply commit_submits; [exact Hmerge | exact E].
      * intros Hex err. rewrite Hex in Hupd. subst updated. cbn [negb] in *.
        split; [reflexivity |]. intros c w.
        unfold updateWorkflowExecutionWithNew_commit. now rewrite Hmerge.
    + intros snapshot task r merged new' Hnew Hone E Hnopanic.
      destruct (isHistoryTask task) eqn:Hkind; [reflexivity |].
      rewrite (Hother _ _ Hnew Hone Hkind) in E. injection E as <- _ _.
      now destruct (Hnopanic TypeAssertionFailed).
    + intros Hnew err.
      assert (Hmerge :
        mergeContinueAsNewReplicationTasks currentWorkflowMutation
          newWorkflowSnapshot
        = (Err err, currentWorkflowMutation, newWorkflowSnapshot)).
      { unfold mergeContinueAsNewReplicationTasks.
        rewrite Hstatus, Z.eqb_refl, (nonempty_length_eqb _ Htasks).
        cbn [negb].
        destruct Hnew as [-> | (snapshot & -> & Hlen)]; [reflexivity |].
        apply Nat.eqb_neq in Hlen. now rewrite Hlen. }
      split; [exact Hmerge |]. intros c w.
      unfold updateWorkflowExecutionWithNew_commit. now rewrite Hmerge.
  - intros [Hstatus | Htasks].
    + now apply merge_not_continued_as_new.
    + unfold mergeContinueAsNewReplicationTasks. rewrite Htasks.
      now destruct (negb _).
Qed.

End Refusals.

(** ** The cache discipline of the update path *)

Section CacheDiscipline.

Context {MS : Type} `{!MutableState MS} `{!ShardContext} `{!Declarations}.

Local Abbreviation world := (World MS).
Local Abbreviation context := (workflowExecutionContextImpl MS).

Lemma cleared_lookup (w w' : world) n :
  contexts w' !! n = contexts w !! n -> cleared w' n = cleared w n.
Proof. unfold cleared. now intros ->. Qed.

(** A [clear] that does not panic leaves [c] without cache and every other
    context as it was. *)
Lemma clear_cleared c (w : world) rc w' :
  clear c w = (rc, w') ->
  (forall p, rc <> Panicked p) ->
  cleared w' c = true
  /\ forall n, n <> c -> contexts w' !! n = contexts w !! n.
Proof.
  unfold clear, bind, deref, call, store. intros E Hrc.
  destruct (contexts w !! c) as [x |] eqn:Hc.
  - injection E as <- <-. cbn [contexts]. split.
    + unfold cleared. cbn [contexts]. now rewrite lookup_insert_eq.
    + intros n Hn. now apply lookup_insert_ne.
  - injection E as <- <-. now destruct (Hrc NilPointerDereference).
Qed.

(** A deferred [clear] that lets an error through has run without panic. *)
Lemma deferred_clear_on_error {A} c (body : M MS A) (w : world) e w' :
  deferOnError (clear c) body w = (Err e, w') ->
  exists w0,
    body w = (Err e, w0)
    /\ cleared w' c = true
    /\ forall n, n <> c -> contexts w' !! n = contexts w0 !! n.
Proof.
  intros E. apply deferOnError_inv in E as (r0 & w0 & Hbody & Hdefer).
  destruct Hdefer as [(-> & _ & Hne) | (e0 & rc & -> & Hclear & Hr)].
  - now destruct (Hne e).
  - destruct Hr as [[Heq Hrc] | (p & _ & Hp)]; [| discriminate].
    injection Heq as ->. exists w0. split; [exact Hbody |].
    now apply (clear_cleared _ _ _ _ Hclear).
Qed.

Lemma getWorkflowExecutionWithRetry_first_call request (w : world) r w' :
  getWorkflowExecutionWithRetry request w = (r, w') ->
  exists tr,
    trace w' = (trace w ++ GetWorkflowExecutionCall request :: tr)%list.
Proof.
  unfold getWorkflowExecutionWithRetry. intros E.
  apply bind_inv in E as (r1 & w1 & E1 & E).
  destruct (Retry_ask
              (fun n => split_answer (GetWorkflowExecution n request))
              (GetWorkflowExecutionCall request)
              persistenceOperationRetryPolicy w) as (r2 & k & E2).
  rewrite E2 in E1. injection E1 as <- <-.
  keeps_in (@growsBy MS (fun _ => True)) E.
  apply grows_trace in E as (tr & E). cbn [trace] in E.
  exists (repeat (GetWorkflowExecutionCall request) k ++ tr)%list.
  rewrite E. cbn [repeat]. now rewrite <- app_assoc.
Qed.

(** A load on a context without cache starts with a storage fetch. *)
Lemma load_after_clear_fetches c (w : world) r w' :
  cleared w c = true ->
  loadWorkflowExecution c w = (r, w') ->
  exists request tr,
    trace w' = (trace w ++ GetWorkflowExecutionCall request :: tr)%list.
Proof.
  unfold cleared. destruct (contexts w !! c) as [x |] eqn:Hc; [| discriminate].
  destruct (msBuilder x) eqn:Hms; [discriminate |]. intros _ E.
  unfold loadWorkflowExecution in E.
  apply bind_inv in E as (r1 & w1 & E1 & E).
  assert (Hfetch : exists request tr,
    trace w1 = (trace w ++ GetWorkflowExecutionCall request :: tr)%list).
  { unfold loadWorkflowExecutionInternal in E1.
    rewrite (bind_Ok _ _ _ _ _ (deref_lookup _ _ _ Hc)), Hms in E1.
    apply bind_inv in E1 as (r2 & w2 & E2 & E1).
    apply getWorkflowExecutionWithRetry_first_call in E2 as (tr2 & E2).
    destruct r2 as [[response err] | e | p].
    - keeps_in (@growsBy MS (fun _ => True)) E1.
      apply grows_trace in E1 as (tr1 & E1). eexists _, (tr2 ++ tr1)%list.
      rewrite E1, E2. now rewrite <- app_assoc.
    - destruct E1 as [_ ->]. eauto.
    - destruct E1 as [_ ->]. eauto. }
  destruct Hfetch as (request & tr1 & Hfetch).
  destruct r1 as [u | e | p].
  - keeps_in (@growsBy MS (fun _ => True)) E.
    apply grows_trace in E as (tr & E). exists request, (tr1 ++ tr)%list.
    rewrite E, Hfetch. now rewrite <- app_assoc.
  - destruct E as [_ ->]. eauto.
  - destruct E as [_ ->]. eauto.
Qed.

(** C1, as the code has it: an update commit (update or update with a new
    run, under either policy) that returns an error has cleared the cached
    mutable state and the stats of its context before the error is
    returned, so the next load starts with a storage fetch.  Create,
    conflict resolution and reset have no such deferred clear. *)
Theorem failed_update_clears_the_context (c : contextRef) (w : world)
  (e : error) (w' : world) :
  (forall now newContext newMutableState policy newPolicy,
     updateWorkflowExecutionWithNew c now newContext newMutableState policy
       newPolicy w = (Err e, w') ->
     cleared w' c = true
     /\ forall r w'',
          loadWorkflowExecution c w' = (r, w'') ->
          exists request tr,
            trace w''
            = (trace w' ++ GetWorkflowExecutionCall request :: tr)%list)
  /\ (forall op,
       isUpdateOperation op = true ->
       commit c op w = (Err e, w') ->
       cleared w' c = true).
Proof.
  assert (Hupdate : forall now newContext newMutableState policy newPolicy,
    updateWorkflowExecutionWithNew c now newContext newMutableState policy
      newPolicy w = (Err e, w') ->
    cleared w' c = true).
  { intros now newContext newMutableState policy newPolicy E.
    unfold updateWorkflowExecutionWithNew in E.
    now apply deferred_clear_on_error in E as (w0 & _ & Hcleared & _). }
  split.
  - intros now newContext newMutableState policy newPolicy E.
    pose proof (Hupdate _ _ _ _ _ E) as Hcleared.
    split; [exact Hcleared |]. intros r w'' Hload.
    now apply (load_after_clear_fetches _ _ _ _ Hcleared Hload).
  - intros [now [|] | now newContext newMutableState [|] | | |] Hop E;
      try discriminate; cbn [commit] in E;
      unfold updateWorkflowExecutionAsActive,
        updateWorkflowExecutionAsPassive,
        updateWorkflowExecutionWithNewAsActive,
        updateWorkflowExecutionWithNewAsPassive in E;
      eapply Hupdate, E.
Qed.

(** C2, as the code has it: a paired update that returns an error has
    cleared the current context.  The deferred clear of the new context is
    registered when the guarded block of the new run is entered: if the
    error comes from closing the current run or appending its batches, the
    new context is left as it was; if these steps succeeded, the new
    context is cleared as well. *)
Theorem failed_paired_update_clears_both_once_new_run_is_entered
  (c newContext : contextRef) (now : time) (newMutableState : MS)
  (policy newPolicy : transactionPolicy) (w : world) (e : error)
  (w' : world) :
  updateWorkflowExecutionWithNew c now (Some newContext)
    (Some newMutableState) policy (Some newPolicy) w = (Err e, w') ->
  cleared w' c = true
  /\ (forall currentWorkflow w1,
        updateWorkflowExecutionWithNew_current c now policy w
        = (Ok currentWorkflow, w1) ->
        cleared w' newContext = true)
  /\ (forall e1 w1,
        updateWorkflowExecutionWithNew_current c now policy w
        = (Err e1, w1) ->
        e = e1
        /\ (newContext <> c ->
            contexts w' !! newContext = contexts w !! newContext)).
Proof.
  intros E. unfold updateWorkflowExecutionWithNew in E.
  apply deferred_clear_on_error in E as (w0 & Hbody & Hcleared & Hframe).
  split; [exact Hcleared |]. split.
  - intros currentWorkflow w1 Hcurrent.
    rewrite (bind_Ok _ _ _ _ _ Hcurrent) in Hbody.
    apply deferOnErrorWithin_returns in Hbody; [| discriminate].
    apply deferred_clear_on_error in Hbody as (w2 & _ & Hnew & _).
    destruct (decide (newContext = c)) as [-> | Hne]; [exact Hcleared |].
    rewrite <- Hnew. apply cleared_lookup. now apply Hframe.
  - intros e1 w1 Hcurrent.
    rewrite (bind_Err _ _ _ _ _ Hcurrent) in Hbody.
    injection Hbody as -> ->. split; [reflexivity |]. intros Hne.
    rewrite (Hframe _ Hne).
    keeps_in (@sameContext MS newContext) Hcurrent. exact Hcurrent.
Qed.

(** *** Successful updates *)

Lemma merge_keeps_info currentWorkflow newWorkflow r merged newWorkflow' :
  mergeContinueAsNewReplicationTasks currentWorkflow newWorkflow
  = (r, merged, newWorkflow') ->
  wm_ExecutionInfo merged = wm_ExecutionInfo currentWorkflow
  /\ wm_Condition merged = wm_Condition currentWorkflow
  /\ wm_ExecutionStats merged = wm_ExecutionStats currentWorkflow.
Proof.
  unfold mergeContinueAsNewReplicationTasks. intros E.
  repeat match type of E with
         | context [match ?t with _ => _ end] => destruct t
         end;
    injection E as _ <- _; repeat split.
Qed.







(** *** Which panics a run can end in *)

Lemma np_ret {A} p (a : A) : neverPanicsWith p (@ret MS A a).
Proof. intros w w'. discriminate. Qed.

Lemma np_fail {A} p e : neverPanicsWith p (@fail MS A e).
Proof. intros w w'. discriminate. Qed.

Lemma np_throw {A} p q : q <> p -> neverPanicsWith p (@throw MS A q).
Proof. intros Hq w w' E. injection E as -> _. now apply Hq. Qed.

Lemma np_call p e : neverPanicsWith p (@call MS e).
Proof. intros w w'. discriminate. Qed.

Lemma np_ask {A} p (answer : nat -> A) e : neverPanicsWith p (@ask MS A answer e).
Proof. intros w w'. discriminate. Qed.

Lemma np_store p c (x : context) : neverPanicsWith p (store c x).
Proof. intros w w'. discriminate. Qed.

Lemma np_deref p c :
  p <> NilPointerDereference -> neverPanicsWith p (@deref MS c).
Proof.
  intros Hp w w'. unfold deref. destruct (contexts w !! c);
    [discriminate |]. intros E. injection E as <- _. now apply Hp.
Qed.

Lemma np_bind {A B} p (m : M MS A) (k : A -> M MS B) :
  neverPanicsWith p m -> (forall a, neverPanicsWith p (k a)) ->
  neverPanicsWith p (bind m k).
Proof.
  intros Hm Hk w w' E. apply bind_Panicked_inv in E as [E | (a & w1 & _ & E)].
  - eapply Hm, E.
  - eapply Hk, E.
Qed.

Lemma np_Retry {A} p (op : M MS (A * option error)) n :
  neverPanicsWith p op -> neverPanicsWith p (Retry op n).
Proof.
  intros Hop. induction n as [| n IH]; cbn [Retry];
    apply np_bind; auto; intros [resp [e |]]; auto using np_ret.
  destruct (IsPersistenceTransientError e); auto using np_ret.
Qed.

Lemma np_deferOnError {A} p (cleanup : M MS unit) (body : M MS A) :
  neverPanicsWith p cleanup -> neverPanicsWith p body ->
  neverPanicsWith p (deferOnError cleanup body).
Proof.
  intros Hc Hb w w' E. apply deferOnError_inv in E as (r0 & w0 & E0 & Hd).
  destruct Hd as [(-> & -> & _) | (e & rc & -> & Hclean & Hr)].
  - eapply Hb, E0.
  - destruct Hr as [[Hr _] | (q & -> & Hq)]; [discriminate |].
    injection Hq as ->. eapply Hc, Hclean.
Qed.

Lemma np_deferOnErrorWithin {A} p (outer cleanup : M MS unit)
  (body : M MS A) :
  neverPanicsWith p outer -> neverPanicsWith p cleanup ->
  neverPanicsWith p body ->
  neverPanicsWith p (deferOnErrorWithin outer cleanup body).
Proof.
  intros Ho Hc Hb w w'. unfold deferOnErrorWithin.
  destruct (body w) as [[a | e | q] w1] eqn:E; [discriminate | |].
  - destruct (cleanup w1) as [[u | e' | q] w2] eqn:E2;
      [discriminate | discriminate |].
    destruct (outer w2) as [[u | e' | q'] w3] eqn:E3; intros E';
      injection E' as <- <-;
      [eapply Hc, E2 | eapply Hc, E2 | eapply Ho, E3].
  - intros E'. injection E' as <- <-. eapply Hb, E.
Qed.

End CacheDiscipline.

Create HintDb panics discriminated.

#[export] Hint Resolve np_ret np_fail np_call np_ask np_store : panics.

#[export] Hint Extern 1 (neverPanicsWith _ (throw _)) =>
  apply np_throw; discriminate : panics.

#[export] Hint Extern 1 (neverPanicsWith _ (deref _)) =>
  apply np_deref; discriminate : panics.

(** Splits a goal [neverPanicsWith p m] along the structure of [m]. *)
Ltac np_step :=
  lazymatch goal with
  | |- neverPanicsWith _ (bind _ _) => apply np_bind; [| intros ?]
  | |- neverPanicsWith _ (Retry _ _) => apply np_Retry
  | |- neverPanicsWith _ (deferOnError _ _) => apply np_deferOnError
  | |- neverPanicsWith _ (deferOnErrorWithin _ _ _) =>
      apply np_deferOnErrorWithin
  | |- neverPanicsWith _ (match ?t with _ => _ end) => destruct t
  | |- neverPanicsWith _ _ => solve [eauto with panics]
  end.

Ltac np_tac := repeat np_step.

(** ** The unchecked index into the batches of the new run *)

Section NewRunBatches.

Context {MS : Type} `{!MutableState MS} `{!ShardContext} `{!Declarations}.

Local Abbreviation world := (World MS).
Local Abbreviation context := (workflowExecutionContextImpl MS).

Local Abbreviation noIndexPanic :=
  (@neverPanicsWith MS _ IndexOutOfRange).

Lemma getHistorySize_noIndexPanic c : noIndexPanic (getHistorySize c).
Proof. unfold getHistorySize. np_tac. Qed.

Lemma setHistorySize_noIndexPanic c size :
  noIndexPanic (setHistorySize c size).
Proof. unfold setHistorySize. np_tac. Qed.

Lemma the_msBuilder_noIndexPanic c : noIndexPanic (the_msBuilder c).
Proof. unfold the_msBuilder. np_tac. Qed.

Lemma getDomainName_noIndexPanic c : noIndexPanic (getDomainName c).
Proof. unfold getDomainName. np_tac. Qed.

Lemma notifyTasks_noIndexPanic t1 t2 t3 :
  noIndexPanic (notifyTasks t1 t2 t3).
Proof. unfold notifyTasks. np_tac. Qed.

Lemma clear_noIndexPanic c : noIndexPanic (clear c).
Proof. unfold clear. np_tac. Qed.

Lemma persistFirstWorkflowEvents_noIndexPanic workflowEvents :
  noIndexPanic (persistFirstWorkflowEvents workflowEvents).
Proof.
  unfold persistFirstWorkflowEvents, appendHistoryEventsWithRetry,
    appendHistoryV2EventsWithRetry. np_tac.
Qed.

Lemma updateWorkflowExecutionWithRetry_noIndexPanic c request :
  noIndexPanic (updateWorkflowExecutionWithRetry c request).
Proof. unfold updateWorkflowExecutionWithRetry. np_tac. Qed.

#[local] Hint Resolve getHistorySize_noIndexPanic setHistorySize_noIndexPanic
  the_msBuilder_noIndexPanic getDomainName_noIndexPanic
  notifyTasks_noIndexPanic clear_noIndexPanic
  persistFirstWorkflowEvents_noIndexPanic
  updateWorkflowExecutionWithRetry_noIndexPanic : panics.

Lemma updateWorkflowExecutionWithNew_notify_noIndexPanic c currentWorkflow
  newWorkflow resp :
  noIndexPanic
    (updateWorkflowExecutionWithNew_notify c currentWorkflow newWorkflow resp).
Proof. unfold updateWorkflowExecutionWithNew_notify. np_tac. Qed.

#[local] Hint Resolve updateWorkflowExecutionWithNew_notify_noIndexPanic
  : panics.

(** The index into the replication tasks of the new snapshot is guarded by
    the check of their number. *)
Lemma merge_noIndexPanic currentWorkflow newWorkflow :
  fst (fst (mergeContinueAsNewReplicationTasks currentWorkflow newWorkflow))
  <> Panicked IndexOutOfRange.
Proof.
  unfold mergeContinueAsNewReplicationTasks.
  destruct (negb _); [discriminate |].
  destruct (Nat.eqb (length (wm_ReplicationTasks currentWorkflow)) 0);
    [discriminate |].
  destruct newWorkflow as [snapshot |]; [| discriminate].
  destruct (ws_ReplicationTasks snapshot) as [| [t | other] [| t2 rest]];
    cbn; try discriminate.
  destruct (mergeNewRunIntoTasks _ _ _ _) as [tasks [|]]; discriminate.
Qed.

Lemma updateWorkflowExecutionWithNew_commit_noIndexPanic c currentWorkflow
  newWorkflow :
  noIndexPanic
    (updateWorkflowExecutionWithNew_commit c currentWorkflow newWorkflow).
Proof.
  unfold updateWorkflowExecutionWithNew_commit.
  pose proof (merge_noIndexPanic currentWorkflow newWorkflow) as Hmerge.
  destruct (mergeContinueAsNewReplicationTasks currentWorkflow newWorkflow)
    as [[[[] | e | p] merged] newWorkflow']; cbn [fst] in Hmerge.
  - np_tac.
  - np_tac.
  - apply np_throw. congruence.
Qed.

(** C9: in a paired update, once the current run is closed and the close of
    the new run has returned its snapshot and batches, the batch at index 0
    is taken without a check of the length.  The update ends in an index
    out of range panic exactly when the new run's close produced no event
    batch; that panic comes before any append for the new run, and since
    the deferred clears act on errors only, it leaves both caches as the
    first block left them. *)
Theorem new_run_batch_is_indexed_without_length_check
  (c newContext : contextRef) (now : time) (newMutableState : MS)
  (policy newPolicy : transactionPolicy) (w : world)
  (currentWorkflow : WorkflowMutation) (w1 : world)
  (newWorkflow : WorkflowSnapshot) (workflowEventsSeq : list WorkflowEvents)
  (x : context) (st : ExecutionStats) :
  updateWorkflowExecutionWithNew_current c now policy w
  = (Ok currentWorkflow, w1) ->
  snd (CloseTransactionAsSnapshot newMutableState now newPolicy)
  = inl (newWorkflow, workflowEventsSeq) ->
  contexts w1 !! newContext = Some x ->
  stats x = Some st ->
  (fst (updateWorkflowExecutionWithNew c now (Some newContext)
          (Some newMutableState) policy (Some newPolicy) w)
   = Panicked IndexOutOfRange
   <-> workflowEventsSeq = [])
  /\ (workflowEventsSeq = [] ->
      updateWorkflowExecutionWithNew_new newContext now newMutableState
        newPolicy w1
      = (Panicked IndexOutOfRange, w1)
      /\ updateWorkflowExecutionWithNew c now (Some newContext)
           (Some newMutableState) policy (Some newPolicy) w
         = (Panicked IndexOutOfRange, w1)).
Proof.
  intros Hcurrent Hclose Hx Hstats.
  assert (Hempty : workflowEventsSeq = [] ->
    updateWorkflowExecutionWithNew_new newContext now newMutableState
      newPolicy w1
    = (Panicked IndexOutOfRange, w1)
    /\ updateWorkflowExecutionWithNew c now (Some newContext)
         (Some newMutableState) policy (Some newPolicy) w
       = (Panicked IndexOutOfRange, w1)).
  { intros ->.
    assert (Hnew :
      updateWorkflowExecutionWithNew_new newContext now newMutableState
        newPolicy w1
      = (Panicked IndexOutOfRange, w1)).
    { unfold updateWorkflowExecutionWithNew_new, getHistorySize, bind,
        deref.
      now rewrite Hclose, Hx, Hstats. }
    split; [exact Hnew |].
    unfold updateWorkflowExecutionWithNew, deferOnError, deferOnErrorWithin.
    rewrite (bind_Ok _ _ _ _ _ Hcurrent).
    now rewrite (bind_Panicked _ _ _ _ _ Hnew). }
  split; [split |]; [| intros Hnil; now rewrite (proj2 (Hempty Hnil)) |
                     exact Hempty].
  intros Hpanic. destruct workflowEventsSeq as [| workflowEvents0 rest];
    [reflexivity | exfalso].
  destruct (updateWorkflowExecutionWithNew c now (Some newContext)
              (Some newMutableState) policy (Some newPolicy) w)
    as [r w'] eqn:E.
  cbn [fst] in Hpanic. subst r.
  unfold updateWorkflowExecutionWithNew in E.
  apply deferOnError_inv in E as (r0 & w0 & Hbody & Hdefer).
  rewrite (bind_Ok _ _ _ _ _ Hcurrent) in Hbody.
  assert (Hinner : noIndexPanic
    (deferOnErrorWithin (clear c) (clear newContext)
       (newWorkflow0 <-
          updateWorkflowExecutionWithNew_new newContext now newMutableState
            newPolicy ;;
        updateWorkflowExecutionWithNew_commit c currentWorkflow
          (Some newWorkflow0)))).
  { pose proof updateWorkflowExecutionWithNew_commit_noIndexPanic as Hcommit.
    unfold updateWorkflowExecutionWithNew_new. rewrite Hclose. np_tac. }
  destruct Hdefer as [(-> & -> & _) | (e & rc & -> & Hclear & Hr)].
  - eapply Hinner, Hbody.
  - destruct Hr as [[Hr _] | (q & -> & Hq)]; [discriminate |].
    injection Hq as <-. eapply clear_noIndexPanic, Hclear.
Qed.

End NewRunBatches.

(** ** Loading *)

Section Loading.

Context {MS : Type} `{!MutableState MS} `{!ShardContext} `{!Declarations}.

Local Abbreviation world := (World MS).
Local Abbreviation context := (workflowExecutionContextImpl MS).

Lemma notStorage_fetches (w w' : world) :
  growsBy notStorage w w' ->
  countCalls isFetch (trace w') = countCalls isFetch (trace w)
  /\ countCalls isStorageCall (trace w')
     = countCalls isStorageCall (trace w).
Proof.
  intros (tr & -> & Hall). rewrite !countCalls_app.
  assert (Hzero : countCalls isFetch tr = 0%nat
                  /\ countCalls isStorageCall tr = 0%nat).
  { induction Hall as [| e tr He _ IH]; [split; reflexivity |].
    unfold countCalls in *.
    rewrite !filter_cons_False; [exact IH | |].
    - rewrite He. discriminate.
    - destruct e; try discriminate; cbn in *; discriminate. }
  destruct Hzero as [-> ->]. lia.
Qed.

(** The replication policy hook on a cached context: it makes no storage
    call, keeps the cache, and fails only with the error of the domain
    cache. *)
Lemma updateVersion_cached c (w : world) x ms r w' :
  contexts w !! c = Some x ->
  msBuilder x = Some ms ->
  updateVersion c w = (r, w') ->
  cached w' c
  /\ growsBy notStorage w w'
  /\ (r = Ok tt
      \/ exists e,
           r = Err e
           /\ GetDomainByID (length (trace w)) (domainID x) = inr e
           /\ w' = mkWorld (contexts w)
                     (trace w ++ [GetDomainByIDCall (domainID x)]))
  /\ (IsGlobalDomainEnabled = false -> r = Ok tt /\ w' = w).
Proof.
  intros Hc Hms E.
  assert (Hcached : cached w c) by (now exists x, ms).
  assert (Hrefl : growsBy notStorage w w).
  { exists []. split; [now rewrite app_nil_r | constructor]. }
  unfold updateVersion, the_msBuilder, put_msBuilder, bind, deref, ask,
    store, ret, fail in E.
  destruct IsGlobalDomainEnabled.
  - rewrite Hc, Hms in E.
    destruct (GetReplicationState ms).
    + destruct (IsWorkflowExecutionRunning ms); cbn [negb] in E.
      * cbn [contexts trace] in E. rewrite ?Hc in E.
        destruct (GetDomainByID (length (trace w)) (domainID x))
          as [domainEntry | e] eqn:Hdomain;
          cbn [contexts trace] in E; rewrite ?Hc in E;
          cbn [contexts trace] in E; injection E as <- <-.
        -- split; [| split; [| split]]; [| | now left | discriminate].
           ++ eexists _, _. cbn [contexts].
              rewrite lookup_insert_eq. split; reflexivity.
           ++ exists [GetDomainByIDCall (domainID x)]. split;
                [reflexivity | now repeat constructor].
        -- split; [| split; [| split]];
             [exact Hcached | | | discriminate].
           ++ exists [GetDomainByIDCall (domainID x)]. split;
                [reflexivity | now repeat constructor].
           ++ right. now exists e.
      * injection E as <- <-.
        split; [| split; [| split]];
          [exact Hcached | exact Hrefl | now left | discriminate].
    + injection E as <- <-.
      split; [| split; [| split]];
        [exact Hcached | exact Hrefl | now left | discriminate].
  - injection E as <- <-.
    split; [| split; [| split]];
      [exact Hcached | exact Hrefl | now left | now intros _].
Qed.

Lemma loadWorkflowExecutionInternal_cached c (w : world) x ms :
  contexts w !! c = Some x ->
  msBuilder x = Some ms ->
  loadWorkflowExecutionInternal c w = (Ok tt, w).
Proof.
  intros Hc Hms. unfold loadWorkflowExecutionInternal, bind, deref.
  now rewrite Hc, Hms.
Qed.

Lemma getDomainName_Ok c (w : world) x :
  contexts w !! c = Some x ->
  exists name,
    getDomainName c w
    = (Ok name,
       mkWorld (contexts w) (trace w ++ [GetDomainByIDCall (domainID x)])).
Proof.
  intros Hc. unfold getDomainName, bind, deref, ask. rewrite Hc.
  destruct (GetDomainByID _ _); eexists; reflexivity.
Qed.

#[local] Hint Extern 1 (keeps (growsBy notStorage) (call _)) =>
  apply call_growsBy; reflexivity : keeps.

#[local] Hint Extern 1 (keeps (growsBy notStorage) (ask _ _)) =>
  apply ask_growsBy; reflexivity : keeps.

Lemma getDomainName_notStorage c :
  keeps (@growsBy MS notStorage) (getDomainName c).
Proof. unfold getDomainName. keeps_tac. Qed.

Lemma getHistorySize_notStorage c :
  keeps (@growsBy MS notStorage) (getHistorySize c).
Proof. unfold getHistorySize. keeps_tac. Qed.

#[local] Hint Resolve getDomainName_notStorage getHistorySize_notStorage
  : keeps.

(** A fetch that storage answers at the first attempt installs the mutable
    state after exactly one storage call. *)
Lemma loadWorkflowExecutionInternal_fetch c (w : world) x response r w1 :
  contexts w !! c = Some x ->
  msBuilder x = None ->
  GetWorkflowExecution (length (trace w))
    {| get_DomainID := domainID x; get_Execution := workflowExecution x |}
  = inl response ->
  loadWorkflowExecutionInternal c w = (r, w1) ->
  cached w1 c
  /\ exists tr,
       trace w1
       = (trace w
          ++ GetWorkflowExecutionCall
               {| get_DomainID := domainID x;
                  get_Execution := workflowExecution x |} :: tr)%list
       /\ Forall notStorage tr.
Proof.
  intros Hc Hms Hget E.
  unfold loadWorkflowExecutionInternal in E.
  rewrite (bind_Ok _ _ _ _ _ (deref_lookup _ _ _ Hc)), Hms in E.
  unfold getWorkflowExecutionWithRetry in E.
  pose proof (Retry_first_answer
    (fun n => split_answer (GetWorkflowExecution n
       {| get_DomainID := domainID x;
          get_Execution := workflowExecution x |}))
    (GetWorkflowExecutionCall
       {| get_DomainID := domainID x; get_Execution := workflowExecution x |})
    persistenceOperationRetryPolicy (Some response) w) as Hretry.
  cbv beta in Hretry. rewrite Hget in Hretry. specialize (Hretry eq_refl).
  rewrite (bind_Ok _ _ _ _ _ (bind_Ok _ _ _ _ _ Hretry)) in E.
  cbv beta iota in E.
  set (w0 := mkWorld (contexts w) _) in *.
  assert (Hc0 : contexts w0 !! c = Some x) by exact Hc.
  destruct (getDomainName_Ok c w0 x Hc0) as (name & Hname).
  rewrite (bind_Ok _ _ _ _ _ Hname) in E.
  set (w2 := mkWorld (contexts w0) _) in *.
  assert (Hc2 : contexts w2 !! c = Some x) by exact Hc.
  rewrite (bind_Ok _ _ _ _ _ (deref_lookup _ _ _ Hc2)) in E.
  unfold store at 1 in E. unfold bind at 1 in E.
  set (w3 := mkWorld (<[c := _]> _) _) in *.
  pose proof E as E'.
  keeps_in (@sameContexts MS) E.
  keeps_in (@growsBy MS notStorage) E'.
  split.
  - unfold cached. rewrite E. unfold w3. cbn [contexts].
    rewrite lookup_insert_eq. eexists _, _. split; reflexivity.
  - destruct E' as (tr & Htr & Hall).
    exists (GetDomainByIDCall (domainID x) :: tr). split.
    + rewrite Htr. unfold w3, w2, w0. cbn [trace].
      now rewrite <- !app_assoc.
    + constructor; [reflexivity | exact Hall].
Qed.

Lemma cached_load c (w : world) x ms r w' :
  contexts w !! c = Some x ->
  msBuilder x = Some ms ->
  loadWorkflowExecution c w = (r, w') ->
  growsBy notStorage w w'
  /\ cached w' c
  /\ ((exists ms' x',
         r = Ok (Some ms')
         /\ contexts w' !! c = Some x' /\ msBuilder x' = Some ms')
      \/ exists e,
           r = Err e
           /\ GetDomainByID (length (trace w)) (domainID x) = inr e)
  /\ (IsGlobalDomainEnabled = false -> r = Ok (Some ms) /\ w' = w).
Proof.
  intros Hc Hms E. unfold loadWorkflowExecution in E.
  rewrite (bind_Ok _ _ _ _ _ (loadWorkflowExecutionInternal_cached
                                _ _ _ _ Hc Hms)) in E.
  apply bind_inv in E as (r1 & w1 & Hhook & E).
  destruct (updateVersion_cached _ _ _ _ _ _ Hc Hms Hhook)
    as (Hcached & Hgrows & Hr & Hlocal).
  destruct Hr as [-> | (e & -> & Hdomain & _)].
  - destruct Hcached as (x' & ms' & Hc' & Hms').
    unfold bind, deref, ret in E. rewrite Hc' in E. injection E as <- <-.
    split; [exact Hgrows |]. split; [now exists x', ms' |].
    split; [left; exists ms', x'; now rewrite Hms' |].
    intros Hoff. destruct (Hlocal Hoff) as [_ ->].
    rewrite Hc in Hc'. injection Hc' as <-. now rewrite Hms.
  - destruct E as [-> ->].
    split; [exact Hgrows |]. split; [exact Hcached |].
    split; [right; now exists e |].
    intros Hoff. now destruct (Hlocal Hoff).
Qed.

(** With the state cached, a load is the replication policy hook followed
    by the read of the cache. *)
Lemma cached_load_is_the_hook c (w : world) x ms :
  contexts w !! c = Some x ->
  msBuilder x = Some ms ->
  loadWorkflowExecution c w
  = bind (updateVersion c) (fun _ => x <- deref c ;; ret (msBuilder x)) w.
Proof.
  intros Hc Hms. unfold loadWorkflowExecution.
  now rewrite (bind_Ok _ _ _ _ _
                 (loadWorkflowExecutionInternal_cached _ _ _ _ Hc Hms)).
Qed.

Lemma updateVersion_skips c (w : world) x ms :
  contexts w !! c = Some x ->
  msBuilder x = Some ms ->
  IsGlobalDomainEnabled = false
  \/ GetReplicationState ms = None
  \/ IsWorkflowExecutionRunning ms = false ->
  updateVersion c w = (Ok tt, w).
Proof.
  intros Hc Hms Hoff.
  unfold updateVersion, the_msBuilder, bind, deref, ret.
  destruct IsGlobalDomainEnabled; [| reflexivity].
  rewrite Hc, Hms.
  destruct Hoff as [Hoff | [Hoff | Hoff]]; [discriminate | |].
  - now rewrite Hoff.
  - destruct (GetReplicationState ms); [| reflexivity].
    now rewrite Hoff.
Qed.

Lemma updateVersion_stamps c (w : world) x ms :
  contexts w !! c = Some x ->
  msBuilder x = Some ms ->
  IsGlobalDomainEnabled = true ->
  GetReplicationState ms <> None ->
  IsWorkflowExecutionRunning ms = true ->
  updateVersion c w
  = match GetDomainByID (length (trace w)) (domainID x) with
    | inr err =>
        (Err err,
         mkWorld (contexts w)
           (trace w ++ [GetDomainByIDCall (domainID x)]))
    | inl domainEntry =>
        (Ok tt,
         mkWorld
           (<[c := set_msBuilder x
                     (Some (UpdateReplicationPolicy
                              (UpdateReplicationStateVersion ms
                                 (dom_FailoverVersion domainEntry) false)
                              (dom_ReplicationPolicy domainEntry)))]>
              (contexts w))
           (trace w ++ [GetDomainByIDCall (domainID x)]))
    end.
Proof.
  intros Hc Hms Hglobal Hreplicated Hrunning.
  unfold updateVersion, the_msBuilder, put_msBuilder, bind, deref, ask,
    store, ret, fail.
  rewrite Hglobal, Hc, Hms.
  destruct (GetReplicationState ms); [| contradiction].
  rewrite Hrunning. cbn [negb contexts trace]. rewrite Hc.
  destruct (GetDomainByID (length (trace w)) (domainID x));
    cbn [contexts trace]; [| reflexivity].
  now rewrite Hc.
Qed.

(** C8, as the code has it: on a context whose mutable state is cached, a
    load makes no storage call and keeps the cache; it is the replication
    policy hook run on that context followed by the read of the cache: the
    world it leaves is the one the hook leaves, an error of the hook is the
    error of the load, and otherwise the state cached after the hook is
    returned.  The hook does nothing when global domains are disabled, the
    cached state has no replication state or the workflow is not running:
    the cached state is returned and nothing changes at all.  Otherwise the
    hook looks the domain up once; a failed lookup is returned as the error
    of the load, and an answered one stamps the cached state with the
    failover version and the replication policy of the domain, and that
    state is cached and returned.  A load that finds the cache filled adds
    no fetch to the one before it, and two consecutive loads on a context
    without cache, whose fetch storage answers at once, make exactly one
    storage fetch. *)
Theorem load_is_idempotent_while_cached (c : contextRef) (w : world) :
  (forall x ms r w',
     contexts w !! c = Some x ->
     msBuilder x = Some ms ->
     loadWorkflowExecution c w = (r, w') ->
     growsBy notStorage w w'
     /\ countCalls isFetch (trace w') = countCalls isFetch (trace w)
     /\ cached w' c
     /\ ((exists ms' x',
            r = Ok (Some ms')
            /\ contexts w' !! c = Some x' /\ msBuilder x' = Some ms')
         \/ exists e,
              r = Err e
              /\ GetDomainByID (length (trace w)) (domainID x) = inr e)
     /\ (IsGlobalDomainEnabled = false -> r = Ok (Some ms) /\ w' = w)
     /\ (exists hook,
           updateVersion c w = (hook, w')
           /\ match hook with
              | Ok _ =>
                  exists x', contexts w' !! c = Some x'
                             /\ r = Ok (msBuilder x')
              | Err e => r = Err e
              | Panicked p => r = Panicked p
              end)
     /\ (IsGlobalDomainEnabled = false
         \/ GetReplicationState ms = None
         \/ IsWorkflowExecutionRunning ms = false ->
         r = Ok (Some ms) /\ w' = w)
     /\ (IsGlobalDomainEnabled = true ->
         GetReplicationState ms <> None ->
         IsWorkflowExecutionRunning ms = true ->
         match GetDomainByID (length (trace w)) (domainID x) with
         | inr err =>
             r = Err err
             /\ w' = mkWorld (contexts w)
                       (trace w ++ [GetDomainByIDCall (domainID x)])
         | inl domainEntry =>
             let stamped :=
               UpdateReplicationPolicy
                 (UpdateReplicationStateVersion ms
                    (dom_FailoverVersion domainEntry) false)
                 (dom_ReplicationPolicy domainEntry) in
             r = Ok (Some stamped)
             /\ w' = mkWorld
                       (<[c := set_msBuilder x (Some stamped)]> (contexts w))
                       (trace w ++ [GetDomainByIDCall (domainID x)])
         end))
  /\ (forall r1 w1 r2 w2,
        loadWorkflowExecution c w = (r1, w1) ->
        cached w1 c ->
        loadWorkflowExecution c w1 = (r2, w2) ->
        countCalls isFetch (trace w2) = countCalls isFetch (trace w1))
  /\ (forall x response r1 w1 r2 w2,
        contexts w !! c = Some x ->
        msBuilder x = None ->
        GetWorkflowExecution (length (trace w))
          {| get_DomainID := domainID x;
             get_Execution := workflowExecution x |}
        = inl response ->
        loadWorkflowExecution c w = (r1, w1) ->
        loadWorkflowExecution c w1 = (r2, w2) ->
        countCalls isFetch (trace w2) = S (countCalls isFetch (trace w))).
Proof.
  split; [| split].
  - intros x ms r w' Hc Hms E.
    destruct (cached_load _ _ _ _ _ _ Hc Hms E)
      as (Hgrows & Hcached & Hr & Hlocal).
    split; [exact Hgrows |].
    split; [now apply notStorage_fetches |].
    split; [exact Hcached |]. split; [exact Hr |].
    split; [exact Hlocal |].
    rewrite (cached_load_is_the_hook _ _ _ _ Hc Hms) in E.
    split; [| split].
    + apply bind_inv in E as (hook & wh & Hhook & E). exists hook.
      destruct hook as [[] | e | p].
      * destruct (updateVersion_cached _ _ _ _ _ _ Hc Hms Hhook)
          as ((x' & ms' & Hc' & _) & _).
        unfold bind, deref, ret in E. rewrite Hc' in E.
        injection E as <- <-. split; [exact Hhook |]. now exists x'.
      * destruct E as [-> ->]. now split.
      * destruct E as [-> ->]. now split.
    + intros Hoff.
      rewrite (bind_Ok _ _ _ _ _ (updateVersion_skips _ _ _ _ Hc Hms Hoff))
        in E.
      unfold bind, deref, ret in E. rewrite Hc, Hms in E.
      now injection E as <- <-.
    + intros Hglobal Hreplicated Hrunning.
      pose proof (updateVersion_stamps _ _ _ _ Hc Hms Hglobal Hreplicated
                    Hrunning) as Hhook.
      destruct (GetDomainByID (length (trace w)) (domainID x))
        as [domainEntry | err].
      * rewrite (bind_Ok _ _ _ _ _ Hhook) in E.
        unfold bind, deref, ret in E. cbn [contexts] in E.
        rewrite lookup_insert_eq in E. now injection E as <- <-.
      * rewrite (bind_Err _ _ _ _ _ Hhook) in E. now injection E as <- <-.
  - intros r1 w1 r2 w2 _ (x1 & ms1 & Hc1 & Hms1) E2.
    destruct (cached_load _ _ _ _ _ _ Hc1 Hms1 E2) as (Hgrows & _).
    now apply notStorage_fetches.
  - intros x response r1 w1 r2 w2 Hc Hms Hget E1 E2.
    assert (Hfirst : cached w1 c
      /\ countCalls isFetch (trace w1) = S (countCalls isFetch (trace w))).
    { unfold loadWorkflowExecution in E1.
      apply bind_inv in E1 as (r0 & w0 & Hinternal & E1).
      destruct (loadWorkflowExecutionInternal_fetch _ _ _ _ _ _ Hc Hms Hget
                  Hinternal) as (Hcached0 & tr & Htr & Hall).
      assert (Hcount0 :
        countCalls isFetch (trace w0) = S (countCalls isFetch (trace w))).
      { assert (Hg : growsBy notStorage
                       (mkWorld (contexts w)
                          (trace w
                           ++ [GetWorkflowExecutionCall
                                 {| get_DomainID := domainID x;
                                    get_Execution := workflowExecution x |}]))
                       w0).
        { exists tr. cbn [trace]. split; [| exact Hall].
          rewrite Htr. now rewrite <- app_assoc. }
        apply notStorage_fetches in Hg as [Hg _]. rewrite Hg.
        cbn [trace]. now apply countCalls_snoc_true. }
      destruct r0 as [[] | e | p].
      - apply bind_inv in E1 as (r01 & w01 & Hhook & E1).
        destruct Hcached0 as (x0 & ms0 & Hc0 & Hms0).
        destruct (updateVersion_cached _ _ _ _ _ _ Hc0 Hms0 Hhook)
          as (Hcached & Hgrows & Hr & _).
        apply notStorage_fetches in Hgrows as [Hgrows _].
        assert (Hw1 : w1 = w01).
        { destruct Hr as [-> | (e & -> & _)].
          - destruct Hcached as (x' & ms' & Hc' & _).
            unfold bind, deref, ret in E1. rewrite Hc' in E1.
            now injection E1 as _ <-.
          - now destruct E1 as [_ ->]. }
        subst w01. split; [exact Hcached | congruence].
      - destruct E1 as [_ ->]. now split.
      - destruct E1 as [_ ->]. now split. }
    destruct Hfirst as ((x1 & ms1 & Hc1 & Hms1) & Hcount).
    destruct (cached_load _ _ _ _ _ _ Hc1 Hms1 E2) as (Hgrows & _).
    apply notStorage_fetches in Hgrows as [Hgrows _]. congruence.
Qed.

End Loading.

(** ** The theorems at work on the scenarios *)

Section Scenarios.

Local Abbreviation MS := scriptedState.
Local Abbreviation ops := scriptedMutableState.
Local Abbreviation decls := testDeclarations.

(** An active update without a new run: the batch is appended once, the
    update is submitted under condition 10, and afterwards the condition is
    12 and the history has grown by the 200 bytes of the batch. *)
Example active_update_scenario :
  let r := runUpdate healthyShard None None None (worldWith (currentRun 12)) in
  fst r = Ok tt
  /\ countCalls isAppend (trace (snd r)) = 1%nat
  /\ submittedConditions (trace (snd r)) = [10]
  /\ conditionOf (snd r) = Some 12
  /\ historySizeOf (snd r) = Some 320.
Proof. vm_compute. repeat split; reflexivity. Qed.

(** The same update when storage reports a failed condition: the caller
    sees the conflict sentinel and the cache is gone. *)
Example optimistic_conflict_scenario :
  let r := runUpdate brokenShard None None None (worldWith (currentRun 12)) in
  fst r = Err ErrConflict
  /\ cleared (snd r) 0%nat = true
  /\ conditionOf (snd r) = Some 10.
Proof. vm_compute. repeat split; reflexivity. Qed.

(** C1 fails for create, conflict resolution and reset: each of them
    returns the error of storage, respectively its own refusal, and leaves
    the mutable state and the stats of the context cached. *)
Lemma failed_create_resolve_reset_keep_the_cache :
  (let r := runCommit brokenShard
              (Create (snapshotOf (infoOf "R1" 3 0) []) 120 0 0 "" 0)
              (worldWith (currentRun 12)) in
   fst r = Err (OtherError "create failed") /\ cleared (snd r) 0%nat = false)
  /\ (let r := runCommit brokenShard
                 (ConflictResolve 0 "R0" 0 1 (newRun false []) 500)
                 (worldWith (currentRun 12)) in
      fst r = Err (OtherError "conflict resolve failed")
      /\ cleared (snd r) 0%nat = false)
  /\ (let r := runCommit brokenShard
                 (Reset (currentRun 12) true true None None
                    (newRun false [firstBatch]) 0 [] [] [] [] "R1" 10)
                 (worldWith (currentRun 12)) in
      fst r = Err (OtherError "reset failed")
      /\ cleared (snd r) 0%nat = false).
Proof. vm_compute. repeat split; reflexivity. Qed.

Lemma failed_update_clears_the_context_witness :
  let r := runUpdate brokenShard None None None (worldWith (currentRun 12)) in
  r = (Err ErrConflict, snd r)
  /\ cleared (snd r) 0%nat = true
  /\ runCommit brokenShard (Update 0 transactionPolicyActive)
       (worldWith (currentRun 12)) = r.
Proof.
  cbv zeta.
  assert (E : runUpdate brokenShard None None None (worldWith (currentRun 12))
              = (Err ErrConflict,
                 snd (runUpdate brokenShard None None None
                        (worldWith (currentRun 12)))))
    by (vm_compute; reflexivity).
  split; [exact E |]. split; [| reflexivity].
  exact (proj1 (proj1 (@failed_update_clears_the_context MS ops brokenShard
                         decls 0%nat (worldWith (currentRun 12)) ErrConflict
                         _)
                  0 None None transactionPolicyActive None E)).
Defined.

(** C2 fails when the current run cannot be closed: the paired update
    returns that error and clears the current context, and the context of
    the new run keeps its cache. *)
Lemma failed_close_of_current_run_keeps_new_cache :
  let r := runUpdate healthyShard (Some 1%nat)
             (Some (newRun false [firstBatch]))
             (Some transactionPolicyActive) (pairedWorld brokenRun) in
  fst r = Err (OtherError "close failed")
  /\ cleared (snd r) 0%nat = true
  /\ cleared (snd r) 1%nat = false.
Proof. vm_compute. repeat split; reflexivity. Qed.

Lemma failed_paired_update_clears_both_witness :
  let r := runUpdate brokenShard (Some 1%nat)
             (Some (newRun false [firstBatch]))
             (Some transactionPolicyActive) (pairedWorld (currentRun 12)) in
  r = (Err ErrConflict, snd r)
  /\ cleared (snd r) 0%nat = true
  /\ cleared (snd r) 1%nat = true.
Proof.
  cbv zeta.
  assert (E : runUpdate brokenShard (Some 1%nat)
                (Some (newRun false [firstBatch]))
                (Some transactionPolicyActive) (pairedWorld (currentRun 12))
              = (Err ErrConflict,
                 snd (runUpdate brokenShard (Some 1%nat)
                        (Some (newRun false [firstBatch]))
                        (Some transactionPolicyActive)
                        (pairedWorld (currentRun 12)))))
    by (vm_compute; reflexivity).
  split; [exact E |].
  destruct (@failed_paired_update_clears_both_once_new_run_is_entered MS ops
              brokenShard decls 0%nat 1%nat 0 (newRun false [firstBatch])
              transactionPolicyActive transactionPolicyActive
              (pairedWorld (currentRun 12)) ErrConflict _ E)
    as (Hcurrent & Hnew & _).
  split; [exact Hcurrent |].
  eapply Hnew. vm_compute. reflexivity.
Defined.

Lemma continue_as_new_merge_moves_new_run_task_witness :
  let current :=
    continuedMutation [HistoryTask (historyTaskOf [] 0); OtherTask 3] in
  let new := newRunSnapshot [HistoryTask (historyTaskOf branchB 2)] in
  ei_CloseStatus (wm_ExecutionInfo current)
  = @WorkflowCloseStatusContinuedAsNew decls
  /\ wm_ReplicationTasks current <> []
  /\ ws_ReplicationTasks new = [HistoryTask (historyTaskOf branchB 2)]
  /\ @mergeContinueAsNewReplicationTasks decls current (Some new)
     = (Ok tt,
        set_wm_ReplicationTasks current
          [HistoryTask
             (set_NewRun (historyTaskOf [] 0) branchB 2);
           OtherTask 3],
        Some (set_ws_ReplicationTasks new [])).
Proof.
  cbv zeta.
  assert (Hstatus :
    ei_CloseStatus
      (wm_ExecutionInfo
         (continuedMutation
            [HistoryTask (historyTaskOf [] 0); OtherTask 3]))
    = @WorkflowCloseStatusContinuedAsNew decls) by reflexivity.
  assert (Htasks :
    wm_ReplicationTasks
      (continuedMutation [HistoryTask (historyTaskOf [] 0); OtherTask 3])
    <> []) by discriminate.
  split; [exact Hstatus |]. split; [exact Htasks |].
  split; [reflexivity |].
  destruct (proj1 (@continue_as_new_merge_moves_new_run_task MS ops
                     healthyShard decls
                     (continuedMutation
                        [HistoryTask (historyTaskOf [] 0); OtherTask 3])
                     (Some (newRunSnapshot
                              [HistoryTask (historyTaskOf branchB 2)])))
              Hstatus Htasks) as (Hone & _ & _).
  destruct (Hone _ (historyTaskOf branchB 2) eq_refl eq_refl)
    as (r & Hmerge & _ & _ & _ & _ & Hok & _).
  destruct (Hok eq_refl) as [-> _].
  exact Hmerge.
Defined.

(** C3 as stated fails when the one replication task of the new snapshot
    is not a history replication task: the current mutation continues as
    new and has replication tasks, the new snapshot carries exactly one
    task, and the merge panics on its type assertion; the history task of
    the current mutation keeps its empty new-run fields and the new
    snapshot keeps its task. *)
Lemma new_run_task_of_another_kind_is_not_merged :
  let current :=
    continuedMutation [HistoryTask (historyTaskOf [] 0); OtherTask 3] in
  let new := newRunSnapshot [OtherTask 7] in
  ei_CloseStatus (wm_ExecutionInfo current)
  = @WorkflowCloseStatusContinuedAsNew decls
  /\ wm_ReplicationTasks current <> []
  /\ length (ws_ReplicationTasks new) = 1%nat
  /\ @mergeContinueAsNewReplicationTasks decls current (Some new)
     = (Panicked TypeAssertionFailed, current, Some new)
  /\ ~ (exists r merged snapshot',
          @mergeContinueAsNewReplicationTasks decls current (Some new)
          = (r, merged, Some snapshot')
          /\ ws_ReplicationTasks snapshot' = []).
Proof.
  cbv zeta. split; [reflexivity |]. split; [discriminate |].
  split; [reflexivity |]. split; [reflexivity |].
  intros (r & merged & snapshot' & E & Hempty).
  vm_compute in E. injection E as _ _ <-. discriminate Hempty.
Defined.


(** The two deferred clears of a paired update are nested: when the new
    run cannot be closed and the clear of a new context that is a nil
    pointer panics, the deferred clear of the current context still runs
    before the panic leaves the update. *)
Example nested_clear_runs_while_the_inner_one_panics :
  let w := worldWith (currentRun 12) in
  let r := runUpdate healthyShard (Some 1%nat) (Some (currentRun 12))
             (Some transactionPolicyActive) w in
  contexts w !! 1%nat = None
  /\ fst r = Panicked NilPointerDereference
  /\ cleared (snd r) 0%nat = true.
Proof. vm_compute. repeat split; reflexivity. Qed.

(** C5 fails in the kind of the error: a replacement mutable state that
    closes with an event batch makes conflict resolution fail with a bad
    request error, which is not an internal service error. *)
Lemma resolver_events_are_a_bad_request :
  let w := worldWith (currentRun 12) in
  let r := runConflictResolve healthyShard (newRun false [firstBatch]) w in
  r = (Err (BadRequestError
              "reset mutable state should not generate new events"), w)
  /\ forall message, fst r <> Err (InternalServiceError message).
Proof. vm_compute. split; [reflexivity | discriminate]. Qed.

Lemma conflict_resolve_with_new_events_is_refused_witness :
  let w := worldWith (currentRun 12) in
  snd (@CloseTransactionAsSnapshot MS ops (newRun false [firstBatch]) 0
         transactionPolicyPassive)
  = inl (snapshotOf (infoOf "R2" 3 0) [], [firstBatch])
  /\ [firstBatch] <> []
  /\ runConflictResolve healthyShard (newRun false [firstBatch]) w
     = (Err (BadRequestError
               "reset mutable state should not generate new events"), w).
Proof.
  cbv zeta. split; [reflexivity |]. split; [discriminate |].
  apply (proj2 (@conflict_resolve_with_new_events_is_refused MS ops
                  healthyShard decls 0%nat 0 "R0" 0 1
                  (newRun false [firstBatch]) 500
                  (worldWith (currentRun 12)))
           (snapshotOf (infoOf "R2" 3 0) []) [firstBatch]);
    [reflexivity | discriminate].
Defined.

Lemma reset_with_buffered_events_is_refused_witness :
  let w := worldWith (currentRun 12) in
  @HasBufferedEvents MS ops (newRun true [firstBatch]) = true
  /\ runReset healthyShard (newRun true [firstBatch]) w
     = (Err (InternalServiceError
               "reset workflow execution shouldn't have buffered events"),
        mkWorld (contexts w) (trace w ++ [TimeSourceNowCall])).
Proof.
  cbv zeta. split; [reflexivity |].
  apply (@reset_with_buffered_events_is_refused MS ops healthyShard decls).
  reflexivity.
Defined.

Lemma empty_batch_is_rejected_first_and_skipped_later_witness :
  let w := worldWith idleRun in
  let batch := batchOf "R1" [] in
  evs_Events batch = []
  /\ @persistFirstWorkflowEvents MS healthyShard decls batch w
     = (Ok (0, Some (InternalServiceError
                       "cannot persist first workflow events with empty events")),
        w)
  /\ @persistNonFirstWorkflowEvents MS healthyShard decls batch w
     = (Ok (0, None), w)
  /\ exists w1,
       @updateWorkflowExecutionWithNew_current MS ops healthyShard decls
         0%nat 0 transactionPolicyActive w
       = (Ok (set_wm_ExecutionStats (mutationOf (infoOf "R1" 10 0) [] 10)
                (Some {| HistorySize := 120 |})), w1)
       /\ trace w1 = trace w.
Proof.
  cbv zeta.
  destruct (@empty_batch_is_rejected_first_and_skipped_later MS ops
              healthyShard decls (batchOf "R1" []) (worldWith idleRun)
              eq_refl) as (Hfirst & Hlater & Hupdate).
  split; [reflexivity |]. split; [exact Hfirst |]. split; [exact Hlater |].
  destruct (Hupdate 0%nat 0 transactionPolicyActive (cachedContext idleRun)
              idleRun idleRun (mutationOf (infoOf "R1" 10 0) [] 10)
              [batchOf "R1" []] 120)
    as (Hcurrent & _).
  - reflexivity.
  - reflexivity.
  - reflexivity.
  - unfold is_int64. lia.
  - reflexivity.
  - repeat constructor.
  - eexists. split; [exact Hcurrent | reflexivity].
Defined.

(** C8 fails when the replication policy hook fails: the mutable state of
    a running workflow of a global domain is cached, the domain cache does
    not answer, and the load returns that error and no mutable state. *)
Lemma cached_load_can_fail_in_the_hook :
  let w := worldWith replicatedRun in
  let r := runLoad globalShardWithoutDomain w in
  contexts w !! 0%nat = Some (cachedContext replicatedRun)
  /\ msBuilder (cachedContext replicatedRun) = Some replicatedRun
  /\ fst r = Err (OtherError "domain cache miss")
  /\ countCalls isFetch (trace (snd r)) = 0%nat.
Proof. vm_compute. repeat split; reflexivity. Qed.

Lemma load_is_idempotent_while_cached_witness :
  let w := emptyWorld in
  let r1 := runLoad healthyShard w in
  let r2 := runLoad healthyShard (snd r1) in
  let cachedWorld := worldWith replicatedRun in
  let r := runLoad globalShardWithoutDomain cachedWorld in
  (contexts w !! 0%nat
   = Some (contextOf "R1" None (Some {| HistorySize := 0 |}) 0)
   /\ countCalls isFetch (trace w) = 0%nat
   /\ countCalls isFetch (trace (snd r2)) = 1%nat
   /\ fst r2 = fst r1)
  /\ contexts cachedWorld !! 0%nat = Some (cachedContext replicatedRun)
  /\ fst r = Err (OtherError "domain cache miss")
  /\ snd r
     = mkWorld (contexts cachedWorld)
         (trace cachedWorld ++ [GetDomainByIDCall "domain"]).
Proof.
  cbv zeta. split.
  - split; [reflexivity |]. split; [reflexivity |].
    split; [| vm_compute; reflexivity].
    apply (proj2 (proj2 (@load_is_idempotent_while_cached MS ops healthyShard
                           decls 0%nat emptyWorld))
             (contextOf "R1" None (Some {| HistorySize := 0 |}) 0)
             {| State := storedState; MutableStateStats := 0 |}
             (fst (runLoad healthyShard emptyWorld))
             (snd (runLoad healthyShard emptyWorld))
             (fst (runLoad healthyShard
                     (snd (runLoad healthyShard emptyWorld))))
             (snd (runLoad healthyShard
                     (snd (runLoad healthyShard emptyWorld))))).
    + reflexivity.
    + reflexivity.
    + reflexivity.
    + apply surjective_pairing.
    + apply surjective_pairing.
  - split; [reflexivity |].
    assert (Hreplicated : @GetReplicationState MS ops replicatedRun <> None)
      by (vm_compute; discriminate).
    destruct (proj1 (@load_is_idempotent_while_cached MS ops
                       globalShardWithoutDomain decls 0%nat
                       (worldWith replicatedRun))
                (cachedContext replicatedRun) replicatedRun
                (fst (runLoad globalShardWithoutDomain
                        (worldWith replicatedRun)))
                (snd (runLoad globalShardWithoutDomain
                        (worldWith replicatedRun)))
                eq_refl eq_refl (surjective_pairing _))
      as (_ & _ & _ & _ & _ & _ & _ & Hon).
    exact (Hon eq_refl Hreplicated eq_refl).
Defined.

Lemma new_run_batch_is_indexed_without_length_check_witness :
  let w := pairedWorld (currentRun 12) in
  let r := runUpdate healthyShard (Some 1%nat) (Some (newRun false []))
             (Some transactionPolicyActive) w in
  snd (@CloseTransactionAsSnapshot MS ops (newRun false []) 0
         transactionPolicyActive)
  = inl (snapshotOf (infoOf "R2" 3 0) [], [])
  /\ fst r = Panicked IndexOutOfRange
  /\ cleared (snd r) 0%nat = false.
Proof.
  cbv zeta. split; [reflexivity |]. split; [| vm_compute; reflexivity].
  assert (Hcurrent : exists currentWorkflow w1,
    @updateWorkflowExecutionWithNew_current MS ops healthyShard decls 0%nat 0
      transactionPolicyActive (pairedWorld (currentRun 12))
    = (Ok currentWorkflow, w1)
    /\ contexts w1 !! 1%nat = Some newRunContext).
  { eexists _, _. split; vm_compute; reflexivity. }
  destruct Hcurrent as (currentWorkflow & w1 & Hcurrent & Hnew).
  exact (proj2 (proj1 (@new_run_batch_is_indexed_without_length_check MS ops
                         healthyShard decls 0%nat 1%nat 0 (newRun false [])
                         transactionPolicyActive transactionPolicyActive
                         (pairedWorld (currentRun 12)) currentWorkflow w1
                         (snapshotOf (infoOf "R2" 3 0) []) []
                         newRunContext {| HistorySize := 0 |}
                         Hcurrent eq_refl Hnew eq_refl)) eq_refl).
Defined.

Lemma merge_cast_is_safe_only_for_history_task_witness :
  let current := continuedMutation [HistoryTask (historyTaskOf [] 0)] in
  let new := newRunSnapshot [OtherTask 1] in
  ei_CloseStatus (wm_ExecutionInfo current)
  = @WorkflowCloseStatusContinuedAsNew decls
  /\ wm_ReplicationTasks current <> []
  /\ ws_ReplicationTasks new = [OtherTask 1]
  /\ length (ws_ReplicationTasks new) = 1%nat
  /\ fst (fst (@mergeContinueAsNewReplicationTasks decls current (Some new)))
     = Panicked TypeAssertionFailed.
Proof.
  cbv zeta. split; [reflexivity |]. split; [discriminate |].
  split; [reflexivity |]. split; [reflexivity |].
  apply (proj1 (@merge_cast_is_safe_only_for_history_task MS ops healthyShard
                  decls
                  (continuedMutation [HistoryTask (historyTaskOf [] 0)])
                  (newRunSnapshot [OtherTask 1]) (OtherTask 1)
                  eq_refl ltac:(discriminate) eq_refl)).
  reflexivity.
Defined.

End Scenarios.

(** ** The replication policy hook on load *)

Section PolicyHook.

Context {MS : Type} `{!MutableState MS} `{!ShardContext} `{!Declarations}.

Local Abbreviation world := (World MS).
Local Abbreviation context := (workflowExecutionContextImpl MS).

(** X1: a load on a context whose mutable state is cached is the identity
    whenever global domains are disabled, or the cached state has no
    replication state, or the workflow is no longer running: it makes no
    call at all, changes nothing and returns the cached state.  Otherwise
    it looks the domain up exactly once; a failed lookup is returned as the
    error of the load, and a successful one stamps the cached state with
    the failover version (not forced) and then the replication policy of
    the domain, and that stamped state is what is cached and returned. *)
Theorem load_restamps_only_running_workflows_of_global_domains
  (c : contextRef) (w : world) (x : context) (ms : MS) :
  contexts w !! c = Some x ->
  msBuilder x = Some ms ->
  (IsGlobalDomainEnabled = false
   \/ GetReplicationState ms = None
   \/ IsWorkflowExecutionRunning ms = false ->
   loadWorkflowExecution c w = (Ok (Some ms), w))
  /\ (IsGlobalDomainEnabled = true ->
      GetReplicationState ms <> None ->
      IsWorkflowExecutionRunning ms = true ->
      let lookup := GetDomainByIDCall (domainID x) in
      match GetDomainByID (length (trace w)) (domainID x) with
      | inr err =>
          loadWorkflowExecution c w
          = (Err err, mkWorld (contexts w) (trace w ++ [lookup]))
      | inl domainEntry =>
          let stamped :=
            UpdateReplicationPolicy
              (UpdateReplicationStateVersion ms
                 (dom_FailoverVersion domainEntry) false)
              (dom_ReplicationPolicy domainEntry) in
          loadWorkflowExecution c w
          = (Ok (Some stamped),
             mkWorld (<[c := set_msBuilder x (Some stamped)]> (contexts w))
               (trace w ++ [lookup]))
      end).
Proof.
  intros Hc Hms.
  assert (Hload : loadWorkflowExecution c w
                  = bind (updateVersion c)
                      (fun _ => x <- deref c ;; ret (msBuilder x)) w).
  { unfold loadWorkflowExecution.
    now rewrite (bind_Ok _ _ _ _ _
                   (loadWorkflowExecutionInternal_cached _ _ _ _ Hc Hms)). }
  rewrite Hload. clear Hload. split.
  - intros Hoff.
    assert (Hhook : updateVersion c w = (Ok tt, w)).
    { unfold updateVersion, the_msBuilder, bind, deref, ret.
      destruct IsGlobalDomainEnabled; [| reflexivity].
      rewrite Hc, Hms.
      destruct Hoff as [Hoff | [Hoff | Hoff]]; [discriminate | |].
      - now rewrite Hoff.
      - destruct (GetReplicationState ms); [| reflexivity].
        now rewrite Hoff. }
    rewrite (bind_Ok _ _ _ _ _ Hhook). unfold bind, deref, ret.
    now rewrite Hc, Hms.
  - intros Hglobal Hreplicated Hrunning lookup.
    unfold updateVersion, the_msBuilder, put_msBuilder, bind, deref, ask,
      store, ret, fail.
    rewrite Hglobal, Hc, Hms.
    destruct (GetReplicationState ms); [| contradiction].
    rewrite Hrunning. cbn [negb contexts trace]. rewrite Hc.
    destruct (GetDomainByID (length (trace w)) (domainID x));
      cbn [contexts trace]; [| reflexivity].
    rewrite Hc. cbn [contexts trace]. now rewrite lookup_insert_eq.
Qed.

End PolicyHook.

(** ** What the continue-as-new merge leaves alone *)

Section MergeFrame.

Context `{!Declarations}.

Lemma map_stampNewRun_id branchToken eventStoreVersion tasks :
  existsb isHistoryTask tasks = false ->
  map (stampNewRun branchToken eventStoreVersion) tasks = tasks.
Proof.
  induction tasks as [| [t | other] rest IH]; cbn;
    [reflexivity | discriminate |].
  intros Hrest. now rewrite IH.
Qed.

Lemma set_wm_ReplicationTasks_id m :
  set_wm_ReplicationTasks m (wm_ReplicationTasks m) = m.
Proof. now destruct m. Qed.

Lemma set_ws_ReplicationTasks_id s :
  set_ws_ReplicationTasks s (ws_ReplicationTasks s) = s.
Proof. now destruct s. Qed.

(** X2: whatever its outcome, the continue-as-new merge changes nothing
    but replication tasks.  The current mutation keeps every other field;
    its replication tasks are either untouched or, when the new snapshot
    carries exactly one history replication task, each task in place with
    that task's branch token and event store version written to the new-run
    fields of the history replication tasks and every other task as it
    was.  The new snapshot keeps every other field, and its replication
    tasks are either untouched or dropped. *)
Theorem merge_changes_replication_tasks_only
  (currentWorkflowMutation : WorkflowMutation)
  (newWorkflowSnapshot : option WorkflowSnapshot) :
  let result :=
    mergeContinueAsNewReplicationTasks currentWorkflowMutation
      newWorkflowSnapshot in
  let merged := snd (fst result) in
  merged
  = set_wm_ReplicationTasks currentWorkflowMutation
      (wm_ReplicationTasks merged)
  /\ (wm_ReplicationTasks merged
      = wm_ReplicationTasks currentWorkflowMutation
      \/ exists snapshot newRunTask,
           newWorkflowSnapshot = Some snapshot
           /\ ws_ReplicationTasks snapshot = [HistoryTask newRunTask]
           /\ wm_ReplicationTasks merged
              = map (stampNewRun (hrt_BranchToken newRunTask)
                       (hrt_EventStoreVersion newRunTask))
                  (wm_ReplicationTasks currentWorkflowMutation))
  /\ match newWorkflowSnapshot, snd result with
     | None, None => True
     | Some snapshot, Some snapshot' =>
         snapshot'
         = set_ws_ReplicationTasks snapshot (ws_ReplicationTasks snapshot')
         /\ (ws_ReplicationTasks snapshot' = ws_ReplicationTasks snapshot
             \/ ws_ReplicationTasks snapshot' = [])
     | _, _ => False
     end.
Proof.
  cbv zeta. unfold mergeContinueAsNewReplicationTasks.
  assert (Hsame : forall r,
    let result := (r : outcome unit, currentWorkflowMutation,
                   newWorkflowSnapshot) in
    snd (fst result)
    = set_wm_ReplicationTasks currentWorkflowMutation
        (wm_ReplicationTasks (snd (fst result)))
    /\ (wm_ReplicationTasks (snd (fst result))
        = wm_ReplicationTasks currentWorkflowMutation
        \/ exists snapshot newRunTask,
             newWorkflowSnapshot = Some snapshot
             /\ ws_ReplicationTasks snapshot = [HistoryTask newRunTask]
             /\ wm_ReplicationTasks (snd (fst result))
                = map (stampNewRun (hrt_BranchToken newRunTask)
                         (hrt_EventStoreVersion newRunTask))
                    (wm_ReplicationTasks currentWorkflowMutation))
    /\ match newWorkflowSnapshot, snd result with
       | None, None => True
       | Some snapshot, Some snapshot' =>
           snapshot'
           = set_ws_ReplicationTasks snapshot (ws_ReplicationTasks snapshot')
           /\ (ws_ReplicationTasks snapshot' = ws_ReplicationTasks snapshot
               \/ ws_ReplicationTasks snapshot' = [])
       | _, _ => False
       end).
  { intros r. cbn [fst snd]. split; [| split].
    - now rewrite set_wm_ReplicationTasks_id.
    - now left.
    - destruct newWorkflowSnapshot as [snapshot |]; [| exact I].
      split; [now rewrite set_ws_ReplicationTasks_id | now left]. }
  destruct (negb _); [apply Hsame |].
  destruct (Nat.eqb (length (wm_ReplicationTasks currentWorkflowMutation)) 0);
    [apply Hsame |].
  destruct newWorkflowSnapshot as [snapshot |]; [| apply (Hsame (Err _))].
  destruct (Nat.eqb (length (ws_ReplicationTasks snapshot)) 1) eqn:Hlen;
    cbn [negb]; [| apply (Hsame (Err _))].
  apply Nat.eqb_eq in Hlen.
  destruct (ws_ReplicationTasks snapshot)
    as [| [newRunTask | other] [| task2 rest]] eqn:Hone;
    try discriminate; [| apply (Hsame (Panicked _))].
  pose proof (mergeNewRunIntoTasks_map (hrt_BranchToken newRunTask)
                (hrt_EventStoreVersion newRunTask)
                (wm_ReplicationTasks currentWorkflowMutation) false) as Hmap.
  destruct (mergeNewRunIntoTasks _ _ _ _) as [tasks updated].
  cbn [fst] in Hmap. subst tasks.
  destruct updated; cbn [negb fst snd]; (split; [| split]).
  1, 4: now destruct currentWorkflowMutation.
  1, 3: right; now exists snapshot, newRunTask.
  1, 2: split; [now destruct snapshot | now right].
Qed.

(** X3: a current mutation that continues as new and has replication tasks,
    none of them a history replication task, fails the merge with an
    internal error even though the new snapshot carries its one history
    replication task.  By then that task has been taken off the new
    snapshot; the current mutation is as it was, and the commit block
    returns the error without a call to storage. *)
Theorem merge_needs_a_history_task_in_the_current_mutation
  `{!MutableState MS} `{!ShardContext}
  (currentWorkflowMutation : WorkflowMutation)
  (newWorkflowSnapshot : WorkflowSnapshot)
  (newRunTask : HistoryReplicationTask) :
  ei_CloseStatus (wm_ExecutionInfo currentWorkflowMutation)
  = WorkflowCloseStatusContinuedAsNew ->
  wm_ReplicationTasks currentWorkflowMutation <> [] ->
  existsb isHistoryTask (wm_ReplicationTasks currentWorkflowMutation)
  = false ->
  ws_ReplicationTasks newWorkflowSnapshot = [HistoryTask newRunTask] ->
  let err :=
    InternalServiceError
      "unable to find replication task from current workflow for continue as new replication" in
  mergeContinueAsNewReplicationTasks currentWorkflowMutation
    (Some newWorkflowSnapshot)
  = (Err err, currentWorkflowMutation,
     Some (set_ws_ReplicationTasks newWorkflowSnapshot []))
  /\ forall c (w : World MS),
       updateWorkflowExecutionWithNew_commit c currentWorkflowMutation
         (Some newWorkflowSnapshot) w
       = (Err err, w).
Proof.
  intros Hstatus Htasks Hnone Hone err.
  assert (Hmerge :
    mergeContinueAsNewReplicationTasks currentWorkflowMutation
      (Some newWorkflowSnapshot)
    = (Err err, currentWorkflowMutation,
       Some (set_ws_ReplicationTasks newWorkflowSnapshot []))).
  { unfold mergeContinueAsNewReplicationTasks.
    rewrite Hstatus, Z.eqb_refl.
    destruct (wm_ReplicationTasks currentWorkflowMutation) as [| t0 ts]
      eqn:Hts; [contradiction |].
    cbn [length Nat.eqb negb]. rewrite Hone. cbn [length Nat.eqb negb].
    pose proof (mergeNewRunIntoTasks_map (hrt_BranchToken newRunTask)
                  (hrt_EventStoreVersion newRunTask) (t0 :: ts) false)
      as Hmap.
    pose proof (mergeNewRunIntoTasks_spec (hrt_BranchToken newRunTask)
                  (hrt_EventStoreVersion newRunTask) (t0 :: ts) false)
      as (_ & _ & Hupdated).
    destruct (mergeNewRunIntoTasks _ _ (t0 :: ts) false) as [tasks updated].
    cbn [fst snd orb] in *. rewrite Hnone in Hupdated. subst updated.
    cbn [negb]. subst tasks.
    rewrite (map_stampNewRun_id _ _ _ Hnone), <- Hts.
    now rewrite set_wm_ReplicationTasks_id. }
  split; [exact Hmerge |]. intros c w.
  unfold updateWorkflowExecutionWithNew_commit. now rewrite Hmerge.
Qed.

End MergeFrame.

(** ** The storage calls of the appender and of create and update *)

Section StorageCalls.

Context {MS : Type} `{!MutableState MS} `{!ShardContext} `{!Declarations}.

Local Abbreviation world := (World MS).
Local Abbreviation context := (workflowExecutionContextImpl MS).

Lemma to_int64_range z : is_int64 (to_int64 z).
Proof.
  unfold is_int64, to_int64.
  pose proof (Z.mod_pos_bound (z + 2 ^ 63) (2 ^ 64) ltac:(lia)). lia.
Qed.

(** A retried call makes at least one and at most one more attempt than
    the policy allows retries. *)
Lemma Retry_ask_bounded {A} (answer : nat -> A * option error) e n
  (w : world) :
  exists r k,
    (k <= n)%nat
    /\ Retry (ask answer e) n w
       = (Ok r, mkWorld (contexts w) (trace w ++ repeat e (S k))).
Proof.
  revert w. induction n as [| n IH]; intros w; cbn [Retry];
    unfold bind at 1; unfold ask at 1;
    destruct (answer (length (trace w))) as [resp [err |]] eqn:Hanswer.
  - exists (resp, Some err), O. split; [lia | reflexivity].
  - exists (resp, None), O. split; [lia | reflexivity].
  - destruct (IsPersistenceTransientError err).
    + destruct (IH (mkWorld (contexts w) (trace w ++ [e])))
        as (r & k & Hk & E).
      exists r, (S k). split; [lia |]. rewrite E. cbn [contexts trace].
      now rewrite <- app_assoc.
    + exists (resp, Some err), O. split; [lia | reflexivity].
  - exists (resp, None), O. split; [lia | reflexivity].
Qed.

(** X4: for a batch with events, the appender chooses the store by the
    branch token and nothing else.  Without a branch token both appenders
    issue the flat append, keyed by the ID and the version of the first
    event; with one they issue the tree append on that branch, the first
    batch append marking it as a new branch with its cleanup info and the
    non-first append not.  Each makes between one and one more than the
    retry policy's number of attempts, all with that same request, touches
    no context, and returns a size that is an [int64]. *)
Theorem appender_selects_the_store_by_branch_token
  (workflowEvents : WorkflowEvents) (firstEvent : HistoryEvent)
  (rest : list HistoryEvent) (w : world) :
  evs_Events workflowEvents = firstEvent :: rest ->
  let domainID := evs_DomainID workflowEvents in
  let execution :=
    {| WorkflowId := evs_WorkflowID workflowEvents;
       RunId := evs_RunID workflowEvents |} in
  let flat :=
    AppendHistoryEventsCall
      {| ahe_DomainID := domainID;
         ahe_Execution := execution;
         ahe_FirstEventID := EventId firstEvent;
         ahe_EventBatchVersion := Version firstEvent;
         ahe_Events := firstEvent :: rest |} in
  let tree isNewBranch info :=
    AppendHistoryV2EventsCall
      {| ahn_IsNewBranch := isNewBranch;
         ahn_Info := info;
         ahn_BranchToken := evs_BranchToken workflowEvents;
         ahn_Events := firstEvent :: rest |} domainID execution in
  let chosen isNewBranch info :=
    match evs_BranchToken workflowEvents with
    | [] => flat
    | _ :: _ => tree isNewBranch info
    end in
  (exists size err k,
     (k <= persistenceOperationRetryPolicy)%nat
     /\ is_int64 size
     /\ persistFirstWorkflowEvents workflowEvents w
        = (Ok (size, err),
           mkWorld (contexts w)
             (trace w
              ++ repeat (chosen true
                           (BuildHistoryGarbageCleanupInfo domainID
                              (evs_WorkflowID workflowEvents)
                              (evs_RunID workflowEvents)))
                   (S k))))
  /\ (exists size err k,
       (k <= persistenceOperationRetryPolicy)%nat
       /\ is_int64 size
       /\ persistNonFirstWorkflowEvents workflowEvents w
          = (Ok (size, err),
             mkWorld (contexts w)
               (trace w ++ repeat (chosen false "") (S k)))).
Proof.
  intros Hevents domainID execution flat tree chosen.
  unfold persistFirstWorkflowEvents, persistNonFirstWorkflowEvents,
    appendHistoryEventsWithRetry, appendHistoryV2EventsWithRetry.
  rewrite Hevents. subst chosen flat tree. cbv beta.
  destruct (evs_BranchToken workflowEvents) as [| b token];
    cbn [length Nat.eqb]; split.
  - destruct (Retry_ask_bounded
                (fun n => AppendHistoryEvents n
                   {| ahe_DomainID := domainID;
                      ahe_Execution := execution;
                      ahe_FirstEventID := EventId firstEvent;
                      ahe_EventBatchVersion := Version firstEvent;
                      ahe_Events := firstEvent :: rest |})
                (AppendHistoryEventsCall
                   {| ahe_DomainID := domainID;
                      ahe_Execution := execution;
                      ahe_FirstEventID := EventId firstEvent;
                      ahe_EventBatchVersion := Version firstEvent;
                      ahe_Events := firstEvent :: rest |})
                persistenceOperationRetryPolicy w)
      as ([resp err] & k & Hk & E).
    exists (to_int64 resp), err, k. split; [exact Hk |].
    split; [apply to_int64_range |].
    subst domainID execution.
    now rewrite (bind_Ok _ _ _ _ _ (bind_Ok _ _ _ _ _ E)).
  - destruct (Retry_ask_bounded
                (fun n => AppendHistoryEvents n
                   {| ahe_DomainID := domainID;
                      ahe_Execution := execution;
                      ahe_FirstEventID := EventId firstEvent;
                      ahe_EventBatchVersion := Version firstEvent;
                      ahe_Events := firstEvent :: rest |})
                (AppendHistoryEventsCall
                   {| ahe_DomainID := domainID;
                      ahe_Execution := execution;
                      ahe_FirstEventID := EventId firstEvent;
                      ahe_EventBatchVersion := Version firstEvent;
                      ahe_Events := firstEvent :: rest |})
                persistenceOperationRetryPolicy w)
      as ([resp err] & k & Hk & E).
    exists (to_int64 resp), err, k. split; [exact Hk |].
    split; [apply to_int64_range |].
    subst domainID execution.
    now rewrite (bind_Ok _ _ _ _ _ (bind_Ok _ _ _ _ _ E)).
  - destruct (Retry_ask_bounded
                (fun n => AppendHistoryV2Events n
                   {| ahn_IsNewBranch := true;
                      ahn_Info :=
                        BuildHistoryGarbageCleanupInfo domainID
                          (evs_WorkflowID workflowEvents)
                          (evs_RunID workflowEvents);
                      ahn_BranchToken := b :: token;
                      ahn_Events := firstEvent :: rest |}
                   domainID execution)
                (AppendHistoryV2EventsCall
                   {| ahn_IsNewBranch := true;
                      ahn_Info :=
                        BuildHistoryGarbageCleanupInfo domainID
                          (evs_WorkflowID workflowEvents)
                          (evs_RunID workflowEvents);
                      ahn_BranchToken := b :: token;
                      ahn_Events := firstEvent :: rest |}
                   domainID execution)
                persistenceOperationRetryPolicy w)
      as ([resp err] & k & Hk & E).
    exists (to_int64 resp), err, k. split; [exact Hk |].
    split; [apply to_int64_range |].
    subst domainID execution.
    now rewrite (bind_Ok _ _ _ _ _ (bind_Ok _ _ _ _ _ E)).
  - destruct (Retry_ask_bounded
                (fun n => AppendHistoryV2Events n
                   {| ahn_IsNewBranch := false;
                      ahn_Info := "";
                      ahn_BranchToken := b :: token;
                      ahn_Events := firstEvent :: rest |}
                   domainID execution)
                (AppendHistoryV2EventsCall
                   {| ahn_IsNewBranch := false;
                      ahn_Info := "";
                      ahn_BranchToken := b :: token;
                      ahn_Events := firstEvent :: rest |}
                   domainID execution)
                persistenceOperationRetryPolicy w)
      as ([resp err] & k & Hk & E).
    exists (to_int64 resp), err, k. split; [exact Hk |].
    split; [apply to_int64_range |].
    subst domainID execution.
    now rewrite (bind_Ok _ _ _ _ _ (bind_Ok _ _ _ _ _ E)).
Qed.

(** What a retried call returns is the answer to its last attempt. *)
Lemma Retry_ask_last {A} (answer : nat -> A * option error) e n (w : world) :
  exists k,
    (k <= n)%nat
    /\ Retry (ask answer e) n w
       = (Ok (answer (length (trace w) + k)%nat),
          mkWorld (contexts w) (trace w ++ repeat e (S k))).
Proof.
  revert w. induction n as [| n IH]; intros w; cbn [Retry];
    unfold bind at 1; unfold ask at 1;
    destruct (answer (length (trace w))) as [resp [err |]] eqn:Hanswer.
  - exists O. rewrite Nat.add_0_r, Hanswer. split; [lia | reflexivity].
  - exists O. rewrite Nat.add_0_r, Hanswer. split; [lia | reflexivity].
  - destruct (IsPersistenceTransientError err).
    + destruct (IH (mkWorld (contexts w) (trace w ++ [e]))) as (k & Hk & E).
      exists (S k). split; [lia |]. rewrite E. cbn [contexts trace].
      rewrite length_app, <- app_assoc. cbn [length].
      now replace (length (trace w) + 1 + k)%nat
        with (length (trace w) + S k)%nat by lia.
    + exists O. rewrite Nat.add_0_r, Hanswer. split; [lia | reflexivity].
  - exists O. rewrite Nat.add_0_r, Hanswer. split; [lia | reflexivity].
Qed.

Lemma split_answer_cases {A} (r : A + error) :
  (exists a, split_answer r = (Some a, None))
  \/ exists e, split_answer r = (None, Some e).
Proof. destruct r; cbn; eauto. Qed.

(** X5: create submits, once or more under the retry policy, the snapshot
    stamped with the given history size, and never touches a context.  If
    storage accepts, the transfer, replication and timer tasks of the
    snapshot are handed to the engine, in this order; if storage refuses,
    the error is returned and nothing is handed over, and the error is
    logged unless it says that the workflow is already started. *)
Theorem create_notifies_once_storage_accepts (c : contextRef)
  (newWorkflow : WorkflowSnapshot) (historySize : Z) (now : time)
  (createMode : Z) (prevRunID : string) (prevLastWriteVersion : Z)
  (w : world) :
  let request :=
    {| cr_CreateWorkflowMode := createMode;
       cr_PreviousRunID := prevRunID;
       cr_PreviousLastWriteVersion := prevLastWriteVersion;
       cr_NewWorkflowSnapshot :=
         set_ws_ExecutionStats newWorkflow
           (Some {| HistorySize := historySize |}) |} in
  let run :=
    createWorkflowExecution c newWorkflow historySize now createMode
      prevRunID prevLastWriteVersion w in
  exists k,
    (k <= persistenceOperationRetryPolicy)%nat
    /\ let submitted :=
         (trace w ++ repeat (CreateWorkflowExecutionCall request) (S k))%list
       in
       run
       = (Ok tt,
          mkWorld (contexts w)
            (submitted
             ++ [NotifyNewTransferTasks (ws_TransferTasks newWorkflow);
                 NotifyNewReplicationTasks (ws_ReplicationTasks newWorkflow);
                 NotifyNewTimerTasks (ws_TimerTasks newWorkflow)]))
       \/ run
          = (Err WorkflowExecutionAlreadyStartedError,
             mkWorld (contexts w) submitted)
       \/ exists e,
            e <> WorkflowExecutionAlreadyStartedError
            /\ run
               = (Err e,
                  mkWorld (contexts w)
                    (submitted
                     ++ [LogError "Persistent store operation failure"
                           "CreateWorkflowExecution" e None])).
Proof.
  intros request run. subst run request.
  match goal with
  | |- context [CreateWorkflowExecutionCall ?r] =>
      destruct (Retry_ask_last
                  (fun n => split_answer (CreateWorkflowExecution n r))
                  (CreateWorkflowExecutionCall r)
                  persistenceOperationRetryPolicy w) as (k & Hk & E);
      destruct (split_answer_cases
                  (CreateWorkflowExecution (length (trace w) + k) r))
        as [(resp & Hanswer) | (e & Hanswer)]
  end;
    rewrite Hanswer in E; exists k; (split; [exact Hk |]); cbv zeta.
  - left.
    unfold createWorkflowExecution, createWorkflowExecutionWithRetry,
      notifyTasks, bind, call, ret.
    rewrite E. cbn [contexts trace]. now rewrite <- !app_assoc.
  - right.
    destruct e as [m | m | | | | | m];
      [right; exists (InternalServiceError m)
      | right; exists (BadRequestError m)
      | right; exists EntityNotExistsError
      | left
      | right; exists ConditionFailedError
      | right; exists ErrConflict
      | right; exists (OtherError m)];
      try (split; [discriminate |]);
      unfold createWorkflowExecution, createWorkflowExecutionWithRetry,
        bind, call, ret, fail;
      now rewrite E.
Qed.

(** X6: the storage update under the retry policy never hands a failed
    condition of storage to its caller: that error becomes the conflict
    sentinel, without a log entry.  Every other error is returned as it is
    after one log entry that carries the update condition of the context,
    and a success returns the response of storage; in each case the update
    was submitted between one and one more than the policy's number of
    times, always with the same request, and no context was touched. *)
Theorem storage_update_turns_failed_condition_into_conflict
  (c : contextRef) (request : UpdateWorkflowExecutionRequest) (w : world)
  (x : context) :
  contexts w !! c = Some x ->
  let run := updateWorkflowExecutionWithRetry c request w in
  (forall resp, fst run <> Ok (resp, Some ConditionFailedError))
  /\ exists k,
       (k <= persistenceOperationRetryPolicy)%nat
       /\ let submitted :=
            (trace w
             ++ repeat (UpdateWorkflowExecutionCall request) (S k))%list in
          let answer :=
            UpdateWorkflowExecution (length (trace w) + k) request in
          match answer with
          | inl resp =>
              run = (Ok (Some resp, None), mkWorld (contexts w) submitted)
          | inr ConditionFailedError =>
              run
              = (Ok (None, Some ErrConflict), mkWorld (contexts w) submitted)
          | inr e =>
              run
              = (Ok (None, Some e),
                 mkWorld (contexts w)
                   (submitted
                    ++ [LogError "Persistent store operation failure"
                          "UpdateWorkflowExecution" e
                          (Some (updateCondition x))]))
          end.
Proof.
  intros Hc run.
  destruct (Retry_ask_last
              (fun n => split_answer (UpdateWorkflowExecution n request))
              (UpdateWorkflowExecutionCall request)
              persistenceOperationRetryPolicy w) as (k & Hk & E).
  assert (Hrun : let submitted :=
            (trace w
             ++ repeat (UpdateWorkflowExecutionCall request) (S k))%list in
          match UpdateWorkflowExecution (length (trace w) + k) request with
          | inl resp =>
              run = (Ok (Some resp, None), mkWorld (contexts w) submitted)
          | inr ConditionFailedError =>
              run
              = (Ok (None, Some ErrConflict), mkWorld (contexts w) submitted)
          | inr e =>
              run
              = (Ok (None, Some e),
                 mkWorld (contexts w)
                   (submitted
                    ++ [LogError "Persistent store operation failure"
                          "UpdateWorkflowExecution" e
                          (Some (updateCondition x))]))
          end).
  { subst run. unfold updateWorkflowExecutionWithRetry.
    rewrite (bind_Ok _ _ _ _ _ E). cbv zeta.
    destruct (UpdateWorkflowExecution (length (trace w) + k) request)
      as [resp | e]; cbn [split_answer]; [reflexivity |].
    destruct e; try reflexivity;
      unfold bind, deref, call, ret; cbn [contexts trace];
      now rewrite Hc. }
  split; [| exists k; split; [exact Hk | exact Hrun]].
  intros resp. cbv zeta in Hrun.
  destruct (UpdateWorkflowExecution (length (trace w) + k) request)
    as [resp' | e]; [rewrite Hrun; discriminate |].
  destruct e; rewrite Hrun; discriminate.
Qed.

End StorageCalls.

(** ** Conflict resolution and the first load *)

Section ResolveAndLoad.

Context {MS : Type} `{!MutableState MS} `{!ShardContext} `{!Declarations}.

Local Abbreviation world := (World MS).
Local Abbreviation context := (workflowExecutionContextImpl MS).

(** X7: conflict resolution whose replacement closes without event batches
    submits the snapshot, stamped with the given history size and with the
    identifiers of the previous run, to storage exactly once; the call is
    not under the retry policy.  An error of storage, transient or not, is
    returned after that one call with nothing notified and no context
    touched.  When storage accepts, the tasks of the snapshot are handed to
    the engine, the context is cleared and the result is that of a load on
    the cleared context, which starts with a fetch from storage: the
    mutable state that was cached before is never what is returned. *)
Theorem conflict_resolve_submits_once_and_reloads (c : contextRef)
  (now : time) (prevRunID : string) (prevLastWriteVersion prevState : Z)
  (resetMutableState : MS) (resetHistorySize : Z) (w : world)
  (resetWorkflow : WorkflowSnapshot) :
  snd (CloseTransactionAsSnapshot resetMutableState now
         transactionPolicyPassive) = inl (resetWorkflow, []) ->
  let request :=
    {| PrevRunID := prevRunID;
       PrevLastWriteVersion := prevLastWriteVersion;
       PrevState := prevState;
       ResetWorkflowSnapshot :=
         set_ws_ExecutionStats resetWorkflow
           (Some {| HistorySize := resetHistorySize |}) |} in
  let submitted := ConflictResolveWorkflowExecutionCall request in
  let run :=
    conflictResolveWorkflowExecution c now prevRunID prevLastWriteVersion
      prevState resetMutableState resetHistorySize w in
  match ConflictResolveWorkflowExecution (length (trace w)) request with
  | Some e => run = (Err e, mkWorld (contexts w) (trace w ++ [submitted]))
  | None =>
      forall x,
        contexts w !! c = Some x ->
        let w1 :=
          mkWorld (<[c := set_stats (set_msBuilder x None) None]> (contexts w))
            (trace w
             ++ [submitted;
                 NotifyNewTransferTasks (ws_TransferTasks resetWorkflow);
                 NotifyNewReplicationTasks
                   (ws_ReplicationTasks resetWorkflow);
                 NotifyNewTimerTasks (ws_TimerTasks resetWorkflow);
                 IncCounterWorkflowContextCleared]) in
        run = loadWorkflowExecution c w1
        /\ exists fetch tr,
             trace (snd run)
             = (trace w1 ++ GetWorkflowExecutionCall fetch :: tr)%list
  end.
Proof.
  intros Hclose request submitted run.
  assert (Hrun : run
    = bind (ask (fun n => ConflictResolveWorkflowExecution n request)
              submitted)
        (fun err =>
           match err with
           | Some e => fail e
           | None =>
               notifyTasks (ws_TransferTasks resetWorkflow)
                 (ws_ReplicationTasks resetWorkflow)
                 (ws_TimerTasks resetWorkflow) ;;;
               clear c ;;;
               loadWorkflowExecution c
           end) w).
  { subst run. unfold conflictResolveWorkflowExecution. rewrite Hclose.
    reflexivity. }
  destruct (ConflictResolveWorkflowExecution (length (trace w)) request)
    as [e |] eqn:Hanswer.
  - rewrite Hrun. unfold bind, ask. now rewrite Hanswer.
  - intros x Hc w1.
    assert (Hload : run = loadWorkflowExecution c w1).
    { rewrite Hrun. unfold bind at 1. unfold ask at 1. rewrite Hanswer.
      unfold notifyTasks, clear, bind, call, deref, store.
      cbn [contexts trace]. rewrite Hc. cbn [contexts trace].
      unfold w1. now rewrite <- !app_assoc. }
    split; [exact Hload |]. rewrite Hload.
    destruct (loadWorkflowExecution c w1) as [r w'] eqn:E.
    eapply load_after_clear_fetches; [| exact E].
    unfold cleared, w1. cbn [contexts]. now rewrite lookup_insert_eq.
Qed.

(** X8: a load on a context without cached mutable state fetches it under
    the retry policy, at least once and at most once more than the policy
    allows retries, always with the domain ID and the execution of the
    context.  An error of the last attempt is returned with every context
    as it was; it is logged unless it says that the execution does not
    exist.  A response is installed as it is: the cached builder is a new
    builder loaded with the state of the response, the cached stats are
    the stats of that state and the update condition is its next event ID;
    what follows the fetch makes no storage call, and the load goes on
    unless the state carries no stats, which ends in a nil dereference
    with the state already installed. *)
Theorem first_load_installs_what_storage_returns (c : contextRef)
  (w : world) (x : context) :
  contexts w !! c = Some x ->
  msBuilder x = None ->
  let request :=
    {| get_DomainID := domainID x; get_Execution := workflowExecution x |} in
  let run := loadWorkflowExecutionInternal c w in
  exists k,
    (k <= persistenceOperationRetryPolicy)%nat
    /\ let fetched :=
         (trace w ++ repeat (GetWorkflowExecutionCall request) (S k))%list in
       match GetWorkflowExecution (length (trace w) + k) request with
       | inr e =>
           run
           = (Err e,
              mkWorld (contexts w)
                (fetched
                 ++ match e with
                    | EntityNotExistsError => []
                    | _ =>
                        [LogError "Persistent fetch operation failure"
                           "GetWorkflowExecution" e None]
                    end))
       | inl response =>
           exists name tr,
             snd run
             = mkWorld
                 (<[c := mkContext (domainID x) (workflowExecution x)
                           (Some (Load (newMutableStateBuilder name)
                                    (State response)))
                           (st_ExecutionStats (State response))
                           (ei_NextEventID
                              (st_ExecutionInfo (State response)))]>
                    (contexts w))
                 (fetched ++ tr)
             /\ Forall notStorage tr
             /\ fst run
                = match st_ExecutionStats (State response) with
                  | Some _ => Ok tt
                  | None => Panicked NilPointerDereference
                  end
       end.
Proof.
  intros Hc Hms request run.
  destruct (Retry_ask_last
              (fun n => split_answer (GetWorkflowExecution n request))
              (GetWorkflowExecutionCall request)
              persistenceOperationRetryPolicy w) as (k & Hk & E).
  exists k. split; [exact Hk |]. cbv zeta.
  assert (Hrun : run
    = bind (getWorkflowExecutionWithRetry request)
        (fun '(response, err) =>
           match err, response with
           | Some e, _ => fail e
           | None, None => throw NilPointerDereference
           | None, Some response =>
               domainName <- getDomainName c ;;
               let builder := Load (newMutableStateBuilder domainName)
                                   (State response) in
               x <- deref c ;;
               store c (mkContext (domainID x) (workflowExecution x)
                          (Some builder)
                          (st_ExecutionStats (State response))
                          (ei_NextEventID (st_ExecutionInfo (State response)))) ;;;
               domainName <- getDomainName c ;;
               historySize <- getHistorySize c ;;
               call (EmitWorkflowExecutionStats domainName
                       (MutableStateStats response) historySize)
           end) w).
  { subst run. unfold loadWorkflowExecutionInternal.
    rewrite (bind_Ok _ _ _ _ _ (deref_lookup _ _ _ Hc)). now rewrite Hms. }
  unfold getWorkflowExecutionWithRetry in Hrun.
  unfold bind at 1 2 in Hrun. rewrite E in Hrun.
  destruct (GetWorkflowExecution (length (trace w) + k) request)
    as [response | e]; cbn [split_answer] in Hrun.
  - set (w0 := mkWorld (contexts w) _) in Hrun.
    assert (Hc0 : contexts w0 !! c = Some x) by exact Hc.
    destruct (getDomainName_Ok c w0 x Hc0) as (name & Hname).
    unfold ret at 1 in Hrun. cbv beta iota in Hrun.
    rewrite (bind_Ok _ _ _ _ _ Hname) in Hrun.
    set (w2 := mkWorld (contexts w0) _) in *.
    assert (Hc2 : contexts w2 !! c = Some x) by exact Hc.
    cbv zeta in Hrun.
    rewrite (bind_Ok _ _ _ _ _ (deref_lookup _ _ _ Hc2)) in Hrun.
    unfold store at 1 in Hrun. unfold bind at 1 in Hrun.
    set (installed := mkContext _ _ _ _ _) in Hrun.
    set (w3 := mkWorld (<[c := installed]> _) _) in Hrun.
    assert (Hc3 : contexts w3 !! c = Some installed)
      by (unfold w3; cbn [contexts]; apply lookup_insert_eq).
    destruct (getDomainName_Ok c w3 installed Hc3) as (name2 & Hname2).
    rewrite (bind_Ok _ _ _ _ _ Hname2) in Hrun.
    set (w4 := mkWorld (contexts w3) _) in *.
    assert (Hc4 : contexts w4 !! c = Some installed) by exact Hc3.
    unfold getHistorySize, bind, deref in Hrun. rewrite Hc4 in Hrun.
    unfold installed at 1 in Hrun. cbn [stats] in Hrun.
    destruct (st_ExecutionStats (State response)) as [st |] eqn:Hst.
    + exists name,
        [GetDomainByIDCall (domainID x);
         GetDomainByIDCall (domainID installed);
         EmitWorkflowExecutionStats name2 (MutableStateStats response)
           (HistorySize st)].
      unfold ret, call in Hrun. rewrite Hrun. cbn [fst snd contexts trace].
      split; [| split; [| reflexivity]].
      * unfold w4, w3, w2, w0, installed. cbn [contexts trace].
        now rewrite <- !app_assoc.
      * now repeat constructor.
    + exists name,
        [GetDomainByIDCall (domainID x);
         GetDomainByIDCall (domainID installed)].
      unfold throw in Hrun. rewrite Hrun. cbn [fst snd contexts trace].
      split; [| split; [| reflexivity]].
      * unfold w4, w3, w2, w0, installed. cbn [contexts trace].
        now rewrite <- !app_assoc.
      * now repeat constructor.
  - rewrite Hrun.
    destruct e; unfold bind, call, ret, fail; cbn [contexts trace];
      rewrite ?app_nil_r; reflexivity.
Qed.

End ResolveAndLoad.

(** ** The cached history size *)

Section HistorySize.

Context {MS : Type} `{!MutableState MS} `{!ShardContext} `{!Declarations}.

Local Abbreviation world := (World MS).
Local Abbreviation context := (workflowExecutionContextImpl MS).

(** X9: the history size lives in the cached stats.  While the context has
    stats, a size that is set is the size that is read back, the last of
    two sizes set wins, and neither the cached builder nor the update
    condition nor the trace is touched.  [clear] drops the stats together
    with the builder: after it, reading and setting the size both end in a
    nil dereference. *)
Theorem history_size_is_read_back_until_cleared (c : contextRef)
  (w : world) (x : context) (s : ExecutionStats) (size size' : Z) :
  contexts w !! c = Some x ->
  stats x = Some s ->
  let sized n :=
    mkWorld
      (<[c := mkContext (domainID x) (workflowExecution x) (msBuilder x)
                (Some {| HistorySize := n |}) (updateCondition x)]>
         (contexts w))
      (trace w) in
  let dropped :=
    mkWorld
      (<[c := mkContext (domainID x) (workflowExecution x) None None
                (updateCondition x)]>
         (contexts w))
      (trace w ++ [IncCounterWorkflowContextCleared]) in
  getHistorySize c w = (Ok (HistorySize s), w)
  /\ (setHistorySize c size ;;; getHistorySize c) w = (Ok size, sized size)
  /\ (setHistorySize c size' ;;; setHistorySize c size) w
     = (Ok tt, sized size)
  /\ (clear c ;;; getHistorySize c) w
     = (Panicked NilPointerDereference, dropped)
  /\ (clear c ;;; setHistorySize c size) w
     = (Panicked NilPointerDereference, dropped).
Proof.
  intros Hc Hs sized dropped.
  unfold getHistorySize, setHistorySize, clear, bind, deref, store, call,
    ret, throw, set_stats, set_msBuilder.
  rewrite !Hc, !Hs. cbn [contexts trace stats].
  rewrite !lookup_insert_eq. cbn [stats].
  rewrite ?lookup_insert_eq. cbn [stats domainID workflowExecution msBuilder
    updateCondition].
  unfold sized, dropped.
  repeat split; cbn [contexts trace]; rewrite ?insert_insert_eq;
    reflexivity.
Qed.

End HistorySize.

(** ** Steps that neither notify the engine nor reset storage *)

Section Silent.

Context {MS : Type} `{!MutableState MS} `{!ShardContext} `{!Declarations}.

Local Abbreviation world := (World MS).
Local Abbreviation context := (workflowExecutionContextImpl MS).

(** An order on worlds that every call respects which is neither a
    notification nor the storage reset, and that the two setters of the
    context respect. *)
Context (F : world -> world -> Prop) `{!WorldOrder F}.
Context (F_call : forall e,
  isNotification e = false -> isReset e = false -> keeps F (call e)).
Context (F_ask : forall A (answer : nat -> A) e,
  isNotification e = false -> isReset e = false -> keeps F (ask answer e)).
Context (F_put : forall c ms, keeps F (put_msBuilder c ms)).
Context (F_size : forall c size, keeps F (setHistorySize c size)).

#[local] Hint Extern 1 (keeps F (call _)) =>
  apply F_call; reflexivity : keeps.

#[local] Hint Extern 1 (keeps F (ask _ _)) =>
  apply F_ask; reflexivity : keeps.

#[local] Hint Resolve F_put F_size : keeps.

Lemma the_msBuilder_silent c : keeps F (the_msBuilder c).
Proof. unfold the_msBuilder. keeps_tac. Qed.

Lemma getHistorySize_silent c : keeps F (getHistorySize c).
Proof. unfold getHistorySize. keeps_tac. Qed.

Lemma appendHistoryEventsWithRetry_silent request :
  keeps F (appendHistoryEventsWithRetry request).
Proof. unfold appendHistoryEventsWithRetry. keeps_tac. Qed.

Lemma appendHistoryV2EventsWithRetry_silent d e request :
  keeps F (appendHistoryV2EventsWithRetry d e request).
Proof. unfold appendHistoryV2EventsWithRetry. keeps_tac. Qed.

Lemma updateWorkflowExecutionWithRetry_silent c request :
  keeps F (updateWorkflowExecutionWithRetry c request).
Proof. unfold updateWorkflowExecutionWithRetry. keeps_tac. Qed.

#[local] Hint Resolve the_msBuilder_silent getHistorySize_silent
  appendHistoryEventsWithRetry_silent appendHistoryV2EventsWithRetry_silent
  : keeps.

Lemma persistFirstWorkflowEvents_silent workflowEvents :
  keeps F (persistFirstWorkflowEvents workflowEvents).
Proof. unfold persistFirstWorkflowEvents. keeps_tac. Qed.

Lemma persistNonFirstWorkflowEvents_silent workflowEvents :
  keeps F (persistNonFirstWorkflowEvents workflowEvents).
Proof. unfold persistNonFirstWorkflowEvents. keeps_tac. Qed.

#[local] Hint Resolve persistFirstWorkflowEvents_silent
  persistNonFirstWorkflowEvents_silent : keeps.

Lemma persistNonFirstWorkflowEventsSeq_silent workflowEventsSeq size :
  keeps F (persistNonFirstWorkflowEventsSeq workflowEventsSeq size).
Proof.
  revert size. induction workflowEventsSeq as [| workflowEvents rest IH];
    intros size; cbn [persistNonFirstWorkflowEventsSeq]; keeps_tac.
Qed.

#[local] Hint Resolve persistNonFirstWorkflowEventsSeq_silent : keeps.

Lemma updateWorkflowExecutionWithNew_current_silent c now policy :
  keeps F (updateWorkflowExecutionWithNew_current c now policy).
Proof. unfold updateWorkflowExecutionWithNew_current. keeps_tac. Qed.

Lemma updateWorkflowExecutionWithNew_new_silent c now newMutableState
  policy :
  keeps F (updateWorkflowExecutionWithNew_new c now newMutableState policy).
Proof. unfold updateWorkflowExecutionWithNew_new. keeps_tac. Qed.

End Silent.

(** ** An update that fails *)

Section QuietFailure.

Context {MS : Type} `{!MutableState MS} `{!ShardContext} `{!Declarations}.

Local Abbreviation world := (World MS).
Local Abbreviation context := (workflowExecutionContextImpl MS).

#[local] Instance quiet_order : WorldOrder (@quiet MS).
Proof.
  split.
  - intros w. split; [apply order_refl | intros n; reflexivity].
  - intros w1 w2 w3 [G1 C1] [G2 C2]. split.
    + eapply order_trans; eassumption.
    + intros n. unfold sameCondition in *. now rewrite C2.
Qed.

Lemma call_quiet e : isNotification e = false -> keeps (@quiet MS) (call e).
Proof.
  intros He w r w' E. injection E as <- <-. split.
  - exists [e]. split; [reflexivity | now constructor].
  - intros n. reflexivity.
Qed.

Lemma ask_quiet {A} (answer : nat -> A) e :
  isNotification e = false -> keeps (@quiet MS) (ask answer e).
Proof.
  intros He w r w' E. injection E as <- <-. split.
  - exists [e]. split; [reflexivity | now constructor].
  - intros n. reflexivity.
Qed.

(** Overwriting a context by one with the same update condition. *)
Lemma overwrite_quiet c (x x' : context) (w : world) tr :
  contexts w !! c = Some x ->
  updateCondition x' = updateCondition x ->
  Forall notNotification tr ->
  quiet w (mkWorld (<[c := x']> (contexts w)) (trace w ++ tr)).
Proof.
  intros Hc Hx Htr. split.
  - now exists tr.
  - intros n. unfold sameCondition. cbn [contexts].
    destruct (decide (n = c)) as [-> | Hn].
    + unfold contextRef in *. rewrite lookup_insert_eq, Hc. cbn.
      now rewrite Hx.
    + now rewrite lookup_insert_ne.
Qed.

Lemma put_msBuilder_quiet c ms : keeps (@quiet MS) (put_msBuilder c ms).
Proof.
  intros w r w'. unfold put_msBuilder, bind, deref, store.
  destruct (contexts w !! c) as [x |] eqn:Hc; intros E;
    injection E as <- <-; [| apply order_refl].
  rewrite <- (app_nil_r (trace w)).
  now apply (overwrite_quiet c x).
Qed.

Lemma setHistorySize_quiet c size :
  keeps (@quiet MS) (setHistorySize c size).
Proof.
  intros w r w'. unfold setHistorySize, bind, deref, store, throw.
  destruct (contexts w !! c) as [x |] eqn:Hc;
    [destruct (stats x) |]; intros E; injection E as <- <-;
    try apply order_refl.
  rewrite <- (app_nil_r (trace w)).
  now apply (overwrite_quiet c x).
Qed.

Lemma clear_quiet c : keeps (@quiet MS) (clear c).
Proof.
  intros w r w'. unfold clear, bind, deref, store, call.
  destruct (contexts w !! c) as [x |] eqn:Hc; intros E;
    injection E as <- <-; [| apply order_refl].
  cbn [contexts trace]. apply (overwrite_quiet c x); auto.
  now repeat constructor.
Qed.

(** *** Nothing after the storage update returns an error *)

Lemma ne_ret {A} (a : A) : neverErrs (@ret MS A a).
Proof. intros w e w'. discriminate. Qed.

Lemma ne_throw {A} p : neverErrs (@throw MS A p).
Proof. intros w e w'. discriminate. Qed.

Lemma ne_call e : neverErrs (@call MS e).
Proof. intros w e' w'. discriminate. Qed.

Lemma ne_ask {A} (answer : nat -> A) e : neverErrs (@ask MS A answer e).
Proof. intros w e' w'. discriminate. Qed.

Lemma ne_store c (x : context) : neverErrs (store c x).
Proof. intros w e w'. discriminate. Qed.

Lemma ne_deref c : neverErrs (@deref MS c).
Proof.
  intros w e w'. unfold deref. destruct (contexts w !! c); discriminate.
Qed.

Lemma ne_bind {A B} (m : M MS A) (k : A -> M MS B) :
  neverErrs m -> (forall a, neverErrs (k a)) -> neverErrs (bind m k).
Proof.
  intros Hm Hk w e w' E. apply bind_inv in E as (r1 & w1 & E1 & E).
  destruct r1 as [a | e1 | p].
  - eapply Hk, E.
  - eapply Hm, E1.
  - now destruct E.
Qed.

Lemma updateWorkflowExecutionWithNew_notify_neverErrs c currentWorkflow
  newWorkflow resp :
  neverErrs
    (updateWorkflowExecutionWithNew_notify c currentWorkflow newWorkflow
       resp).
Proof.
  unfold updateWorkflowExecutionWithNew_notify, notifyTasks, the_msBuilder,
    getDomainName, getHistorySize.
  repeat
    lazymatch goal with
    | |- neverErrs (bind _ _) => apply ne_bind; [| intros ?]
    | |- neverErrs (match ?t with _ => _ end) => destruct t
    | |- neverErrs _ =>
        solve [auto using ne_ret, ne_throw, ne_call, ne_ask, ne_store,
                 ne_deref]
    end.
Qed.

Lemma commit_Err_quiet c currentWorkflow newWorkflow (w : world) e w' :
  updateWorkflowExecutionWithNew_commit c currentWorkflow newWorkflow w
  = (Err e, w') ->
  quiet w w'.
Proof.
  unfold updateWorkflowExecutionWithNew_commit.
  destruct (mergeContinueAsNewReplicationTasks currentWorkflow newWorkflow)
    as [[[[] | e0 | p] merged] newWorkflow']; intros E.
  - apply bind_inv in E as (r1 & w1 & E1 & E).
    assert (Hsilent : keeps (@quiet MS)
                        (updateWorkflowExecutionWithRetry c
                           {| UpdateWorkflowMutation := merged;
                              NewWorkflowSnapshot := newWorkflow' |})).
    { apply updateWorkflowExecutionWithRetry_silent;
        auto using call_quiet, ask_quiet with typeclass_instances. }
    apply Hsilent in E1.
    destruct r1 as [[resp [err |]] | e1 | p].
    + now injection E as _ <-.
    + now apply updateWorkflowExecutionWithNew_notify_neverErrs in E.
    + now destruct E as [_ ->].
    + now destruct E as [_ ->].
  - injection E as _ <-. apply order_refl.
  - discriminate.
Qed.

(** X10: an update that returns an error has notified nobody.  Whichever
    step failed (closing a transaction, appending a batch, the merge of the
    replication tasks or the storage update), the calls made since the
    start include no notification of a history event or of tasks, and the
    update condition of every context is the one it had, also after the
    deferred [clear]. *)
Theorem failed_update_notifies_nobody (c : contextRef) (now : time)
  (newContext : option contextRef) (newMutableState : option MS)
  (currentWorkflowTransactionPolicy : transactionPolicy)
  (newWorkflowTransactionPolicy : option transactionPolicy)
  (w : world) (e : error) (w' : world) :
  updateWorkflowExecutionWithNew c now newContext newMutableState
    currentWorkflowTransactionPolicy newWorkflowTransactionPolicy w
  = (Err e, w') ->
  (exists tr,
     trace w' = (trace w ++ tr)%list
     /\ Forall (fun call => isNotification call = false) tr)
  /\ forall n,
       updateCondition <$> contexts w' !! n
       = updateCondition <$> contexts w !! n.
Proof.
  intros E. change (quiet w w').
  pose proof (fun e He (_ : isReset e = false) => call_quiet e He) as Qcall.
  pose proof (fun A (answer : nat -> A) e He (_ : isReset e = false) =>
                ask_quiet answer e He) as Qask.
  assert (Hfailed : forall A (cleanup : contextRef) (body : M MS A) w0 e0 w1,
            (forall e1 w2, body w0 = (Err e1, w2) -> quiet w0 w2) ->
            deferOnError (clear cleanup) body w0 = (Err e0, w1) ->
            quiet w0 w1).
  { intros A cleanup body w0 e0 w1 Hbody D.
    apply deferOnError_inv in D as (r0 & w2 & D0 & Hd).
    destruct Hd as [(-> & -> & Hne) | (e1 & rc & -> & Hclean & _)].
    - now destruct (Hne e0).
    - eapply order_trans; [eapply Hbody, D0 | eapply clear_quiet, Hclean]. }
  apply Hfailed in E; [exact E |]. clear E. intros e1 w2 E.
  apply bind_inv in E as (r1 & w1 & E1 & E).
  assert (Hcurrent : keeps (@quiet MS)
                       (updateWorkflowExecutionWithNew_current c now
                          currentWorkflowTransactionPolicy)).
  { apply updateWorkflowExecutionWithNew_current_silent;
      auto using put_msBuilder_quiet, setHistorySize_quiet
        with typeclass_instances. }
  apply Hcurrent in E1.
  destruct r1 as [currentWorkflow | e2 | p];
    [| now destruct E as [_ ->] | now destruct E].
  eapply order_trans; [exact E1 |].
  destruct newContext as [newContext |];
    [destruct newMutableState as [newMutableState |];
     [destruct newWorkflowTransactionPolicy as [policy |] |] |];
    try (eapply commit_Err_quiet; exact E).
  apply deferOnErrorWithin_returns in E; [| discriminate].
  apply Hfailed in E; [exact E |]. clear E. intros e3 w3 E.
  apply bind_inv in E as (r2 & w4 & E2 & E).
  assert (Hnew : keeps (@quiet MS)
                   (updateWorkflowExecutionWithNew_new newContext now
                      newMutableState policy)).
  { apply updateWorkflowExecutionWithNew_new_silent;
      auto using put_msBuilder_quiet, setHistorySize_quiet
        with typeclass_instances. }
  apply Hnew in E2.
  destruct r2 as [newWorkflow | e4 | p];
    [| now destruct E as [_ ->] | now destruct E].
  eapply order_trans; [exact E2 | eapply commit_Err_quiet; exact E].
Qed.

End QuietFailure.

(** ** Reset *)

Section ResetFrame.

Context {MS : Type} `{!MutableState MS} `{!ShardContext} `{!Declarations}.

Local Abbreviation world := (World MS).
Local Abbreviation context := (workflowExecutionContextImpl MS).

#[local] Instance onlyStatsOf_order c : WorldOrder (@onlyStatsOf MS c).
Proof.
  split.
  - intros w n. repeat split.
  - intros w1 w2 w3 H1 H2 n.
    destruct (H1 n) as (B1 & C1 & F1), (H2 n) as (B2 & C2 & F2).
    unfold sameBuilder, sameCondition in *.
    split; [congruence | split; [congruence |]].
    intros Hn. rewrite F2, F1; auto.
Qed.

#[local] Instance neverClears_order c : WorldOrder (@neverClears MS c).
Proof.
  split.
  - intros w n. repeat split. auto.
  - intros w1 w2 w3 H1 H2 n.
    destruct (H1 n) as (C1 & F1 & K1), (H2 n) as (C2 & F2 & K2).
    unfold sameCondition in *.
    split; [congruence | split; [| auto]].
    intros Hn. rewrite F2, F1; auto.
Qed.

Lemma call_onlyStatsOf c e : keeps (@onlyStatsOf MS c) (call e).
Proof. intros w r w' E. injection E as <- <-. intros n. repeat split. Qed.

Lemma ask_onlyStatsOf {A} c (answer : nat -> A) e :
  keeps (@onlyStatsOf MS c) (ask answer e).
Proof. intros w r w' E. injection E as <- <-. intros n. repeat split. Qed.

Lemma call_neverClears c e : keeps (@neverClears MS c) (call e).
Proof.
  intros w r w' E. injection E as <- <-. intros n.
  split; [reflexivity |]. split; [reflexivity | exact id].
Qed.

Lemma ask_neverClears {A} c (answer : nat -> A) e :
  keeps (@neverClears MS c) (ask answer e).
Proof.
  intros w r w' E. injection E as <- <-. intros n.
  split; [reflexivity |]. split; [reflexivity | exact id].
Qed.

Lemma setHistorySize_onlyStatsOf c size :
  keeps (@onlyStatsOf MS c) (setHistorySize c size).
Proof.
  intros w r w'. unfold setHistorySize, bind, deref, store, throw.
  destruct (contexts w !! c) as [x |] eqn:Hc;
    [destruct (stats x) |]; intros E; injection E as <- <-;
    try apply order_refl.
  intros n. unfold sameBuilder, sameCondition. cbn [contexts].
  unfold contextRef in *.
  destruct (decide (n = c)) as [-> | Hn].
  - rewrite lookup_insert_eq, Hc. now repeat split.
  - rewrite lookup_insert_ne by congruence. now repeat split.
Qed.

(** Writing something to the stats or to the cached mutable state of [c]
    clears nothing. *)
Lemma overwrite_neverClears c (x x' : context) (w : world) :
  contexts w !! c = Some x ->
  updateCondition x' = updateCondition x ->
  (forall ms, msBuilder x = Some ms -> exists ms', msBuilder x' = Some ms') ->
  neverClears c w (mkWorld (<[c := x']> (contexts w)) (trace w)).
Proof.
  intros Hc Hcondition Hbuilder n. unfold sameCondition, cached.
  cbn [contexts]. unfold contextRef in *.
  destruct (decide (n = c)) as [-> | Hn].
  - rewrite lookup_insert_eq, Hc. cbn. rewrite Hcondition.
    split; [reflexivity |]. split; [congruence |].
    intros (x0 & ms & Hx0 & Hms). injection Hx0 as <-.
    destruct (Hbuilder _ Hms) as (ms' & Hms'). now exists x', ms'.
  - rewrite lookup_insert_ne by congruence. now repeat split.
Qed.

Lemma setHistorySize_neverClears c size :
  keeps (@neverClears MS c) (setHistorySize c size).
Proof.
  intros w r w'. unfold setHistorySize, bind, deref, store, throw.
  destruct (contexts w !! c) as [x |] eqn:Hc;
    [destruct (stats x) |]; intros E; injection E as <- <-;
    try apply order_refl.
  apply (overwrite_neverClears c x); [exact Hc | reflexivity |].
  intros ms Hms. now exists ms.
Qed.

Lemma put_msBuilder_neverClears c ms :
  keeps (@neverClears MS c) (put_msBuilder c ms).
Proof.
  intros w r w'. unfold put_msBuilder, bind, deref, store.
  destruct (contexts w !! c) as [x |] eqn:Hc; intros E;
    injection E as <- <-; [| apply order_refl].
  apply (overwrite_neverClears c x); [exact Hc | reflexivity |].
  intros ms0 _. now exists ms.
Qed.

Lemma resetWorkflowExecution_neverClears c currMutableState currCached
  updateCurr closeTask cleanupTask newMutableState newHistorySize
  newTransferTasks newTimerTasks currReplicationTasks newReplicationTasks
  baseRunID baseRunNextEventID :
  keeps (@neverClears MS c)
    (resetWorkflowExecution c currMutableState currCached updateCurr
       closeTask cleanupTask newMutableState newHistorySize newTransferTasks
       newTimerTasks currReplicationTasks newReplicationTasks baseRunID
       baseRunNextEventID).
Proof.
  pose proof (fun e (_ : isNotification e = false) (_ : isReset e = false) =>
                call_neverClears c e) as Fcall.
  pose proof (fun A (answer : nat -> A) e (_ : isNotification e = false)
                (_ : isReset e = false) =>
                ask_neverClears c answer e) as Fask.
  pose proof (getHistorySize_silent (@neverClears MS c)) as Hsize.
  assert (Hone : forall workflowEvents,
            keeps (@neverClears MS c)
              (persistNonFirstWorkflowEvents workflowEvents))
    by (intros; apply persistNonFirstWorkflowEvents_silent;
        auto with typeclass_instances).
  assert (Hseq : forall workflowEventsSeq size,
            keeps (@neverClears MS c)
              (persistNonFirstWorkflowEventsSeq workflowEventsSeq size))
    by (intros; apply persistNonFirstWorkflowEventsSeq_silent;
        auto with typeclass_instances).
  pose proof (setHistorySize_neverClears c) as Hset.
  pose proof (put_msBuilder_neverClears c) as Hput.
  pose proof (call_neverClears c) as Hcall.
  pose proof (fun A => @ask_neverClears A c) as Hask.
  unfold resetWorkflowExecution, notifyTasks. keeps_tac.
Qed.

Lemma resetWorkflowExecution_onlyStatsOf c currMutableState updateCurr
  closeTask cleanupTask newMutableState newHistorySize newTransferTasks
  newTimerTasks currReplicationTasks newReplicationTasks baseRunID
  baseRunNextEventID :
  keeps (@onlyStatsOf MS c)
    (resetWorkflowExecution c currMutableState false updateCurr closeTask
       cleanupTask newMutableState newHistorySize newTransferTasks
       newTimerTasks currReplicationTasks newReplicationTasks baseRunID
       baseRunNextEventID).
Proof.
  pose proof (fun e (_ : isNotification e = false) (_ : isReset e = false) =>
                call_onlyStatsOf c e) as Fcall.
  pose proof (fun A (answer : nat -> A) e (_ : isNotification e = false)
                (_ : isReset e = false) =>
                ask_onlyStatsOf c answer e) as Fask.
  pose proof (getHistorySize_silent (@onlyStatsOf MS c)) as Hsize.
  assert (Hone : forall workflowEvents,
            keeps (@onlyStatsOf MS c)
              (persistNonFirstWorkflowEvents workflowEvents))
    by (intros; apply persistNonFirstWorkflowEvents_silent;
        auto with typeclass_instances).
  assert (Hseq : forall workflowEventsSeq size,
            keeps (@onlyStatsOf MS c)
              (persistNonFirstWorkflowEventsSeq workflowEventsSeq size))
    by (intros; apply persistNonFirstWorkflowEventsSeq_silent;
        auto with typeclass_instances).
  pose proof (setHistorySize_onlyStatsOf c) as Hset.
  pose proof (call_onlyStatsOf c) as Hcall.
  pose proof (fun A => @ask_onlyStatsOf A c) as Hask.
  unfold resetWorkflowExecution, notifyTasks. cbv iota. keeps_tac.
Qed.

Lemma resetWorkflowExecution_sameContexts c currMutableState
  closeTask cleanupTask newMutableState newHistorySize newTransferTasks
  newTimerTasks currReplicationTasks newReplicationTasks baseRunID
  baseRunNextEventID :
  keeps (@sameContexts MS)
    (resetWorkflowExecution c currMutableState false false closeTask
       cleanupTask newMutableState newHistorySize newTransferTasks
       newTimerTasks currReplicationTasks newReplicationTasks baseRunID
       baseRunNextEventID).
Proof.
  unfold resetWorkflowExecution. cbv iota. keeps_tac.
Qed.

(** A reset given the cached mutable state runs as one given a mutable state
    of the caller's own on the context that already caches the flushed
    state. *)
Lemma resetWorkflowExecution_flushes_the_cache c currMutableState updateCurr
  closeTask cleanupTask newMutableState newHistorySize newTransferTasks
  newTimerTasks currReplicationTasks newReplicationTasks baseRunID
  baseRunNextEventID (w : world) x :
  contexts w !! c = Some x ->
  HasBufferedEvents newMutableState = false ->
  resetWorkflowExecution c currMutableState true updateCurr closeTask
    cleanupTask newMutableState newHistorySize newTransferTasks
    newTimerTasks currReplicationTasks newReplicationTasks baseRunID
    baseRunNextEventID w
  = resetWorkflowExecution c currMutableState false updateCurr closeTask
      cleanupTask newMutableState newHistorySize newTransferTasks
      newTimerTasks currReplicationTasks newReplicationTasks baseRunID
      baseRunNextEventID
      (mkWorld
         (<[c := set_msBuilder x
                   (Some (fst (FlushBufferedEvents currMutableState)))]>
            (contexts w))
         (trace w)).
Proof.
  intros Hc Hbuffered. unfold resetWorkflowExecution.
  set (cachedFlushed := mkWorld (<[c := _]> (contexts w)) (trace w)).
  rewrite (bind_Ok _ _ w _ _
             (eq_refl : ask Now TimeSourceNowCall w
                        = (Ok (Now (length (trace w))),
                           mkWorld (contexts w)
                             (trace w ++ [TimeSourceNowCall])))).
  rewrite (bind_Ok _ _ cachedFlushed _ _
             (eq_refl : ask Now TimeSourceNowCall cachedFlushed
                        = (Ok (Now (length (trace w))),
                           mkWorld (contexts cachedFlushed)
                             (trace w ++ [TimeSourceNowCall])))).
  subst cachedFlushed. cbn [contexts trace].
  destruct (setTaskInfo _ _ _ _) as [currTransferTasks' currTimerTasks'].
  destruct (setTaskInfo _ _ _ _) as [newTransferTasks' newTimerTasks'].
  rewrite Hbuffered.
  destruct (FlushBufferedEvents currMutableState)
    as [currFlushed flushError].
  cbn [fst].
  unfold bind at 1. unfold put_msBuilder, bind, deref, store.
  cbn [contexts trace]. rewrite Hc. reflexivity.
Qed.

(** X11: a reset never clears its context and never moves an update
    condition.  Whatever it returns, every context still has the update
    condition it had, a context that had a cached mutable state still has
    one, and contexts other than its own are left as they are.  What a
    reset writes to its own context is the history size and, when the
    current mutable state it is given is the cached one, what flushing the
    buffered events made of it: given a mutable state of the caller's own,
    it leaves every cached mutable state as it was, and with [updateCurr]
    false as well it changes no context at all; given the cached one, it
    leaves the flushed state cached unless the new mutable state has
    buffered events, in which case no context changes. *)
Theorem reset_never_clears_nor_moves_the_condition (c : contextRef)
  (currMutableState : MS) (currCached updateCurr : bool)
  (closeTask cleanupTask : option Task) (newMutableState : MS)
  (newHistorySize : Z) (newTransferTasks newTimerTasks : list Task)
  (currReplicationTasks newReplicationTasks : list Task)
  (baseRunID : string) (baseRunNextEventID : Z)
  (w : world) (r : outcome unit) (w' : world) :
  resetWorkflowExecution c currMutableState currCached updateCurr closeTask
    cleanupTask newMutableState newHistorySize newTransferTasks
    newTimerTasks currReplicationTasks newReplicationTasks baseRunID
    baseRunNextEventID w
  = (r, w') ->
  (forall n,
     updateCondition <$> contexts w' !! n
     = updateCondition <$> contexts w !! n
     /\ (n <> c -> contexts w' !! n = contexts w !! n)
     /\ (cached w n -> cached w' n))
  /\ (currCached = false ->
      forall n, msBuilder <$> contexts w' !! n = msBuilder <$> contexts w !! n)
  /\ (currCached = false -> updateCurr = false ->
      contexts w' = contexts w)
  /\ (HasBufferedEvents newMutableState = true -> contexts w' = contexts w)
  /\ (currCached = true ->
      HasBufferedEvents newMutableState = false ->
      forall x,
        contexts w !! c = Some x ->
        msBuilder <$> contexts w' !! c
        = Some (Some (fst (FlushBufferedEvents currMutableState)))).
Proof.
  intros E. split; [| split; [| split; [| split]]].
  - exact (resetWorkflowExecution_neverClears _ _ _ _ _ _ _ _ _ _ _ _ _
             _ _ _ _ E).
  - intros -> n.
    exact (proj1 (resetWorkflowExecution_onlyStatsOf _ _ _ _ _ _ _ _ _ _ _
                    _ _ _ _ _ E n)).
  - intros -> ->.
    exact (resetWorkflowExecution_sameContexts _ _ _ _ _ _ _ _ _ _ _ _
             _ _ _ E).
  - intros Hbuffered. unfold resetWorkflowExecution in E.
    unfold bind at 1 in E. unfold ask at 1 in E.
    destruct (setTaskInfo _ _ _ _) as [currTransferTasks' currTimerTasks'].
    destruct (setTaskInfo _ _ _ _) as [newTransferTasks' newTimerTasks'].
    rewrite Hbuffered in E. now injection E as _ <-.
  - intros -> Hbuffered x Hc.
    rewrite (resetWorkflowExecution_flushes_the_cache _ _ _ _ _ _ _ _ _ _ _
               _ _ _ x Hc Hbuffered) in E.
    destruct (resetWorkflowExecution_onlyStatsOf _ _ _ _ _ _ _ _ _ _ _
                _ _ _ _ _ E c) as (Hsame & _).
    unfold sameBuilder in Hsame. rewrite Hsame. cbn [contexts].
    now rewrite lookup_insert_eq.
Qed.

End ResetFrame.

(** ** What a reset submits, and when it notifies *)

Section ResetOrder.

Context {MS : Type} `{!MutableState MS} `{!ShardContext} `{!Declarations}.

Local Abbreviation world := (World MS).
Local Abbreviation context := (workflowExecutionContextImpl MS).

Lemma call_silent e :
  isNotification e = false -> isReset e = false ->
  keeps (@growsBy MS silentCall) (call e).
Proof. intros Hn Hr. apply call_growsBy. now split. Qed.

Lemma ask_silent {A} (answer : nat -> A) e :
  isNotification e = false -> isReset e = false ->
  keeps (@growsBy MS silentCall) (ask answer e).
Proof. intros Hn Hr. apply ask_growsBy. now split. Qed.

Lemma setHistorySize_silent c size :
  keeps (@growsBy MS silentCall) (setHistorySize c size).
Proof. unfold setHistorySize. keeps_tac. Qed.

(** The runs of a reset: it stops before storage without success, or it
    submits one request, built as follows, and ends by the answer. *)
Lemma reset_inv c currMutableState currCached updateCurr
  closeTask cleanupTask newMutableState newHistorySize newTransferTasks
  newTimerTasks currReplicationTasks newReplicationTasks baseRunID
  baseRunNextEventID (w : world) r w' :
  resetWorkflowExecution c currMutableState currCached updateCurr closeTask
    cleanupTask newMutableState newHistorySize newTransferTasks
    newTimerTasks currReplicationTasks newReplicationTasks baseRunID
    baseRunNextEventID w = (r, w') ->
  (growsBy silentCall w w' /\ forall u, r <> Ok u)
  \/ exists w1 request,
       growsBy silentCall w w1
       /\ contexts w' = contexts w1
       /\ HasBufferedEvents newMutableState = false
       /\ BaseRunID request = baseRunID
       /\ BaseRunNextEventID request = baseRunNextEventID
       /\ ws_ReplicationTasks (rst_NewWorkflowSnapshot request)
          = newReplicationTasks
       /\ ws_ChildExecutionInfos (rst_NewWorkflowSnapshot request) = []
       /\ ws_SignalInfos (rst_NewWorkflowSnapshot request) = []
       /\ ws_SignalRequestedIDs (rst_NewWorkflowSnapshot request) = []
       /\ (if updateCurr then
             exists m x s,
               CurrentWorkflowMutation request = Some m
               /\ contexts w1 !! c = Some x
               /\ stats x = Some s
               /\ wm_Condition m = updateCondition x
               /\ wm_ExecutionStats m = Some {| HistorySize := HistorySize s |}
               /\ wm_ReplicationTasks m = currReplicationTasks
           else CurrentWorkflowMutation request = None)
       /\ match ResetWorkflowExecution (length (trace w1)) request with
          | Some e =>
              r = Err e
              /\ trace w' = (trace w1 ++ [ResetWorkflowExecutionCall request])%list
          | None =>
              r = Ok tt
              /\ trace w'
                 = (trace w1
                    ++ ResetWorkflowExecutionCall request
                    :: NotifyNewTransferTasks
                         (ws_TransferTasks (rst_NewWorkflowSnapshot request))
                    :: NotifyNewReplicationTasks
                         (ws_ReplicationTasks (rst_NewWorkflowSnapshot request))
                    :: NotifyNewTimerTasks
                         (ws_TimerTasks (rst_NewWorkflowSnapshot request))
                    :: match CurrentWorkflowMutation request with
                       | Some m =>
                           [NotifyNewTransferTasks (wm_TransferTasks m);
                            NotifyNewReplicationTasks (wm_ReplicationTasks m);
                            NotifyNewTimerTasks (wm_TimerTasks m)]
                       | None => []
                       end)%list
          end.
Proof.
  pose proof (@growsBy_order MS silentCall) as Horder.
  assert (Hone : forall workflowEvents,
            keeps (@growsBy MS silentCall)
              (persistNonFirstWorkflowEvents workflowEvents))
    by (intros; apply persistNonFirstWorkflowEvents_silent;
        auto using @call_silent, @ask_silent with typeclass_instances).
  assert (Hseq : forall workflowEventsSeq size,
            keeps (@growsBy MS silentCall)
              (persistNonFirstWorkflowEventsSeq workflowEventsSeq size))
    by (intros; apply persistNonFirstWorkflowEventsSeq_silent;
        auto using @call_silent, @ask_silent with typeclass_instances).
  assert (Hsize : forall c, keeps (@growsBy MS silentCall) (getHistorySize c))
    by (intros; apply getHistorySize_silent; auto with typeclass_instances).
  unfold resetWorkflowExecution. intros E.
  apply bind_inv in E as (r0 & w0 & E0 & E).
  assert (G : growsBy silentCall w w0)
    by (eapply ask_silent; [| | exact E0]; reflexivity).
  unfold ask in E0. injection E0 as <- <-.
  cbv beta iota in E.
  set (w0 := mkWorld (contexts w) _) in *.
  destruct (setTaskInfo _ _ _ _) as [currTransferTasks' currTimerTasks'].
  destruct (setTaskInfo _ _ _ _) as [newTransferTasks' newTimerTasks'].
  destruct (HasBufferedEvents newMutableState) eqn:Hbuffered.
  { left. injection E as <- <-. split; [exact G | discriminate]. }
  destruct (FlushBufferedEvents currMutableState)
    as [currFlushed flushError].
  apply bind_inv in E as (rp & wp & Ep & E).
  assert (Gp : growsBy silentCall w wp).
  { eapply order_trans; [exact G |]. destruct currCached.
    - revert Ep. generalize w0 rp wp.
      change (keeps (@growsBy MS silentCall) (put_msBuilder c currFlushed)).
      unfold put_msBuilder. keeps_tac.
    - injection Ep as <- <-. apply order_refl. }
  clear G Ep.
  destruct rp as [[] | e | p];
    [| left; destruct E as [-> ->]; split; [exact Gp | discriminate] ..].
  destruct flushError as [e |].
  { left. injection E as <- <-. split; [exact Gp | discriminate]. }
  destruct (FlushBufferedEvents newMutableState) as [newFlushed [e |]].
  { left. injection E as <- <-. split; [exact Gp | discriminate]. }
  apply bind_inv in E as (r1 & w1 & E1 & E).
  assert (G1 : growsBy silentCall w w1).
  { eapply order_trans; [exact Gp |]. revert E1. clear E.
    generalize wp r1 w1.
    change (keeps (@growsBy MS silentCall)
              (if updateCurr then
                 '(size, retError) <- persistNonFirstWorkflowEvents
                   {| evs_DomainID := ei_DomainID (GetExecutionInfo currFlushed);
                      evs_WorkflowID := ei_WorkflowID (GetExecutionInfo currFlushed);
                      evs_RunID := ei_RunID (GetExecutionInfo currFlushed);
                      evs_BranchToken := GetCurrentBranch currFlushed;
                      evs_Events := GetHistoryBuilderEvents currFlushed |} ;;
                 match retError with
                 | Some e => fail e
                 | None =>
                     historySize <- getHistorySize c ;;
                     setHistorySize c (add64 historySize size)
                 end
               else ret tt)).
    pose proof setHistorySize_silent. keeps_tac. }
  clear Gp E1.
  destruct r1 as [[] | e | p];
    [| left; destruct E as [-> ->]; split; [exact G1 | discriminate] ..].
  apply bind_inv in E as (r2 & w2 & E2 & E).
  assert (G2 : growsBy silentCall w w2).
  { eapply order_trans; [exact G1 |].
    eapply ask_silent; [| | exact E2]; reflexivity. }
  unfold ask in E2. injection E2 as <- <-. clear G1.
  cbv beta iota in E.
  set (w2 := mkWorld (contexts w1) _) in *.
  destruct (snd (CloseTransactionAsSnapshot _ _ _))
    as [[resetWorkflow workflowEventsSeq] | err].
  2: { left. injection E as <- <-. split; [exact G2 | discriminate]. }
  destruct (negb _).
  { left. injection E as <- <-. split; [exact G2 | discriminate]. }
  apply bind_inv in E as (r3 & w3 & E3 & E).
  assert (G3 : growsBy silentCall w w3).
  { eapply order_trans; [exact G2 | eapply Hseq, E3]. }
  clear G2 E3.
  destruct r3 as [size | e | p];
    [| left; destruct E as [-> ->]; split; [exact G3 | discriminate] ..].
  cbn [set_ws_Tasks set_ws_ExecutionStats ws_ChildExecutionInfos
       ws_SignalInfos ws_SignalRequestedIDs] in E.
  destruct (ws_ChildExecutionInfos resetWorkflow) as [| child children]
    eqn:Hchildren; cbn [length Nat.ltb Nat.leb orb] in E.
  2: { left. injection E as <- <-. split; [exact G3 | discriminate]. }
  destruct (ws_SignalInfos resetWorkflow) as [| signal signals]
    eqn:Hsignals; cbn [length Nat.ltb Nat.leb orb] in E.
  2: { left. injection E as <- <-. split; [exact G3 | discriminate]. }
  destruct (ws_SignalRequestedIDs resetWorkflow) as [| requested ids]
    eqn:Hrequested; cbn [length Nat.ltb Nat.leb orb] in E.
  2: { left. injection E as <- <-. split; [exact G3 | discriminate]. }
  apply bind_inv in E as (r4 & w4 & E4 & E).
  assert (H4 : w4 = w3
               /\ match r4 with
                  | Ok currentWorkflowMutation =>
                      if updateCurr then
                        exists m x s,
                          currentWorkflowMutation = Some m
                          /\ contexts w3 !! c = Some x
                          /\ stats x = Some s
                          /\ wm_Condition m = updateCondition x
                          /\ wm_ExecutionStats m
                             = Some {| HistorySize := HistorySize s |}
                          /\ wm_ReplicationTasks m = currReplicationTasks
                      else currentWorkflowMutation = None
                  | Err _ => False
                  | Panicked _ => True
                  end).
  { destruct updateCurr; [| now injection E4 as <- <-].
    unfold getHistorySize, bind, deref, ret, throw in E4.
    destruct (contexts w3 !! c) as [x |] eqn:Hc;
      [destruct (stats x) as [s |] eqn:Hs |];
      cbv beta iota in E4; rewrite ?Hc, ?Hs in E4;
      cbv beta iota in E4; rewrite ?Hc, ?Hs in E4; injection E4 as <- <-;
      (split; [reflexivity |]); [| exact I ..].
    eexists _, x, s. repeat split; assumption. }
  clear E4. destruct H4 as [-> H4].
  destruct r4 as [currentWorkflowMutation | e | p];
    [| now destruct H4
     | left; destruct E as [-> ->]; split; [exact G3 | discriminate]].
  apply bind_inv in E as (r5 & w5 & E5 & E).
  unfold ask in E5. injection E5 as <- <-.
  right. eexists w3, _. split; [exact G3 |].
  match type of E with
  | match ?answer with _ => _ end _ = _ =>
      destruct answer as [e |] eqn:Hanswer
  end.
  - injection E as <- <-. cbn [rst_NewWorkflowSnapshot set_ws_Tasks
      set_ws_ExecutionStats ws_ReplicationTasks ws_ChildExecutionInfos
      ws_SignalInfos ws_SignalRequestedIDs BaseRunID BaseRunNextEventID
      CurrentWorkflowMutation contexts trace].
    rewrite Hanswer. repeat (split; [first [reflexivity | assumption] |]).
    reflexivity.
  - unfold notifyTasks, bind, call, ret in E.
    destruct currentWorkflowMutation as [m |]; injection E as <- <-;
      cbn [rst_NewWorkflowSnapshot set_ws_Tasks
        set_ws_ExecutionStats ws_ReplicationTasks ws_ChildExecutionInfos
        ws_SignalInfos ws_SignalRequestedIDs BaseRunID BaseRunNextEventID
        CurrentWorkflowMutation contexts trace ws_TransferTasks
        ws_TimerTasks];
      rewrite Hanswer;
      repeat (split; [first [reflexivity | assumption] |]);
      now rewrite <- !app_assoc.
Qed.

(** X12: a reset submits its request to storage at most once, outside the
    retry policy, and notifies the engine only once storage has accepted
    it.  A run starts with calls that neither notify nor reset.  Either it
    stops there, and then it has not succeeded; or the storage reset
    follows: an error of storage is returned with nothing after it, and
    otherwise the reset succeeds and is followed by exactly the
    notifications of the transfer, replication and timer tasks of the new
    snapshot and then, when the request carries a mutation of the current
    run, by those of the tasks of that mutation. *)
Theorem reset_notifies_once_storage_accepts (c : contextRef)
  (currMutableState : MS) (currCached updateCurr : bool)
  (closeTask cleanupTask : option Task) (newMutableState : MS)
  (newHistorySize : Z) (newTransferTasks newTimerTasks : list Task)
  (currReplicationTasks newReplicationTasks : list Task)
  (baseRunID : string) (baseRunNextEventID : Z)
  (w : world) (r : outcome unit) (w' : world) :
  resetWorkflowExecution c currMutableState currCached updateCurr closeTask
    cleanupTask newMutableState newHistorySize newTransferTasks
    newTimerTasks currReplicationTasks newReplicationTasks baseRunID
    baseRunNextEventID w
  = (r, w') ->
  exists before,
    Forall silentCall before
    /\ ((trace w' = (trace w ++ before)%list /\ forall u, r <> Ok u)
        \/ exists request,
             let submitting := (trace w ++ before)%list in
             let snapshot := rst_NewWorkflowSnapshot request in
             match ResetWorkflowExecution (length submitting) request with
             | Some e =>
                 r = Err e
                 /\ trace w'
                    = (submitting
                       ++ [ResetWorkflowExecutionCall request])%list
             | None =>
                 r = Ok tt
                 /\ trace w'
                    = (submitting
                       ++ ResetWorkflowExecutionCall request
                       :: NotifyNewTransferTasks (ws_TransferTasks snapshot)
                       :: NotifyNewReplicationTasks
                            (ws_ReplicationTasks snapshot)
                       :: NotifyNewTimerTasks (ws_TimerTasks snapshot)
                       :: match CurrentWorkflowMutation request with
                          | Some m =>
                              [NotifyNewTransferTasks (wm_TransferTasks m);
                               NotifyNewReplicationTasks
                                 (wm_ReplicationTasks m);
                               NotifyNewTimerTasks (wm_TimerTasks m)]
                          | None => []
                          end)%list
             end).
Proof.
  intros E. apply reset_inv in E as [[(before & Htrace & Hsilent) Hr] | E].
  - exists before. split; [exact Hsilent |]. left. now split.
  - destruct E as (w1 & request & (before & Htrace & Hsilent) & _ & _ & _
                   & _ & _ & _ & _ & _ & _ & E).
    exists before. split; [exact Hsilent |]. right. exists request.
    cbv zeta. rewrite <- Htrace. exact E.
Qed.

(** X13: what a reset submits to storage.  The request carries the base
    run ID and the base next event ID it was called with; the new mutable
    state had no buffered events; the new snapshot carries the new
    replication tasks it was called with and no pending child execution,
    signal or requested signal ID.  The request carries a mutation of the
    current run exactly when [updateCurr] is set, and that mutation is
    conditioned on the update condition of the context, carries the history
    size the context caches when the reset returns, and the replication
    tasks of the current run the reset was called with. *)
Theorem reset_request_is_built_from_the_cache (c : contextRef)
  (currMutableState : MS) (currCached updateCurr : bool)
  (closeTask cleanupTask : option Task) (newMutableState : MS)
  (newHistorySize : Z) (newTransferTasks newTimerTasks : list Task)
  (currReplicationTasks newReplicationTasks : list Task)
  (baseRunID : string) (baseRunNextEventID : Z)
  (w : world) (r : outcome unit) (w' : world)
  (tr : list Event) (request : ResetWorkflowExecutionRequest) :
  resetWorkflowExecution c currMutableState currCached updateCurr closeTask
    cleanupTask newMutableState newHistorySize newTransferTasks
    newTimerTasks currReplicationTasks newReplicationTasks baseRunID
    baseRunNextEventID w
  = (r, w') ->
  trace w' = (trace w ++ tr)%list ->
  In (ResetWorkflowExecutionCall request) tr ->
  HasBufferedEvents newMutableState = false
  /\ BaseRunID request = baseRunID
  /\ BaseRunNextEventID request = baseRunNextEventID
  /\ ws_ReplicationTasks (rst_NewWorkflowSnapshot request)
     = newReplicationTasks
  /\ ws_ChildExecutionInfos (rst_NewWorkflowSnapshot request) = []
  /\ ws_SignalInfos (rst_NewWorkflowSnapshot request) = []
  /\ ws_SignalRequestedIDs (rst_NewWorkflowSnapshot request) = []
  /\ (if updateCurr then
        exists m x s,
          CurrentWorkflowMutation request = Some m
          /\ contexts w' !! c = Some x
          /\ stats x = Some s
          /\ wm_Condition m = updateCondition x
          /\ wm_ExecutionStats m = Some {| HistorySize := HistorySize s |}
          /\ wm_ReplicationTasks m = currReplicationTasks
      else CurrentWorkflowMutation request = None).
Proof.
  intros E Htr Hin.
  assert (Hsilent : forall before,
            Forall silentCall before ->
            ~ In (ResetWorkflowExecutionCall request) before).
  { intros before Hbefore Hin'.
    rewrite List.Forall_forall in Hbefore.
    now destruct (Hbefore _ Hin') as [_ Hreset]. }
  apply reset_inv in E as [[(before & Htrace & Hbefore) _] | E].
  - rewrite Htr in Htrace. apply app_inv_head in Htrace as ->.
    now destruct (Hsilent _ Hbefore).
  - destruct E as (w1 & request' & (before & Htrace & Hbefore) & Hcontexts
                   & Hbuffered & Hbase & Hnext & Htasks & Hchildren
                   & Hsignals & Hrequested & Hmutation & E).
    assert (Hrequest : request = request').
    { destruct (ResetWorkflowExecution _ _); destruct E as [_ E];
        rewrite Htr, Htrace, <- app_assoc in E;
        apply app_inv_head in E as ->;
        apply in_app_or in Hin as [Hin | Hin];
        try (now destruct (Hsilent _ Hbefore));
        cbn [In] in Hin.
      - destruct Hin as [Hin | []]. now injection Hin.
      - destruct (CurrentWorkflowMutation request');
          cbn [In] in Hin; intuition (try discriminate); congruence. }
    subst request'. rewrite Hcontexts.
    repeat (split; [assumption |]). exact Hmutation.
Qed.

End ResetOrder.

(** ** The contexts a commit writes to *)

Section Frame.

Context {MS : Type} `{!MutableState MS} `{!ShardContext} `{!Declarations}.

Local Abbreviation world := (World MS).
Local Abbreviation context := (workflowExecutionContextImpl MS).

Lemma updateWorkflowExecutionWithNew_sameContext c n now newContext
  newMutableState policy newPolicy :
  n <> c ->
  match newContext, newMutableState, newPolicy with
  | Some newContext, Some _, Some _ => n <> newContext
  | _, _, _ => True
  end ->
  keeps (@sameContext MS n)
    (updateWorkflowExecutionWithNew c now newContext newMutableState policy
       newPolicy).
Proof.
  intros Hc Hnew. unfold updateWorkflowExecutionWithNew.
  destruct newContext as [newContext |];
    [destruct newMutableState as [newMutableState |];
     [destruct newPolicy as [newPolicy |] |] |]; keeps_tac.
Qed.

Lemma resetWorkflowExecution_sameContext c n currMutableState currCached
  updateCurr closeTask cleanupTask newMutableState newHistorySize
  newTransferTasks newTimerTasks currReplicationTasks newReplicationTasks
  baseRunID baseRunNextEventID :
  n <> c ->
  keeps (@sameContext MS n)
    (resetWorkflowExecution c currMutableState currCached updateCurr
       closeTask cleanupTask newMutableState newHistorySize newTransferTasks
       newTimerTasks currReplicationTasks newReplicationTasks baseRunID
       baseRunNextEventID).
Proof. intros Hc. unfold resetWorkflowExecution. keeps_tac. Qed.

Lemma conflictResolveWorkflowExecution_sameContext c n now prevRunID
  prevLastWriteVersion prevState resetMutableState resetHistorySize :
  n <> c ->
  keeps (@sameContext MS n)
    (conflictResolveWorkflowExecution c now prevRunID prevLastWriteVersion
       prevState resetMutableState resetHistorySize).
Proof. intros Hc. unfold conflictResolveWorkflowExecution. keeps_tac. Qed.

(** X14: a commit operation writes to no context but its own.  A context
    other than the one the operation runs on, and other than the context of
    the new run that an update with a new run is given together with its
    mutable state and writes the history size to, is after the operation
    what it was before, whatever the operation returns.  Creating a
    workflow execution writes to no context at all, its own included. *)
Theorem commit_writes_to_its_own_contexts_only (c : contextRef)
  (op : commitOperation) (n : contextRef) (w : world) (r : outcome unit)
  (w' : world) :
  commit c op w = (r, w') ->
  n <> c ->
  match op with
  | UpdateWithNew _ (Some newContext) (Some _) _ => n <> newContext
  | _ => True
  end ->
  contexts w' !! n = contexts w !! n
  /\ match op with
     | Create _ _ _ _ _ _ => contexts w' = contexts w
     | _ => True
     end.
Proof.
  intros E Hc Hnew.
  destruct op as [now [] | now newContext newMutableState [] | | |];
    cbn [commit] in E;
    unfold updateWorkflowExecutionAsActive, updateWorkflowExecutionAsPassive,
      updateWorkflowExecutionWithNewAsActive,
      updateWorkflowExecutionWithNewAsPassive in E.
  1, 2: split; [| exact I];
    now apply (updateWorkflowExecutionWithNew_sameContext c n) in E.
  1, 2: split; [| exact I];
    apply (updateWorkflowExecutionWithNew_sameContext c n) in E;
    [exact E | exact Hc | now destruct newContext, newMutableState].
  - split; [| exact I]. apply bind_inv in E as (r1 & w1 & E1 & E).
    apply (conflictResolveWorkflowExecution_sameContext c n) in E1;
      [| exact Hc].
    destruct r1; [injection E as _ <- | destruct E as [_ ->] ..]; exact E1.
  - split; [| exact I].
    now apply (resetWorkflowExecution_sameContext c n) in E.
  - keeps_in (@sameContexts MS) E. split; [| exact E].
    unfold sameContexts in E. now rewrite E.
Qed.

End Frame.

(** ** The history sizes after a successful update *)

Section CachedSizes.

Context {MS : Type} `{!MutableState MS} `{!ShardContext} `{!Declarations}.

Local Abbreviation world := (World MS).
Local Abbreviation context := (workflowExecutionContextImpl MS).

(** The trace grows by calls other than the storage update. *)
Local Abbreviation beforeUpdate :=
  (@growsBy MS (fun call => isUpdate call = false)).

#[local] Hint Extern 1 (keeps (growsBy _) (call _)) =>
  apply call_growsBy; reflexivity : keeps.

#[local] Hint Extern 1 (keeps (growsBy _) (ask _ _)) =>
  apply ask_growsBy; reflexivity : keeps.

Lemma updateWorkflowExecutionWithNew_current_beforeUpdate c now policy :
  keeps beforeUpdate (updateWorkflowExecutionWithNew_current c now policy).
Proof.
  assert (Hseq : forall workflowEventsSeq size,
            keeps beforeUpdate
              (persistNonFirstWorkflowEventsSeq workflowEventsSeq size)).
  { induction workflowEventsSeq as [| workflowEvents rest IH];
      intros size; cbn [persistNonFirstWorkflowEventsSeq];
      unfold persistNonFirstWorkflowEvents, appendHistoryEventsWithRetry,
        appendHistoryV2EventsWithRetry; keeps_tac. }
  unfold updateWorkflowExecutionWithNew_current, the_msBuilder,
    put_msBuilder, getHistorySize, setHistorySize.
  keeps_tac.
Qed.

Lemma updateWorkflowExecutionWithNew_new_beforeUpdate c now newMutableState
  policy :
  keeps beforeUpdate
    (updateWorkflowExecutionWithNew_new c now newMutableState policy).
Proof.
  unfold updateWorkflowExecutionWithNew_new, persistFirstWorkflowEvents,
    appendHistoryEventsWithRetry, appendHistoryV2EventsWithRetry,
    getHistorySize, setHistorySize.
  keeps_tac.
Qed.

Lemma setHistorySize_Ok c size (w : world) w' :
  setHistorySize c size w = (Ok tt, w') ->
  exists x,
    contexts w' !! c = Some x /\ stats x = Some {| HistorySize := size |}.
Proof.
  unfold setHistorySize, bind, deref, store, throw.
  destruct (contexts w !! c) as [x |]; [destruct (stats x) |]; intros E;
    try discriminate.
  injection E as <-. cbn [contexts]. eexists. split.
  - apply lookup_insert_eq.
  - reflexivity.
Qed.

Lemma current_Ok_stats c now policy (w : world) stamped w1 :
  updateWorkflowExecutionWithNew_current c now policy w = (Ok stamped, w1) ->
  exists x,
    contexts w1 !! c = Some x
    /\ stats x <> None
    /\ wm_ExecutionStats stamped = stats x.
Proof.
  unfold updateWorkflowExecutionWithNew_current. intros E.
  apply bind_Ok_inv in E as (ms & w2 & _ & E).
  destruct (CloseTransactionAsMutation ms now policy)
    as [ms' [[currentWorkflow workflowEventsSeq] | err]].
  - apply bind_Ok_inv in E as (u & w4 & _ & E).
    apply bind_Ok_inv in E as (size0 & w5 & _ & E).
    apply bind_Ok_inv in E as (size & w6 & _ & E).
    apply bind_Ok_inv in E as ([] & w7 & Hset & E).
    injection E as <- <-.
    apply setHistorySize_Ok in Hset as (x & Hx & Hstats).
    exists x. rewrite Hstats. repeat split; [exact Hx | discriminate].
  - apply bind_Ok_inv in E as (u & w4 & _ & E). discriminate.
Qed.

Lemma new_Ok_stats c now newMutableState policy (w : world) stamped w1 :
  updateWorkflowExecutionWithNew_new c now newMutableState policy w
  = (Ok stamped, w1) ->
  exists x,
    contexts w1 !! c = Some x
    /\ stats x <> None
    /\ ws_ExecutionStats stamped = stats x.
Proof.
  unfold updateWorkflowExecutionWithNew_new. intros E.
  destruct (snd (CloseTransactionAsSnapshot _ _ _))
    as [[newWorkflow workflowEventsSeq] | err]; [| discriminate].
  apply bind_Ok_inv in E as (size0 & w2 & _ & E).
  destruct workflowEventsSeq as [| workflowEvents0 rest]; [discriminate |].
  apply bind_Ok_inv in E as ([eventsSize [err |]] & w3 & _ & E);
    [discriminate |].
  apply bind_Ok_inv in E as ([] & w4 & Hset & E).
  injection E as <- <-.
  apply setHistorySize_Ok in Hset as (x & Hx & Hstats).
  exists x. rewrite Hstats. repeat split; [exact Hx | discriminate].
Qed.

Lemma merge_keeps_snapshot_stats currentWorkflow newWorkflow r merged
  newWorkflow' :
  mergeContinueAsNewReplicationTasks currentWorkflow newWorkflow
  = (r, merged, newWorkflow') ->
  match newWorkflow' with
  | Some snapshot' =>
      exists snapshot,
        newWorkflow = Some snapshot
        /\ ws_ExecutionStats snapshot' = ws_ExecutionStats snapshot
  | None => newWorkflow = None
  end.
Proof.
  unfold mergeContinueAsNewReplicationTasks. intros E.
  repeat match type of E with
         | context [match ?t with _ => _ end] => destruct t eqn:?
         end;
    injection E as _ _ <-; subst;
    try destruct newWorkflow;
    first [reflexivity | eexists; split; reflexivity].
Qed.

(** What a successful commit block leaves in the contexts: the update
    condition of [c] moves, nothing else. *)
Lemma commit_Ok_contexts c currentWorkflow newWorkflow (w : world) w' :
  updateWorkflowExecutionWithNew_commit c currentWorkflow newWorkflow w
  = (Ok tt, w') ->
  exists x,
    contexts w !! c = Some x
    /\ contexts w'
       = <[c := set_updateCondition x
                  (ei_NextEventID (wm_ExecutionInfo currentWorkflow))]>
           (contexts w).
Proof.
  unfold updateWorkflowExecutionWithNew_commit. intros E.
  destruct (mergeContinueAsNewReplicationTasks currentWorkflow newWorkflow)
    as [[[[] | e | p] merged] newWorkflow'] eqn:Hmerge; try discriminate.
  destruct (merge_keeps_info _ _ _ _ _ Hmerge) as (Hinfo & _).
  apply bind_Ok_inv in E as ([resp err] & w1 & Hretry & E).
  keeps_in (@sameContexts MS) Hretry. unfold sameContexts in Hretry.
  destruct err; [discriminate |].
  unfold updateWorkflowExecutionWithNew_notify in E.
  apply bind_Ok_inv in E as (x & w2 & Hx & E).
  apply bind_Ok_inv in E as (u & w3 & Hstore & E).
  injection Hstore as _ <-.
  keeps_in (@sameContexts MS) E. unfold sameContexts in E.
  cbn [contexts] in E.
  unfold deref in Hx. destruct (contexts w1 !! c) as [x0 |] eqn:Hc;
    [| discriminate].
  injection Hx as -> ->. exists x. rewrite <- Hretry, Hc, E, Hinfo.
  now split.
Qed.

(** X15: after a successful update the contexts cache the history sizes
    that were submitted.  The run makes no storage update until it submits
    its request; the stats of the mutation in that request are those the
    context caches when the update returns, and when the request carries a
    snapshot of a new run, the stats of the snapshot are those the context
    of the new run caches.  The new run must have a context of its own. *)
Theorem successful_update_caches_the_submitted_history_sizes
  (c : contextRef) (now : time) (newContext : option contextRef)
  (newMutableState : option MS)
  (currentWorkflowTransactionPolicy : transactionPolicy)
  (newWorkflowTransactionPolicy : option transactionPolicy)
  (w w' : world) :
  updateWorkflowExecutionWithNew c now newContext newMutableState
    currentWorkflowTransactionPolicy newWorkflowTransactionPolicy w
  = (Ok tt, w') ->
  newContext <> Some c ->
  exists request before after,
    trace w'
    = (trace w ++ before ++ UpdateWorkflowExecutionCall request :: after)%list
    /\ Forall (fun call => isUpdate call = false) before
    /\ (exists x,
          contexts w' !! c = Some x
          /\ stats x <> None
          /\ wm_ExecutionStats (UpdateWorkflowMutation request) = stats x)
    /\ match NewWorkflowSnapshot request with
       | Some snapshot =>
           exists new x,
             newContext = Some new
             /\ contexts w' !! new = Some x
             /\ stats x <> None
             /\ ws_ExecutionStats snapshot = stats x
       | None => True
       end.
Proof.
  intros E Hnew. unfold updateWorkflowExecutionWithNew in E.
  apply deferOnError_inv in E as (r0 & w0 & E & Hd).
  destruct Hd as [(-> & -> & _) | (e & rc & _ & _ & [[? _] | (p & _ & ?)])];
    try discriminate.
  apply bind_Ok_inv in E as (currentWorkflow & w1 & Hcurrent & E).
  pose proof (updateWorkflowExecutionWithNew_current_beforeUpdate _ _ _ _ _ _
                Hcurrent) as (t1 & Ht1 & Hbefore1).
  apply current_Ok_stats in Hcurrent as (x1 & Hx1 & Hsome1 & Hstats1).
  assert (Hcommit : forall newWorkflow w2 t2,
            trace w2 = (trace w ++ t2)%list ->
            Forall (fun call => isUpdate call = false) t2 ->
            (exists x,
               contexts w2 !! c = Some x /\ stats x <> None
               /\ wm_ExecutionStats currentWorkflow = stats x) ->
            updateWorkflowExecutionWithNew_commit c currentWorkflow
              newWorkflow w2 = (Ok tt, w') ->
            exists request after,
              trace w'
              = (trace w ++ t2
                 ++ UpdateWorkflowExecutionCall request :: after)%list
              /\ (exists x,
                    contexts w' !! c = Some x /\ stats x <> None
                    /\ wm_ExecutionStats (UpdateWorkflowMutation request)
                       = stats x)
              /\ match NewWorkflowSnapshot request with
                 | Some snapshot' =>
                     exists snapshot,
                       newWorkflow = Some snapshot
                       /\ ws_ExecutionStats snapshot'
                          = ws_ExecutionStats snapshot
                 | None => newWorkflow = None
                 end
              /\ forall n, n <> c -> contexts w' !! n = contexts w2 !! n).
  { intros newWorkflow w2 t2 Ht2 Hbefore2 (x & Hx & Hsome & Hstats) C.
    destruct (mergeContinueAsNewReplicationTasks currentWorkflow newWorkflow)
      as [[rm merged] newWorkflow'] eqn:Hmerge.
    assert (Hrm : rm = Ok tt).
    { unfold updateWorkflowExecutionWithNew_commit in C. rewrite Hmerge in C.
      destruct rm as [[] | |]; [reflexivity | discriminate ..]. }
    subst rm.
    destruct (commit_submits _ _ _ _ _ _ _ _ Hmerge C) as (after & Hafter).
    destruct (merge_keeps_info _ _ _ _ _ Hmerge) as (_ & _ & Hmerged).
    apply merge_keeps_snapshot_stats in Hmerge.
    apply commit_Ok_contexts in C as (x' & Hx' & Hcontexts).
    eexists _, after. split; [| split; [| split]].
    - rewrite Hafter, Ht2. now rewrite <- app_assoc.
    - rewrite Hx in Hx'. injection Hx' as <-.
      eexists. rewrite Hcontexts, lookup_insert_eq. split; [reflexivity |].
      cbn [set_updateCondition stats UpdateWorkflowMutation].
      split; [exact Hsome | now rewrite Hmerged].
    - exact Hmerge.
    - intros n Hn. rewrite Hcontexts. now apply lookup_insert_ne. }
  destruct newContext as [new |];
    [destruct newMutableState as [newMutableState |];
     [destruct newWorkflowTransactionPolicy as [newPolicy |] |] |].
  2-4: (destruct (Hcommit None w1 t1 Ht1 Hbefore1) as
         (request & after & Htrace & Hcached & Hsnapshot & _);
        [now exists x1 | exact E |];
        exists request, t1, after; split; [exact Htrace |];
        split; [exact Hbefore1 |]; split; [exact Hcached |];
        destruct (NewWorkflowSnapshot request); [| exact I];
        now destruct Hsnapshot as (snapshot & Hsnapshot & _)).
  assert (Hne : new <> c) by congruence.
  apply deferOnErrorWithin_returns in E; [| discriminate].
  apply deferOnError_inv in E as (r0 & w0 & E & Hd).
  destruct Hd as [(-> & -> & _) | (e & rc & _ & _ & [[? _] | (p & _ & ?)])];
    try discriminate.
  apply bind_Ok_inv in E as (newWorkflow & w2 & Hnewrun & E).
  pose proof (updateWorkflowExecutionWithNew_new_beforeUpdate _ _ _ _ _ _ _
                Hnewrun) as (t2 & Ht2 & Hbefore2).
  assert (Hframe : contexts w2 !! c = contexts w1 !! c).
  { assert (K : keeps (@sameContext MS c)
                  (updateWorkflowExecutionWithNew_new new now
                     newMutableState newPolicy))
      by (unfold updateWorkflowExecutionWithNew_new; keeps_tac).
    exact (K _ _ _ Hnewrun). }
  apply new_Ok_stats in Hnewrun as (x2 & Hx2 & Hsome2 & Hstats2).
  destruct (Hcommit (Some newWorkflow) w2 (t1 ++ t2)%list) as
    (request & after & Htrace & Hcached & Hsnapshot & Hothers).
  { rewrite Ht2, Ht1. now rewrite <- app_assoc. }
  { now apply Forall_app. }
  { exists x1. now rewrite Hframe. }
  { exact E. }
  exists request, (t1 ++ t2)%list, after. split; [exact Htrace |].
  split; [now apply Forall_app |]. split; [exact Hcached |].
  destruct (NewWorkflowSnapshot request) as [snapshot' |]; [| exact I].
  destruct Hsnapshot as (snapshot & Hsnapshot & Hsame).
  injection Hsnapshot as <-.
  exists new, x2. rewrite (Hothers _ Hne), Hsame. now repeat split.
Qed.

End CachedSizes.

(** ** What a successful update notifies, and when *)

Section NotificationOrder.

Context {MS : Type} `{!MutableState MS} `{!ShardContext} `{!Declarations}.

Local Abbreviation world := (World MS).
Local Abbreviation context := (workflowExecutionContextImpl MS).

(** The trace grows by calls that neither notify the engine nor update
    storage. *)
Local Abbreviation preparing :=
  (@growsBy MS
     (fun call => isNotification call = false /\ isUpdate call = false)).

(** The trace grows by calls that neither notify the engine nor reach
    storage. *)
Local Abbreviation reporting :=
  (@growsBy MS
     (fun call => isNotification call = false /\ isStorageCall call = false)).

#[local] Hint Extern 1 (keeps (growsBy _) (call _)) =>
  apply call_growsBy; split; reflexivity : keeps.

#[local] Hint Extern 1 (keeps (growsBy _) (ask _ _)) =>
  apply ask_growsBy; split; reflexivity : keeps.

Lemma updateWorkflowExecutionWithNew_current_preparing c now policy :
  keeps preparing (updateWorkflowExecutionWithNew_current c now policy).
Proof.
  assert (Hseq : forall workflowEventsSeq size,
            keeps preparing
              (persistNonFirstWorkflowEventsSeq workflowEventsSeq size)).
  { induction workflowEventsSeq as [| workflowEvents rest IH];
      intros size; cbn [persistNonFirstWorkflowEventsSeq];
      unfold persistNonFirstWorkflowEvents, appendHistoryEventsWithRetry,
        appendHistoryV2EventsWithRetry; keeps_tac. }
  unfold updateWorkflowExecutionWithNew_current, the_msBuilder,
    put_msBuilder, getHistorySize, setHistorySize.
  keeps_tac.
Qed.

Lemma updateWorkflowExecutionWithNew_new_preparing c now newMutableState
  policy :
  keeps preparing
    (updateWorkflowExecutionWithNew_new c now newMutableState policy).
Proof.
  unfold updateWorkflowExecutionWithNew_new, persistFirstWorkflowEvents,
    appendHistoryEventsWithRetry, appendHistoryV2EventsWithRetry,
    getHistorySize, setHistorySize.
  keeps_tac.
Qed.

Lemma deref_Ok_inv c (w : world) x w' :
  deref c w = (Ok x, w') -> w' = w.
Proof.
  unfold deref. destruct (contexts w !! c); intros E; now injection E.
Qed.

Lemma the_msBuilder_Ok_inv c (w : world) ms w' :
  the_msBuilder c w = (Ok ms, w') -> w' = w.
Proof.
  unfold the_msBuilder, bind, deref, ret, throw.
  destruct (contexts w !! c) as [x |]; [destruct (msBuilder x) |];
    intros E; now injection E.
Qed.

(** A storage update that returns without an error was accepted by storage
    at its last attempt. *)
Lemma updateWorkflowExecutionWithRetry_accepted c request (w : world) resp
  w' :
  updateWorkflowExecutionWithRetry c request w = (Ok (resp, None), w') ->
  exists k,
    (k <= persistenceOperationRetryPolicy)%nat
    /\ w' = mkWorld (contexts w)
              (trace w ++ repeat (UpdateWorkflowExecutionCall request) (S k)).
Proof.
  unfold updateWorkflowExecutionWithRetry. intros E.
  apply bind_Ok_inv in E as ([resp0 err] & w1 & Hretry & E).
  destruct (Retry_ask_last
              (fun n => split_answer (UpdateWorkflowExecution n request))
              (UpdateWorkflowExecutionCall request)
              persistenceOperationRetryPolicy w) as (k & Hk & Ek).
  rewrite Ek in Hretry. injection Hretry as _ <-.
  exists k. split; [exact Hk |].
  destruct err as [e |].
  - exfalso. unfold bind, deref, call, ret in E. cbn [contexts trace] in E.
    destruct e; cbv beta iota in E; cbn [contexts] in E;
      try discriminate;
      destruct (contexts w !! c); cbv beta iota in E; discriminate.
  - now injection E as _ <-.
Qed.

Lemma commit_Ok_trace c currentWorkflow newWorkflow (w : world) w' :
  updateWorkflowExecutionWithNew_commit c currentWorkflow newWorkflow w
  = (Ok tt, w') ->
  exists request k notification after,
    (k <= persistenceOperationRetryPolicy)%nat
    /\ trace w'
       = (trace w
          ++ repeat (UpdateWorkflowExecutionCall request) (S k)
          ++ NotifyNewHistoryEvent notification
          :: NotifyNewTransferTasks
               (wm_TransferTasks (UpdateWorkflowMutation request))
          :: NotifyNewReplicationTasks
               (wm_ReplicationTasks (UpdateWorkflowMutation request))
          :: NotifyNewTimerTasks
               (wm_TimerTasks (UpdateWorkflowMutation request))
          :: match NewWorkflowSnapshot request with
             | Some snapshot =>
                 [NotifyNewTransferTasks (ws_TransferTasks snapshot);
                  NotifyNewReplicationTasks (ws_ReplicationTasks snapshot);
                  NotifyNewTimerTasks (ws_TimerTasks snapshot)]
             | None => []
             end
          ++ after)%list
    /\ Forall (fun call =>
                 isNotification call = false /\ isStorageCall call = false)
         after.
Proof.
  unfold updateWorkflowExecutionWithNew_commit. intros E.
  destruct (mergeContinueAsNewReplicationTasks currentWorkflow newWorkflow)
    as [[[[] | e | p] merged] newWorkflow']; try discriminate.
  apply bind_Ok_inv in E as ([resp err] & w1 & Hretry & E).
  destruct err as [e |]; [discriminate |].
  apply updateWorkflowExecutionWithRetry_accepted in Hretry
    as (k & Hk & ->).
  unfold updateWorkflowExecutionWithNew_notify in E.
  apply bind_Ok_inv in E as (x & wa & Hx & E).
  apply deref_Ok_inv in Hx as ->.
  apply bind_Ok_inv in E as (u & wb & Hstore & E).
  injection Hstore as _ <-.
  apply bind_Ok_inv in E as (x' & wc & Hx' & E).
  apply deref_Ok_inv in Hx' as ->.
  apply bind_Ok_inv in E as (ms & wd & Hms & E).
  apply the_msBuilder_Ok_inv in Hms as ->.
  apply bind_Ok_inv in E as (u1 & we & Hevent & E).
  injection Hevent as _ <-.
  apply bind_Ok_inv in E as (u2 & wf & Hcurrent & E).
  injection Hcurrent as _ <-.
  apply bind_Ok_inv in E as (u3 & wg & Hnew & E).
  assert (Htail : reporting wg w').
  { revert E. generalize wg (Ok tt : outcome unit) w'.
    match goal with
    | |- forall w0 r0 w1, ?m w0 = (r0, w1) -> _ =>
        change (keeps reporting m)
    end.
    unfold getDomainName, getHistorySize, the_msBuilder. keeps_tac. }
  destruct Htail as (after & Hafter & Hreporting).
  exists {| UpdateWorkflowMutation := merged;
            NewWorkflowSnapshot := newWorkflow' |}, k.
  eexists _, after. split; [exact Hk |]. split; [| exact Hreporting].
  rewrite Hafter. cbn [UpdateWorkflowMutation NewWorkflowSnapshot].
  destruct newWorkflow' as [snapshot |]; injection Hnew as _ <-;
    cbn [contexts trace]; rewrite <- ?app_assoc; cbn [repeat app];
    rewrite <- ?app_assoc; reflexivity.
Qed.

(** X16: a successful update notifies the engine of what it submitted, and
    only after storage has accepted it.  Up to the storage update the run
    notifies nobody; the update is submitted between one and one more than
    the retry policy's number of times, always with the same request; then
    come, in this order, the notification of the new history event, the
    transfer, replication and timer tasks of the mutation in the request
    and, when the request carries a snapshot of a new run, the tasks of
    that snapshot.  These are the tasks after the continue-as-new merge.
    What follows are metrics and the domain lookup: no notification and no
    storage call. *)
Theorem successful_update_notifies_what_it_submitted
  (c : contextRef) (now : time) (newContext : option contextRef)
  (newMutableState : option MS)
  (currentWorkflowTransactionPolicy : transactionPolicy)
  (newWorkflowTransactionPolicy : option transactionPolicy)
  (w w' : world) :
  updateWorkflowExecutionWithNew c now newContext newMutableState
    currentWorkflowTransactionPolicy newWorkflowTransactionPolicy w
  = (Ok tt, w') ->
  exists before request k notification after,
    (k <= persistenceOperationRetryPolicy)%nat
    /\ Forall (fun call =>
                 isNotification call = false /\ isUpdate call = false)
         before
    /\ Forall (fun call =>
                 isNotification call = false /\ isStorageCall call = false)
         after
    /\ trace w'
       = (trace w ++ before
          ++ repeat (UpdateWorkflowExecutionCall request) (S k)
          ++ NotifyNewHistoryEvent notification
          :: NotifyNewTransferTasks
               (wm_TransferTasks (UpdateWorkflowMutation request))
          :: NotifyNewReplicationTasks
               (wm_ReplicationTasks (UpdateWorkflowMutation request))
          :: NotifyNewTimerTasks
               (wm_TimerTasks (UpdateWorkflowMutation request))
          :: match NewWorkflowSnapshot request with
             | Some snapshot =>
                 [NotifyNewTransferTasks (ws_TransferTasks snapshot);
                  NotifyNewReplicationTasks (ws_ReplicationTasks snapshot);
                  NotifyNewTimerTasks (ws_TimerTasks snapshot)]
             | None => []
             end
          ++ after)%list.
Proof.
  intros E. unfold updateWorkflowExecutionWithNew in E.
  apply deferOnError_inv in E as (r0 & w0 & E & Hd).
  destruct Hd as [(-> & -> & _) | (e & rc & _ & _ & [[? _] | (p & _ & ?)])];
    try discriminate.
  apply bind_Ok_inv in E as (currentWorkflow & w1 & Hcurrent & E).
  apply updateWorkflowExecutionWithNew_current_preparing in Hcurrent
    as (t1 & Ht1 & Hbefore1).
  assert (Hcommit : forall newWorkflow w2 t2,
            trace w2 = (trace w ++ t2)%list ->
            Forall (fun call =>
                      isNotification call = false /\ isUpdate call = false)
              t2 ->
            updateWorkflowExecutionWithNew_commit c currentWorkflow
              newWorkflow w2 = (Ok tt, w') ->
            exists before request k notification after,
              (k <= persistenceOperationRetryPolicy)%nat
              /\ Forall (fun call =>
                           isNotification call = false
                           /\ isUpdate call = false)
                   before
              /\ Forall (fun call =>
                           isNotification call = false
                           /\ isStorageCall call = false)
                   after
              /\ trace w'
                 = (trace w ++ before
                    ++ repeat (UpdateWorkflowExecutionCall request) (S k)
                    ++ NotifyNewHistoryEvent notification
                    :: NotifyNewTransferTasks
                         (wm_TransferTasks (UpdateWorkflowMutation request))
                    :: NotifyNewReplicationTasks
                         (wm_ReplicationTasks
                            (UpdateWorkflowMutation request))
                    :: NotifyNewTimerTasks
                         (wm_TimerTasks (UpdateWorkflowMutation request))
                    :: match NewWorkflowSnapshot request with
                       | Some snapshot =>
                           [NotifyNewTransferTasks
                              (ws_TransferTasks snapshot);
                            NotifyNewReplicationTasks
                              (ws_ReplicationTasks snapshot);
                            NotifyNewTimerTasks (ws_TimerTasks snapshot)]
                       | None => []
                       end
                    ++ after)%list).
  { intros newWorkflow w2 t2 Ht2 Hbefore2 C.
    apply commit_Ok_trace in C
      as (request & k & notification & after & Hk & Htrace & Hafter).
    exists t2, request, k, notification, after.
    split; [exact Hk |]. split; [exact Hbefore2 |]. split; [exact Hafter |].
    rewrite Htrace, Ht2. now rewrite <- app_assoc. }
  destruct newContext as [new |];
    [destruct newMutableState as [newMutableState |];
     [destruct newWorkflowTransactionPolicy as [newPolicy |] |] |].
  2-4: now apply (Hcommit None w1 t1).
  apply deferOnErrorWithin_returns in E; [| discriminate].
  apply deferOnError_inv in E as (r0 & w0 & E & Hd).
  destruct Hd as [(-> & -> & _) | (e & rc & _ & _ & [[? _] | (p & _ & ?)])];
    try discriminate.
  apply bind_Ok_inv in E as (newWorkflow & w2 & Hnewrun & E).
  apply updateWorkflowExecutionWithNew_new_preparing in Hnewrun
    as (t2 & Ht2 & Hbefore2).
  apply (Hcommit (Some newWorkflow) w2 (t1 ++ t2)%list).
  - rewrite Ht2, Ht1. now rewrite <- app_assoc.
  - now apply Forall_app.
  - exact E.
Qed.

End NotificationOrder.

(** ** The further properties at work on the scenarios *)

Section MoreScenarios.

Local Abbreviation MS := scriptedState.
Local Abbreviation ops := scriptedMutableState.
Local Abbreviation decls := testDeclarations.

Lemma load_restamps_only_running_workflows_of_global_domains_witness :
  let w := worldWith replicatedRun in
  contexts w !! 0%nat = Some (cachedContext replicatedRun)
  /\ msBuilder (cachedContext replicatedRun) = Some replicatedRun
  /\ @IsGlobalDomainEnabled globalShardWithoutDomain = true
  /\ @GetReplicationState MS ops replicatedRun <> None
  /\ @IsWorkflowExecutionRunning MS ops replicatedRun = true
  /\ runLoad globalShardWithoutDomain w
     = (Err (OtherError "domain cache miss"),
        mkWorld (contexts w) (trace w ++ [GetDomainByIDCall "domain"])).
Proof.
  cbv zeta.
  assert (Hreplicated : @GetReplicationState MS ops replicatedRun <> None)
    by (vm_compute; discriminate).
  split; [reflexivity |]. split; [reflexivity |]. split; [reflexivity |].
  split; [exact Hreplicated |]. split; [reflexivity |].
  exact (proj2 (@load_restamps_only_running_workflows_of_global_domains MS
                  ops globalShardWithoutDomain decls 0%nat
                  (worldWith replicatedRun) (cachedContext replicatedRun)
                  replicatedRun eq_refl eq_refl)
           eq_refl Hreplicated eq_refl).
Defined.

Lemma merge_needs_a_history_task_in_the_current_mutation_witness :
  let current := continuedMutation [OtherTask 1] in
  let newRunTask := historyTaskOf branchB 2 in
  let new := newRunSnapshot [HistoryTask newRunTask] in
  ei_CloseStatus (wm_ExecutionInfo current)
  = @WorkflowCloseStatusContinuedAsNew decls
  /\ wm_ReplicationTasks current <> []
  /\ existsb isHistoryTask (wm_ReplicationTasks current) = false
  /\ ws_ReplicationTasks new = [HistoryTask newRunTask]
  /\ @mergeContinueAsNewReplicationTasks decls current (Some new)
     = (Err (InternalServiceError
               "unable to find replication task from current workflow for continue as new replication"),
        current, Some (newRunSnapshot [])).
Proof.
  cbv zeta.
  assert (Htasks : wm_ReplicationTasks (continuedMutation [OtherTask 1])
                   <> []) by discriminate.
  split; [reflexivity |]. split; [exact Htasks |]. split; [reflexivity |].
  split; [reflexivity |].
  exact (proj1 (@merge_needs_a_history_task_in_the_current_mutation decls MS
                  ops healthyShard (continuedMutation [OtherTask 1])
                  (newRunSnapshot [HistoryTask (historyTaskOf branchB 2)])
                  (historyTaskOf branchB 2) eq_refl Htasks eq_refl
                  eq_refl)).
Defined.

Lemma appender_selects_the_store_by_branch_token_witness :
  let w := worldWith (currentRun 12) in
  evs_Events firstBatch = [event 1]
  /\ exists size err k,
       (k <= 2)%nat
       /\ is_int64 size
       /\ @persistNonFirstWorkflowEvents MS healthyShard decls firstBatch w
          = (Ok (size, err),
             mkWorld (contexts w)
               (trace w
                ++ repeat
                     (AppendHistoryEventsCall
                        {| ahe_DomainID := "domain";
                           ahe_Execution :=
                             {| WorkflowId := "wf"; RunId := "R2" |};
                           ahe_FirstEventID := 1;
                           ahe_EventBatchVersion := 0;
                           ahe_Events := [event 1] |})
                     (S k))).
Proof.
  cbv zeta. split; [reflexivity |].
  exact (proj2 (@appender_selects_the_store_by_branch_token MS healthyShard
                  decls firstBatch (event 1) [] (worldWith (currentRun 12))
                  eq_refl)).
Defined.

Lemma storage_update_turns_failed_condition_into_conflict_witness :
  let w := worldWith (currentRun 12) in
  let request :=
    {| UpdateWorkflowMutation := mutationOf (infoOf "R1" 12 0) [] 10;
       NewWorkflowSnapshot := None |} in
  contexts w !! 0%nat = Some (cachedContext (currentRun 12))
  /\ forall resp,
       fst (@updateWorkflowExecutionWithRetry MS brokenShard decls 0%nat
              request w)
       <> Ok (resp, Some ConditionFailedError).
Proof.
  cbv zeta. split; [reflexivity |].
  exact (proj1 (@storage_update_turns_failed_condition_into_conflict MS
                  brokenShard decls 0%nat
                  {| UpdateWorkflowMutation :=
                       mutationOf (infoOf "R1" 12 0) [] 10;
                     NewWorkflowSnapshot := None |}
                  (worldWith (currentRun 12))
                  (cachedContext (currentRun 12)) eq_refl)).
Defined.

Lemma conflict_resolve_submits_once_and_reloads_witness :
  let w := worldWith (currentRun 12) in
  let resetWorkflow := snapshotOf (infoOf "R2" 3 0) [] in
  let submitted :=
    ConflictResolveWorkflowExecutionCall
      {| PrevRunID := "R0"; PrevLastWriteVersion := 0; PrevState := 1;
         ResetWorkflowSnapshot :=
           set_ws_ExecutionStats resetWorkflow
             (Some {| HistorySize := 500 |}) |} in
  snd (@CloseTransactionAsSnapshot MS ops (newRun false []) 0
         transactionPolicyPassive)
  = inl (resetWorkflow, [])
  /\ contexts w !! 0%nat = Some (cachedContext (currentRun 12))
  /\ runConflictResolve healthyShard (newRun false []) w
     = runLoad healthyShard
         (mkWorld
            (<[0%nat := contextOf "R1" None None 10]> (contexts w))
            (trace w
             ++ [submitted; NotifyNewTransferTasks [];
                 NotifyNewReplicationTasks []; NotifyNewTimerTasks [];
                 IncCounterWorkflowContextCleared])).
Proof.
  cbv zeta. split; [reflexivity |]. split; [reflexivity |].
  exact (proj1 (@conflict_resolve_submits_once_and_reloads MS ops
                  healthyShard decls 0%nat 0 "R0" 0 1 (newRun false []) 500
                  (worldWith (currentRun 12))
                  (snapshotOf (infoOf "R2" 3 0) []) eq_refl
                  (cachedContext (currentRun 12)) eq_refl)).
Defined.

Lemma first_load_installs_what_storage_returns_witness :
  let w := emptyWorld in
  let run :=
    @loadWorkflowExecutionInternal MS ops healthyShard decls 0%nat w in
  contexts w !! 0%nat
  = Some (contextOf "R1" None (Some {| HistorySize := 0 |}) 0)
  /\ msBuilder (contextOf "R1" None (Some {| HistorySize := 0 |}) 0) = None
  /\ exists k name tr,
       (k <= 2)%nat
       /\ snd run
          = mkWorld
              (<[0%nat := contextOf "R1"
                            (Some (@Load MS ops
                                     (@newMutableStateBuilder MS ops name)
                                     storedState))
                            (Some {| HistorySize := 120 |}) 10]>
                 (contexts w))
              ((trace w
                ++ repeat
                     (GetWorkflowExecutionCall
                        {| get_DomainID := "domain";
                           get_Execution :=
                             {| WorkflowId := "wf"; RunId := "R1" |} |})
                     (S k))
               ++ tr)
       /\ Forall notStorage tr
       /\ fst run = Ok tt.
Proof.
  cbv zeta. split; [reflexivity |]. split; [reflexivity |].
  destruct (@first_load_installs_what_storage_returns MS ops healthyShard
              decls 0%nat emptyWorld
              (contextOf "R1" None (Some {| HistorySize := 0 |}) 0)
              eq_refl eq_refl) as (k & Hk & name & tr & Hrun & Htr & Hr).
  exists k, name, tr. split; [exact Hk |]. split; [exact Hrun |].
  split; [exact Htr | exact Hr].
Defined.

Lemma history_size_is_read_back_until_cleared_witness :
  let w := worldWith (currentRun 12) in
  contexts w !! 0%nat = Some (cachedContext (currentRun 12))
  /\ stats (cachedContext (currentRun 12)) = Some {| HistorySize := 120 |}
  /\ fst ((@setHistorySize MS 0%nat 500 ;;; @getHistorySize MS 0%nat) w)
     = Ok 500
  /\ fst ((@clear MS 0%nat ;;; @getHistorySize MS 0%nat) w)
     = Panicked NilPointerDereference.
Proof.
  cbv zeta. split; [reflexivity |]. split; [reflexivity |].
  destruct (@history_size_is_read_back_until_cleared MS 0%nat
              (worldWith (currentRun 12)) (cachedContext (currentRun 12))
              {| HistorySize := 120 |} 500 7 eq_refl eq_refl)
    as (_ & Hback & _ & Hcleared & _).
  rewrite Hback, Hcleared. split; reflexivity.
Defined.

Lemma failed_update_notifies_nobody_witness :
  let w := worldWith (currentRun 12) in
  let r := runUpdate brokenShard None None None w in
  r = (Err ErrConflict, snd r)
  /\ (exists tr,
        trace (snd r) = (trace w ++ tr)%list
        /\ Forall (fun call => isNotification call = false) tr)
  /\ conditionOf (snd r) = Some 10.
Proof.
  cbv zeta.
  assert (E : runUpdate brokenShard None None None (worldWith (currentRun 12))
              = (Err ErrConflict,
                 snd (runUpdate brokenShard None None None
                        (worldWith (currentRun 12)))))
    by (vm_compute; reflexivity).
  split; [exact E |].
  destruct (@failed_update_notifies_nobody MS ops brokenShard decls 0%nat 0
              None None transactionPolicyActive None _ _ _ E)
    as [Htrace Hcondition].
  split; [exact Htrace |]. unfold conditionOf. now rewrite Hcondition.
Defined.

Lemma reset_never_clears_nor_moves_the_condition_witness :
  let w := worldWith (currentRun 12) in
  let r := runReset brokenShard (newRun false [firstBatch]) w in
  r = (Err (OtherError "reset failed"), snd r)
  /\ cached w 0%nat
  /\ cached (snd r) 0%nat
  /\ conditionOf (snd r) = Some 10.
Proof.
  cbv zeta.
  assert (E : runReset brokenShard (newRun false [firstBatch])
                (worldWith (currentRun 12))
              = (Err (OtherError "reset failed"),
                 snd (runReset brokenShard (newRun false [firstBatch])
                        (worldWith (currentRun 12)))))
    by (vm_compute; reflexivity).
  assert (Hcached : cached (worldWith (currentRun 12)) 0%nat).
  { exists (cachedContext (currentRun 12)), (currentRun 12).
    split; reflexivity. }
  split; [exact E |]. split; [exact Hcached |].
  destruct (proj1 (@reset_never_clears_nor_moves_the_condition MS ops
                     brokenShard decls 0%nat (currentRun 12) true true None
                     None (newRun false [firstBatch]) 0 [] [] [] [] "R1" 10
                     _ _ _ E) 0%nat)
    as (Hcondition & _ & Hkept).
  split; [exact (Hkept Hcached) |].
  etransitivity; [exact Hcondition | reflexivity].
Defined.

Lemma reset_notifies_once_storage_accepts_witness :
  let w := worldWith (currentRun 12) in
  let r := runReset healthyShard (newRun false [firstBatch]) w in
  r = (Ok tt, snd r)
  /\ exists before request,
       Forall silentCall before
       /\ trace (snd r)
          = ((trace w ++ before)
             ++ ResetWorkflowExecutionCall request
             :: NotifyNewTransferTasks
                  (ws_TransferTasks (rst_NewWorkflowSnapshot request))
             :: NotifyNewReplicationTasks
                  (ws_ReplicationTasks (rst_NewWorkflowSnapshot request))
             :: NotifyNewTimerTasks
                  (ws_TimerTasks (rst_NewWorkflowSnapshot request))
             :: match CurrentWorkflowMutation request with
                | Some m =>
                    [NotifyNewTransferTasks (wm_TransferTasks m);
                     NotifyNewReplicationTasks (wm_ReplicationTasks m);
                     NotifyNewTimerTasks (wm_TimerTasks m)]
                | None => []
                end)%list.
Proof.
  cbv zeta.
  assert (E : runReset healthyShard (newRun false [firstBatch])
                (worldWith (currentRun 12))
              = (Ok tt,
                 snd (runReset healthyShard (newRun false [firstBatch])
                        (worldWith (currentRun 12)))))
    by (vm_compute; reflexivity).
  split; [exact E |].
  destruct (@reset_notifies_once_storage_accepts MS ops healthyShard decls
              0%nat (currentRun 12) true true None None
              (newRun false [firstBatch]) 0 [] [] [] [] "R1" 10 _ _ _ E)
    as (before & Hsilent & [[_ Hnot] | (request & Hrun)]).
  - now destruct (Hnot tt).
  - exists before, request. split; [exact Hsilent |]. exact (proj2 Hrun).
Defined.

Lemma reset_request_is_built_from_the_cache_witness :
  let w := worldWith (currentRun 12) in
  let r := runReset healthyShard (newRun false [firstBatch]) w in
  r = (Ok tt, snd r)
  /\ trace (snd r) = (trace w ++ trace (snd r))%list
  /\ exists request,
       In (ResetWorkflowExecutionCall request) (trace (snd r))
       /\ BaseRunID request = "R1"
       /\ BaseRunNextEventID request = 10
       /\ ws_ChildExecutionInfos (rst_NewWorkflowSnapshot request) = []
       /\ exists m x s,
            CurrentWorkflowMutation request = Some m
            /\ contexts (snd r) !! 0%nat = Some x
            /\ stats x = Some s
            /\ wm_Condition m = updateCondition x
            /\ wm_ExecutionStats m = Some {| HistorySize := HistorySize s |}
            /\ wm_ReplicationTasks m = [].
Proof.
  cbv zeta.
  assert (E : runReset healthyShard (newRun false [firstBatch])
                (worldWith (currentRun 12))
              = (Ok tt,
                 snd (runReset healthyShard (newRun false [firstBatch])
                        (worldWith (currentRun 12)))))
    by (vm_compute; reflexivity).
  split; [exact E |]. split; [reflexivity |].
  assert (Hin : exists request,
            In (ResetWorkflowExecutionCall request)
              (trace (snd (runReset healthyShard (newRun false [firstBatch])
                             (worldWith (currentRun 12)))))).
  { eexists. vm_compute. do 3 right. left. reflexivity. }
  destruct Hin as (request & Hin). exists request.
  split; [exact Hin |].
  destruct (@reset_request_is_built_from_the_cache MS ops healthyShard decls
              0%nat (currentRun 12) true true None None
              (newRun false [firstBatch]) 0 [] [] [] [] "R1" 10 _ _ _
              (trace (snd (runReset healthyShard (newRun false [firstBatch])
                             (worldWith (currentRun 12)))))
              request E eq_refl Hin)
    as (_ & Hbase & Hnext & _ & Hchildren & _ & _ & Hmutation).
  split; [exact Hbase |]. split; [exact Hnext |].
  split; [exact Hchildren | exact Hmutation].
Defined.

Lemma commit_writes_to_its_own_contexts_only_witness :
  let w := pairedWorld (currentRun 12) in
  let r := runCommit healthyShard (Update 0 transactionPolicyActive) w in
  r = (Ok tt, snd r)
  /\ 1%nat <> 0%nat
  /\ contexts (snd r) !! 1%nat = Some newRunContext.
Proof.
  cbv zeta.
  assert (E : runCommit healthyShard (Update 0 transactionPolicyActive)
                (pairedWorld (currentRun 12))
              = (Ok tt,
                 snd (runCommit healthyShard
                        (Update 0 transactionPolicyActive)
                        (pairedWorld (currentRun 12)))))
    by (vm_compute; reflexivity).
  assert (Hother : 1%nat <> 0%nat) by discriminate.
  split; [exact E |]. split; [exact Hother |].
  etransitivity;
    [exact (proj1 (@commit_writes_to_its_own_contexts_only MS ops
                     healthyShard decls 0%nat
                     (Update 0 transactionPolicyActive) 1%nat _ _ _ E Hother
                     I))
    | reflexivity].
Defined.

Lemma successful_update_caches_the_submitted_history_sizes_witness :
  let w := worldWith (currentRun 12) in
  let r := runUpdate healthyShard None None None w in
  r = (Ok tt, snd r)
  /\ (None : option contextRef) <> Some 0%nat
  /\ exists request before after,
       trace (snd r)
       = (trace w
          ++ before ++ UpdateWorkflowExecutionCall request :: after)%list
       /\ Forall (fun call => isUpdate call = false) before
       /\ (exists x,
             contexts (snd r) !! 0%nat = Some x
             /\ stats x <> None
             /\ wm_ExecutionStats (UpdateWorkflowMutation request) = stats x)
       /\ historySizeOf (snd r) = Some 320.
Proof.
  cbv zeta.
  assert (E : runUpdate healthyShard None None None
                (worldWith (currentRun 12))
              = (Ok tt,
                 snd (runUpdate healthyShard None None None
                        (worldWith (currentRun 12)))))
    by (vm_compute; reflexivity).
  assert (Hown : (None : option contextRef) <> Some 0%nat) by discriminate.
  split; [exact E |]. split; [exact Hown |].
  destruct (@successful_update_caches_the_submitted_history_sizes MS ops
              healthyShard decls 0%nat 0 None None transactionPolicyActive
              None _ _ E Hown)
    as (request & before & after & Htrace & Hbefore & Hcached & _).
  exists request, before, after. split; [exact Htrace |].
  split; [exact Hbefore |]. split; [exact Hcached |].
  vm_compute. reflexivity.
Defined.

Lemma successful_update_notifies_what_it_submitted_witness :
  let w := worldWith (currentRun 12) in
  let r := runUpdate healthyShard None None None w in
  r = (Ok tt, snd r)
  /\ exists before request k notification after,
       (k <= 2)%nat
       /\ Forall (fun call =>
                    isNotification call = false /\ isUpdate call = false)
            before
       /\ Forall (fun call =>
                    isNotification call = false
                    /\ isStorageCall call = false)
            after
       /\ trace (snd r)
          = (trace w ++ before
             ++ repeat (UpdateWorkflowExecutionCall request) (S k)
             ++ NotifyNewHistoryEvent notification
             :: NotifyNewTransferTasks
                  (wm_TransferTasks (UpdateWorkflowMutation request))
             :: NotifyNewReplicationTasks
                  (wm_ReplicationTasks (UpdateWorkflowMutation request))
             :: NotifyNewTimerTasks
                  (wm_TimerTasks (UpdateWorkflowMutation request))
             :: match NewWorkflowSnapshot request with
                | Some snapshot =>
                    [NotifyNewTransferTasks (ws_TransferTasks snapshot);
                     NotifyNewReplicationTasks
                       (ws_ReplicationTasks snapshot);
                     NotifyNewTimerTasks (ws_TimerTasks snapshot)]
                | None => []
                end
             ++ after)%list.
Proof.
  cbv zeta.
  assert (E : runUpdate healthyShard None None None
                (worldWith (currentRun 12))
              = (Ok tt,
                 snd (runUpdate healthyShard None None None
                        (worldWith (currentRun 12)))))
    by (vm_compute; reflexivity).
  split; [exact E |].
  exact (@successful_update_notifies_what_it_submitted MS ops healthyShard
           decls 0%nat 0 None None transactionPolicyActive None _ _ E).
Defined.

End MoreScenarios.
